(** * The MQL matching core: [engines/matching/v1.ts]

    A shallow embedding of the selector evaluator ([QueryMatcher]), the
    requirement resolver ([MQLMatcher]) and [matchCourses], together with the
    data they work on ([schema/courses/courses.ts], [schema/mql/mql.ts],
    [errors.ts]).

    JavaScript objects are compared by reference inside a [Set], the
    Placement selector draws a random UUID and a few handlers write to the
    console.  The embedding therefore threads a [World] (allocator, entropy,
    console) through every handler with a small state monad. *)

From Stdlib Require Import List String Ascii Bool Arith NArith ZArith QArith.
From Stdlib Require Import Lia Permutation Sorted DecimalString.
Import ListNotations.
Close Scope Q_scope.
Open Scope string_scope.
Open Scope list_scope.

Set Implicit Arguments.

(* ================================================================= *)
(** ** errors.ts *)

Inductive Result (T E : Type) : Type :=
| ok (data : T)
| err (error : E).
Arguments ok {T E} data.
Arguments err {T E} error.

(** [result.ok] *)
Definition is_ok {T E} (r : Result T E) : bool :=
  match r with ok _ => true | err _ => false end.

(* ================================================================= *)
(** ** JavaScript numbers and strings *)

(** A JavaScript number, as far as comparisons see it.  A finite double
    is a rational. *)
Inductive JsNumber : Type :=
| NaN
| Finite (q : Q)
| PosInfinity
| NegInfinity.

(** [a <= b] on numbers: every comparison with [NaN] is false. *)
Definition js_le (a b : JsNumber) : bool :=
  match a, b with
  | NaN, _ | _, NaN => false
  | NegInfinity, _ => true
  | _, PosInfinity => true
  | Finite x, Finite y => Qle_bool x y
  | _, _ => false
  end.

(** [U16] of [mql.ts]: a number that the validator keeps within 0..65535. *)
Definition U16 : Type := N.
Bind Scope N_scope with U16.

Definition U16_to_number (n : U16) : JsNumber := Finite (inject_Z (Z.of_N n)).

(** [`${n}`] for an integer [n]. *)
Definition U16_to_string (n : U16) : string :=
  NilZero.string_of_uint (N.to_uint n).

(** [s.split(sep)] for a one-character separator: never empty, the
    segments between the occurrences of [sep]. *)
Fixpoint split (sep : ascii) (s : string) : list string :=
  match s with
  | EmptyString => [EmptyString]
  | String c rest =>
      if Ascii.eqb c sep then EmptyString :: split sep rest
      else match split sep rest with
           | seg :: segs => String c seg :: segs
           | [] => [String c EmptyString]
           end
  end.

(** [xs.includes(x)] on an array of strings. *)
Definition includes (xs : list string) (x : string) : bool :=
  existsb (String.eqb x) xs.

(** [xs.some(p)] *)
Definition some {A} (p : A -> bool) (xs : list A) : bool := existsb p xs.

(* ================================================================= *)
(** ** schema/courses/courses.ts *)

Definition UUID : Type := string.

Record Course : Type := {
  codes : list string;
  tags : option (list string);      (* absent on records of the first schema *)
  title : string;
  credit : JsNumber;
  dist : option (list string);
  seasons : list string;
  season_codes : list string;
  version : option string;
  external_id : option Z;
  description : option string
}.

Record ManualFulfillment : Type := {
  filled : bool;
  mf_id : UUID;
  mf_description : string
}.

(** What a catalog position refers to: an object that exists before the
    engine runs.  [addr] is its identity, the only thing a [Set] compares. *)
Inductive CatalogObject : Type :=
| ACourse (c : Course)
| AManual (m : ManualFulfillment).

Record CatalogEntry : Type := {
  addr : nat;
  obj : CatalogObject
}.

(** The catalog argument [courseList]. *)
Definition Catalog : Type := list CatalogEntry.

(** An element of a result list: a reference to a catalog object, or an
    object that the engine itself created ([queryPlacement]'s placeholder,
    the array that [queryQuery] nests), with the reference it got. *)
#[warnings="-register-all"]
Inductive Element : Type :=
| FromCatalog (e : CatalogEntry)
| NewManual (ref : nat) (m : ManualFulfillment)
| NewList (ref : nat) (items : list Element).

(** [CourseList] as the type of results. *)
Definition CourseList : Type := list Element.

Inductive Ref : Type :=
| CatalogRef (a : nat)
| FreshRef (a : nat).

Definition Ref_eqb (r1 r2 : Ref) : bool :=
  match r1, r2 with
  | CatalogRef a, CatalogRef b => Nat.eqb a b
  | FreshRef a, FreshRef b => Nat.eqb a b
  | _, _ => false
  end.

Definition identity (x : Element) : Ref :=
  match x with
  | FromCatalog e => CatalogRef (addr e)
  | NewManual r _ => FreshRef r
  | NewList r _ => FreshRef r
  end.

(** SameValueZero on two object references. *)
Definition same_object (x y : Element) : bool :=
  Ref_eqb (identity x) (identity y).

(** A [Set] of objects keeps insertion order; [add] of a member is a no-op. *)
Definition JsSet : Type := list Element.

Definition Set_has (s : JsSet) (x : Element) : bool :=
  existsb (same_object x) s.

Definition Set_add (s : JsSet) (x : Element) : JsSet :=
  if Set_has s x then s else s ++ [x].

(** [for (const x of xs) s.add(x)] *)
Definition Set_addAll (s : JsSet) (xs : list Element) : JsSet :=
  fold_left Set_add xs s.

(* ================================================================= *)
(** ** schema/mql/mql.ts *)

Inductive Quantity : Type :=
| Single (n : U16)
| Many (from to : U16).

Inductive MQLQueryType : Type := Select | Limit.

Record Class : Type := {
  department_id : string;
  course_number : U16;
  lab : bool
}.

#[warnings="-register-all"]
Inductive Selector : Type :=
| SClass (c : Class)
| SPlacement (p : string)
| STag (t : string)
| STagCode (tag code : string)
| SDist (d : string)
| SDistCode (d code : string)
| SRange (from to : Class)
| SRangeDist (from to : Class) (d : string)
| SRangeTag (from to : Class) (tag : string)
| SQuery (q : MQLQuery)
with MQLQuery : Type :=
| Build_MQLQuery (quantity : Quantity) (type_ : MQLQueryType)
                 (selector : list Selector).

Definition quantity (q : MQLQuery) : Quantity :=
  match q with Build_MQLQuery n _ _ => n end.
Definition type_ (q : MQLQuery) : MQLQueryType :=
  match q with Build_MQLQuery _ t _ => t end.
Definition selector (q : MQLQuery) : list Selector :=
  match q with Build_MQLQuery _ _ s => s end.

(** [keyof Selector]: the one key a selector object carries. *)
Inductive SelectorKind : Type :=
| KClass | KPlacement | KTag | KTagCode | KDist | KDistCode
| KRange | KRangeDist | KRangeTag | KQuery.

(** [Object.keys(query)[0]] *)
Definition keyOf (s : Selector) : SelectorKind :=
  match s with
  | SClass _ => KClass
  | SPlacement _ => KPlacement
  | STag _ => KTag
  | STagCode _ _ => KTagCode
  | SDist _ => KDist
  | SDistCode _ _ => KDistCode
  | SRange _ _ => KRange
  | SRangeDist _ _ _ => KRangeDist
  | SRangeTag _ _ _ => KRangeTag
  | SQuery _ => KQuery
  end.

Record MQLRequirement : Type := {
  query : MQLQuery;
  req_description : string;
  priority : U16
}.

Record MQLQueryFile : Type := {
  file_version : string;
  requirements : list MQLRequirement
}.

(* ================================================================= *)
(** ** The interfaces of engines/matching/v1.ts *)

Record MatchingError : Type := {
  error_requirement : string;
  message : string;
  expectedCount : option (N * N);
  actualCount : option N
}.

(** [{ requirement, message }] *)
Definition mkError (req msg : string) : MatchingError :=
  {| error_requirement := req; message := msg;
     expectedCount := None; actualCount := None |}.

Record QueryResult : Type := {
  requirement : MQLRequirement;
  selectedCourses : CourseList
}.

Record MatchingEvaluationResult : Type := {
  results : list QueryResult;
  allSelectedCourses : CourseList
}.

(* ================================================================= *)
(** ** The runtime *)

(** Built-ins whose definition is the language's, not the repository's.
    The development is parametric in them ([JSON.stringify] of a query
    depends on the key order of the parsed document, which the typed value
    does not record). *)
Class JsRuntime : Type := {
  toLowerCase : string -> string;       (* String.prototype.toLowerCase *)
  Number : string -> JsNumber;          (* Number(str) *)
  JSON_stringify : MQLQuery -> string   (* JSON.stringify(mql) *)
}.

(** [String(mql)] of a plain object. *)
Definition String_of_object : string := "[object Object]".

(** The double-quote character of the messages. *)
Definition dquote : string := String (ascii_of_nat 34) EmptyString.

Inductive LogEntry : Type :=
| WarnCourse (e : CatalogEntry)     (* console.warn(course) *)
| WarnText (s : string)             (* console.warn("...") *)
| Trace.                            (* console.trace() *)

Record World : Type := {
  next_ref : nat;                 (* the next fresh object reference *)
  uuid_source : nat -> UUID;      (* what crypto.randomUUID() will return *)
  uuid_drawn : nat;               (* how many UUIDs were drawn *)
  console : list LogEntry         (* the console, oldest entry first *)
}.

Definition M (A : Type) : Type := World -> A * World.

Definition ret {A} (a : A) : M A := fun w => (a, w).

Definition bind {A B} (m : M A) (k : A -> M B) : M B :=
  fun w => let (a, w') := m w in k a w'.

Declare Scope monad_scope.
Delimit Scope monad_scope with monad.
Notation "x <- m ;; k" := (bind m (fun x => k))
  (at level 61, m at next level, right associativity) : monad_scope.
Notation "m ;;; k" := (bind m (fun _ => k))
  (at level 61, right associativity) : monad_scope.
Open Scope monad_scope.

(** A new object: its reference is one no other object has. *)
Definition alloc : M nat :=
  fun w => (next_ref w,
            {| next_ref := S (next_ref w); uuid_source := uuid_source w;
               uuid_drawn := uuid_drawn w; console := console w |}).

(** [crypto.randomUUID()] *)
Definition randomUUID : M UUID :=
  fun w => (uuid_source w (uuid_drawn w),
            {| next_ref := next_ref w; uuid_source := uuid_source w;
               uuid_drawn := S (uuid_drawn w); console := console w |}).

Definition log (e : LogEntry) : M unit :=
  fun w => (tt,
            {| next_ref := next_ref w; uuid_source := uuid_source w;
               uuid_drawn := uuid_drawn w; console := console w ++ [e] |}).

(** [xs.flatMap(f)] for a callback with effects. *)
Fixpoint flatMapM {A B} (f : A -> M (list B)) (xs : list A) : M (list B) :=
  match xs with
  | [] => ret []
  | x :: rest =>
      ys <- f x ;;
      zs <- flatMapM f rest ;;
      ret (ys ++ zs)
  end.

(* ================================================================= *)
(** ** class QueryMatcher *)

Module QueryMatcher.
Section WithRuntime.
Context {rt : JsRuntime}.

Definition Handler : Type :=
  MQLQuery -> Selector -> Catalog -> M (Result CourseList MatchingError).

(** The [TypeError: Expected .kind = ...] answer of a handler to a selector
    of another kind, with [String(mql)] as its context. *)
Definition typeError (kind : string) : MatchingError :=
  mkError String_of_object
          ("TypeError: Expected .kind = " ++ dquote ++ kind ++ dquote)%string.

Definition queryClass : Handler := fun mql selector courseList =>
  match selector with
  | SClass cls =>
      let fmt := (department_id cls ++ " " ++ U16_to_string (course_number cls))%string in
      let maybeCourses :=
        filter (fun course =>
                  match obj course with
                  | ACourse c => includes (codes c) fmt
                  | AManual _ => false                     (* !('codes' in course) *)
                  end) courseList in
      match maybeCourses with
      | [] => ret (err (mkError (JSON_stringify mql)
                                (fmt ++ " not found in catalog")%string))
      | _ => ret (ok (map FromCatalog maybeCourses))
      end
  | _ => ret (err (typeError "Class"))
  end.

Definition queryPlacement : Handler := fun mql selector _courseList =>
  match selector with
  | SPlacement text =>
      uuid <- randomUUID ;;
      ref <- alloc ;;
      let placement :=
        {| filled := false; mf_id := uuid; mf_description := text |} in
      ret (ok [NewManual ref placement])
  | _ => ret (err (typeError "Placement"))
  end.

(** [course.dist?.map(d => d.toLowerCase())?.includes?.(dist)] *)
Definition dist_includes (c : Course) (target : string) : bool :=
  match dist c with
  | Some ds => includes (map toLowerCase ds) target
  | None => false
  end.

Definition queryDist : Handler := fun mql selector courseList =>
  match selector with
  | SDist d =>
      let target := toLowerCase d in
      let maybeCourses :=
        filter (fun course =>
                  match obj course with
                  | ACourse c => dist_includes c target
                  | AManual _ => false
                  end) courseList in
      match maybeCourses with
      | [] => ret (err (mkError (JSON_stringify mql)
                                ("DIST(" ++ d ++ ") not found in catalog")%string))
      | _ => ret (ok (map FromCatalog maybeCourses))
      end
  | _ => ret (err (typeError "Dist"))
  end.

(** [code.split(' ')[0]] *)
Definition department_of (code : string) : string :=
  hd EmptyString (split " " code).

(** [course.codes.some((code) => code.split(' ')[0] === dep)] *)
Definition some_code_in (dep : string) (c : Course) : bool :=
  some (fun code => String.eqb (department_of code) dep) (codes c).

(** The [courseFilter] closure of [queryDistCode]. *)
Definition courseFilter (target dep : string) (course : CatalogEntry) : bool :=
  match obj course with
  | ACourse c =>
      match dist c with
      | None => false                                  (* !('dist' in course) *)
      | Some _ => some_code_in dep c && dist_includes c target
      end
  | AManual _ => false
  end.

Definition queryDistCode : Handler := fun mql selector courseList =>
  match selector with
  | SDistCode d dep =>
      let target := toLowerCase d in
      let maybeCourses := filter (courseFilter target dep) courseList in
      match maybeCourses with
      | [] => ret (err (mkError (JSON_stringify mql)
                 ("DIST_DEPT(" ++ d ++ ", " ++ dep ++ ") not found in catalog")%string))
      | _ => ret (ok (map FromCatalog maybeCourses))
      end
  | _ => ret (err (typeError "DistCode"))
  end.

(** How the [for] loop over a course's split codes ends. *)
Inductive Scan : Type :=
| Found          (* return [course] *)
| SoftError      (* a code of another shape: warn, return [] *)
| Exhausted.     (* the loop ran out: return [] *)

Fixpoint scanCodes (from to : Class) (splits : list (list string)) : Scan :=
  match splits with
  | [] => Exhausted
  | maybeSplit :: rest =>
      match maybeSplit with
      | [dep; numStr] =>
          let num := Number numStr in
          if negb (String.eqb dep (department_id from)) then scanCodes from to rest
          else if js_le (U16_to_number (course_number from)) num
                  && js_le num (U16_to_number (course_number to))
               then Found
               else scanCodes from to rest
      | _ => SoftError
      end
  end.

(** The callback that [queryRange] hands to [flatMap]. *)
Definition rangeCallback (from to : Class) (course : CatalogEntry)
  : M (list CatalogEntry) :=
  match obj course with
  | AManual _ => ret []
  | ACourse c =>
      match scanCodes from to (map (split " ") (codes c)) with
      | Found => ret [course]
      | SoftError => log (WarnCourse course) ;;; ret []
      | Exhausted => ret []
      end
  end.

Definition queryRange : Handler := fun mql selector courseList =>
  match selector with
  | SRange from to =>
      if negb (String.eqb (department_id from) (department_id to)) then
        ret (err (mkError String_of_object
               ("RANGE on different department IDs: " ++ department_id from
                ++ " != " ++ department_id to)%string))
      else
        maybeCourses <- flatMapM (rangeCallback from to) courseList ;;
        match maybeCourses with
        | [] => ret (err (mkError (JSON_stringify mql)
                   ("RANGE(" ++ department_id from ++ U16_to_string (course_number from)
                    ++ ", " ++ department_id to ++ U16_to_string (course_number to)
                    ++ ") not found in catalog")%string))
        | _ => ret (ok (map FromCatalog maybeCourses))
        end
  | _ => ret (err (typeError "Range"))
  end.

Definition queryRangeDist : Handler := fun mql selector _courseList =>
  log (WarnText "queryRangeDist is deprecated: all `queryRangeX` functions are not stable") ;;;
  match selector with
  | SRangeDist _ _ _ =>
      ret (err (mkError String_of_object "queryRangeDist: unimplemented"))
  | _ => ret (err (typeError "RangeDist"))
  end.

Definition queryRangeTag : Handler := fun mql selector _courseList =>
  log (WarnText "queryRangeTag is deprecated: all `queryRangeX` functions are not stable") ;;;
  match selector with
  | SRangeTag _ _ _ =>
      ret (err (mkError String_of_object "queryRangeTag: unimplemented"))
  | _ => ret (err (typeError "RangeTag"))
  end.

(** ['tags' in course && course.tags.includes(tag)] *)
Definition tags_include (c : Course) (tag : string) : bool :=
  match tags c with
  | Some ts => includes ts tag
  | None => false
  end.

Definition queryTag : Handler := fun mql selector courseList =>
  match selector with
  | STag tag =>
      let maybeCourses :=
        filter (fun course =>
                  match obj course with
                  | ACourse c => tags_include c tag
                  | AManual _ => false
                  end) courseList in
      match maybeCourses with
      | [] => ret (err (mkError (JSON_stringify mql)
                                ("TAG(" ++ tag ++ ") not found in catalog")%string))
      | _ => ret (ok (map FromCatalog maybeCourses))
      end
  | _ => ret (err (typeError "Tag"))
  end.

(** The filter closure of [queryTagCode]. *)
Definition tagCodeFilter (tag dep : string) (course : CatalogEntry) : bool :=
  match obj course with
  | ACourse c =>
      match tags c with
      | None => false                                  (* !('tags' in course) *)
      | Some ts => some_code_in dep c && includes ts tag
      end
  | AManual _ => false
  end.

Definition queryTagCode : Handler := fun mql selector courseList =>
  match selector with
  | STagCode tag dep =>
      let maybeCourses := filter (tagCodeFilter tag dep) courseList in
      match maybeCourses with
      | [] => ret (err (mkError (JSON_stringify mql)
                 ("TAG_DEPT(" ++ tag ++ ", " ++ dep ++ ") not found in catalog")%string))
      | _ => ret (ok (map FromCatalog maybeCourses))
      end
  | _ => ret (err (typeError "TagCode"))
  end.

(** The methods below call each other through [this]: [queryQuery] calls
    [this.match], [matchFlatten] and [matchTop] go through
    [this.selectorVTable].  [this_match] stands for [this.match] until
    [match_] closes the recursion. *)
Section This.
Variable this_match : Catalog -> MQLQuery -> bool -> M (Result CourseList MatchingError).

Definition queryQuery : Handler := fun mql selector courseList =>
  match selector with
  | SQuery q =>
      result <- this_match courseList q false ;;
      match result with
      | err e => log Trace ;;; ret (err e)
      | ok data =>
          (* the array [result.data] becomes an element: it is a new
             object, and gets its reference here *)
          ref <- alloc ;;
          ret (ok [NewList ref data])
      end
  | _ => ret (err (typeError "Range"))
  end.

(** The table has a handler under each of the ten keys, so the
    [if (!handler)] guard of [matchFlatten] and [matchTop] never fires
    and has no counterpart here. *)
Definition selectorVTable (key : SelectorKind) : Handler :=
  match key with
  | KClass => queryClass
  | KPlacement => queryPlacement
  | KTag => queryTag
  | KTagCode => queryTagCode
  | KDist => queryDist
  | KDistCode => queryDistCode
  | KRange => queryRange
  | KRangeDist => queryRangeDist
  | KRangeTag => queryRangeTag
  | KQuery => queryQuery
  end.

(** The [for (const query of mql.selector)] loop of [matchFlatten],
    from the selectors still to visit and the set built so far. *)
Definition flattenLoop (courseList : Catalog) (mql : MQLQuery)
  : list Selector -> JsSet -> M (Result CourseList MatchingError) :=
  fix loop (queries : list Selector) (flattened : JsSet) :=
    match queries with
    | [] => ret (ok flattened)
    | query :: rest =>
        let key := keyOf query in
        let handler := selectorVTable key in
        parsed <- handler mql query courseList ;;
        match parsed with
        | err e => ret (err e)
        | ok data => loop rest (Set_addAll flattened data)
        end
    end.

Definition matchFlatten_ (courseList : Catalog) (mql : MQLQuery)
  : M (Result CourseList MatchingError) :=
  flattenLoop courseList mql (selector mql) [].

Definition matchTop_ (courseList : Catalog) (mql : MQLQuery)
  : M (Result CourseList MatchingError) :=
  match selector mql with
  | [rootQuery] =>
      let key := keyOf rootQuery in
      let handler := selectorVTable key in
      handler mql rootQuery courseList
  | _ => ret (err (mkError "MQL structure" "top level MQL should have one query"))
  end.
End This.

Fixpoint match_ (courseList : Catalog) (mql : MQLQuery) (limitOne : bool) {struct mql}
  : M (Result CourseList MatchingError) :=
  if limitOne then matchTop_ match_ courseList mql
  else matchFlatten_ match_ courseList mql.

Definition matchFlatten : Catalog -> MQLQuery -> M (Result CourseList MatchingError) :=
  matchFlatten_ match_.
Definition matchTop : Catalog -> MQLQuery -> M (Result CourseList MatchingError) :=
  matchTop_ match_.

End WithRuntime.
End QueryMatcher.

(* ================================================================= *)
(** ** Array.prototype.sort *)

(** [xs.sort(cmp)] is stable, and for a comparator that is a consistent
    ordering its result does not depend on the engine's algorithm: it is the
    one permutation that is ordered by [cmp] and keeps the elements that
    compare equal in their order.  Insertion from the right computes it. *)
Section Sort.
Variable A : Type.
Variable cmp : A -> A -> Z.

Fixpoint insert (x : A) (l : list A) : list A :=
  match l with
  | [] => [x]
  | y :: l' => if (cmp x y <=? 0)%Z then x :: l else y :: insert x l'
  end.

Definition sort (l : list A) : list A := fold_right insert [] l.
End Sort.

(* ================================================================= *)
(** ** class MQLMatcher *)

Module MQLMatcher.
Section WithRuntime.
Context {rt : JsRuntime}.

(** [(a, b) => b.priority - a.priority] *)
Definition byPriority (a b : MQLRequirement) : Z :=
  (Z.of_N (priority b) - Z.of_N (priority a))%Z.

(** The [for (const requirement of sortedRequirements)] loop, from the
    requirements still to visit and the three accumulators. *)
Fixpoint resolveLoop (courseList : Catalog) (todo : list MQLRequirement)
    (errors : list MatchingError) (usedCourses : JsSet) (results : list QueryResult)
  : M (list MatchingError * JsSet * list QueryResult) :=
  match todo with
  | [] => ret (errors, usedCourses, results)
  | requirement :: rest =>
      selected <- QueryMatcher.match_ courseList (query requirement) false ;;
      match selected with
      | err e => resolveLoop courseList rest (errors ++ [e]) usedCourses results
      | ok data =>
          resolveLoop courseList rest errors
            (Set_addAll usedCourses data)
            (results ++ [{| requirement := requirement; selectedCourses := data |}])
      end
  end.

Definition match_ (courseList : Catalog) (mql : MQLQueryFile)
  : M (Result MatchingEvaluationResult (list MatchingError)) :=
  let sortedRequirements := sort byPriority (requirements mql) in
  final <- resolveLoop courseList sortedRequirements [] [] [] ;;
  let '(errors, usedCourses, results) := final in
  let evaluationResult :=
    {| results := results; allSelectedCourses := usedCourses |} in
  match errors with
  | [] => ret (ok evaluationResult)
  | _ => ret (err errors)
  end.

End WithRuntime.
End MQLMatcher.

Definition matchCourses {rt : JsRuntime} (courseList : Catalog) (mql : MQLQueryFile)
  : M (Result MatchingEvaluationResult (list MatchingError)) :=
  MQLMatcher.match_ courseList mql.

(** [isSuccessfulMatch] *)
Definition isSuccessfulMatch
  (result : Result MatchingEvaluationResult (list MatchingError)) : bool :=
  is_ok result.

(* ================================================================= *)
(** ** A runtime to run the engine on ASCII inputs *)

Definition lower_ascii (c : ascii) : ascii :=
  let n := nat_of_ascii c in
  if (65 <=? n)%nat && (n <=? 90)%nat then ascii_of_nat (n + 32) else c.

Fixpoint lower_string (s : string) : string :=
  match s with
  | EmptyString => EmptyString
  | String c rest => String (lower_ascii c) (lower_string rest)
  end.

Definition digit_of (c : ascii) : option Z :=
  let n := nat_of_ascii c in
  if (48 <=? n)%nat && (n <=? 57)%nat then Some (Z.of_nat (n - 48)) else None.

Fixpoint digits_value (acc : Z) (s : string) : option Z :=
  match s with
  | EmptyString => Some acc
  | String c rest =>
      match digit_of c with
      | Some d => digits_value (10 * acc + d)%Z rest
      | None => None
      end
  end.

(** [Number] on strings of decimal digits (and on [""], which is [0]);
    [NaN] elsewhere. *)
Definition digits_Number (s : string) : JsNumber :=
  match digits_value 0 s with
  | Some z => Finite (inject_Z z)
  | None => NaN
  end.

(** On ASCII letters [lower_string] is [toLowerCase], on strings of digits
    [digits_Number] is [Number]; serialisation is left blank. *)
Definition ascii_runtime : JsRuntime := {|
  toLowerCase := lower_string;
  Number := digits_Number;
  JSON_stringify := fun _ => "<mql>"
|}.

(* ================================================================= *)
(** ** Running a computation *)

Definition result_of {A} (m : M A) (w : World) : A := fst (m w).
Definition world_after {A} (m : M A) (w : World) : World := snd (m w).

(** A version-4 UUID for each [n]: [n] in decimal, padded to the last
    twelve digits. *)
Definition sample_uuid (n : nat) : UUID :=
  let digits := U16_to_string (N.of_nat n) in
  ("00000000-0000-4000-8000-"
   ++ string_of_list_ascii (repeat "0"%char (12 - String.length digits))
   ++ digits)%string.

(** The world in which nothing has happened yet, with [sample_uuid] as the
    UUIDs to come. *)
Definition fresh_world : World := {|
  next_ref := 0;
  uuid_source := sample_uuid;
  uuid_drawn := 0;
  console := []
|}.


(* ================================================================= *)
(** ** Values parsed from JSON *)

(** What [JSON.parse] returns.  An object is its own properties in
    insertion order, each key once. *)
#[warnings="-register-all"]
Inductive JSON : Type :=
| JNull
| JBool (b : bool)
| JNumber (n : JsNumber)
| JString (s : string)
| JArray (items : list JSON)
| JObject (fields : list (string * JSON)).

(** [value[key]]: [None] is [undefined], and [key in value] is
    [get key fields <> None]. *)
Fixpoint get (key : string) (fields : list (string * JSON)) : option JSON :=
  match fields with
  | [] => None
  | (k, v) :: rest => if String.eqb k key then Some v else get key rest
  end.

(** The strings of [value] when [Array.isArray(value)] and every item is
    a string. *)
Fixpoint strings_of_items (items : list JSON) : option (list string) :=
  match items with
  | [] => Some []
  | JString s :: rest =>
      match strings_of_items rest with
      | Some ss => Some (s :: ss)
      | None => None
      end
  | _ :: _ => None
  end.

Definition strings_of (value : option JSON) : option (list string) :=
  match value with
  | Some (JArray items) => strings_of_items items
  | _ => None
  end.

(** [Number.isInteger(n)] *)
Definition isInteger (n : JsNumber) : bool :=
  match n with
  | Finite q => Z.eqb (Z.modulo (Qnum q) (Zpos (Qden q))) 0
  | _ => false
  end.

(** [isNaN(n)] *)
Definition isNaN (n : JsNumber) : bool :=
  match n with
  | NaN => true
  | _ => false
  end.

(** [`${n}`] for an array index. *)
Definition index_to_string (n : nat) : string :=
  NilZero.string_of_uint (Nat.to_uint n).

(** [parseFloat], a built-in like those of [JsRuntime]. *)
Class JsParsing : Type := {
  parseFloat : string -> JsNumber
}.

(* ================================================================= *)
(** ** schema/courses/validators/v2.ts: class CourseValidator *)

Module CourseValidator.

Record CoursesValidationError : Type := {
  path : string;
  message : string
}.

(** The two private fields of the validator. *)
Record State : Type := {
  errors : list CoursesValidationError;
  currentPath : list string
}.

Definition V (A : Type) : Type := State -> A * State.

Definition vret {A} (a : A) : V A := fun st => (a, st).

Definition vbind {A B} (m : V A) (k : A -> V B) : V B :=
  fun st => let (a, st') := m st in k a st'.

Declare Scope validator_scope.
Notation "x <- m ;; k" := (vbind m (fun x => k))
  (at level 61, m at next level, right associativity) : validator_scope.
Notation "m ;;; k" := (vbind m (fun _ => k))
  (at level 61, right associativity) : validator_scope.
Local Open Scope validator_scope.

Definition pushPath (segment : string) : V unit :=
  fun st => (tt, {| errors := errors st; currentPath := currentPath st ++ [segment] |}).

Definition popPath : V unit :=
  fun st => (tt, {| errors := errors st; currentPath := removelast (currentPath st) |}).

(** [this.errors.push({ path: this.currentPath.join("."), message })] *)
Definition addError (msg : string) : V unit :=
  fun st => (tt, {| errors := errors st ++ [ {| path := String.concat "." (currentPath st);
                                                message := msg |} ];
                    currentPath := currentPath st |}).

(** What [validateAndMapCourse] returns: the object literal of a course,
    or the empty object for an entry that is no object. *)
Inductive MappedEntry : Type :=
| EmptyObject
| Mapped (c : Course).

Definition validateAndMapCourseCode (code : JSON) : V (option string) :=
  match code with
  | JObject fields =>
      match get "department" fields with
      | None => addError "Missing 'department' field" ;;; vret None
      | Some (JString department) =>
          match get "number" fields with
          | None => addError "Missing 'number' field" ;;; vret None
          | Some (JString number) => vret (Some (department ++ " " ++ number)%string)
          | Some _ => addError "'number' must be a string" ;;; vret None
          end
      | Some _ => addError "'department' must be a string" ;;; vret None
      end
  | _ => addError "Course code entry must be an object" ;;; vret None
  end.

(** [course.course_codes.forEach((code, index) => ...)], from the index
    [index] and the codes pushed so far. *)
Fixpoint forEachCode (items : list JSON) (index : nat) (codes : list string)
  : V (list string) :=
  match items with
  | [] => vret codes
  | code :: rest =>
      pushPath ("course_codes[" ++ index_to_string index ++ "]")%string ;;;
      flat <- validateAndMapCourseCode code ;;
      let codes' := match flat with
                    | Some c => if String.eqb c EmptyString then codes else codes ++ [c]
                    | None => codes
                    end in
      popPath ;;;
      forEachCode rest (S index) codes'
  end.

Section WithParsing.
Context {parsing : JsParsing}.

Definition validateAndMapCourse (course : JSON) : V MappedEntry :=
  match course with
  | JObject fields =>
      (* external_id (Optional) *)
      match get "external_id" fields with
      | None => vret tt
      | Some (JNumber n) =>
          if isInteger n then vret tt else addError "'external_id' must be an integer"
      | Some _ => addError "'external_id' must be an integer"
      end ;;;
      (* title (Required) *)
      match get "title" fields with
      | None => addError "Missing 'title' field"
      | Some (JString _) => vret tt
      | Some _ => addError "'title' must be a string"
      end ;;;
      (* description (Optional) *)
      match get "description" fields with
      | None | Some (JString _) => vret tt
      | Some _ => addError "'description' must be a string"
      end ;;;
      (* credits -> credit (Required) *)
      credit <-
        match get "credits" fields with
        | None => addError "Missing 'credits' field" ;;; vret (Finite 0)
        | Some (JString credits) =>
            if isNaN (parseFloat credits)
            then addError ("'credits' must be a numeric string (e.g. " ++ dquote
                           ++ "1.0" ++ dquote ++ ")")%string ;;; vret (Finite 0)
            else vret (parseFloat credits)
        | Some _ =>
            addError ("'credits' must be a numeric string (e.g. " ++ dquote
                      ++ "1.0" ++ dquote ++ ")")%string ;;; vret (Finite 0)
        end ;;
      (* distributionals -> dist (Optional) *)
      match get "distributionals" fields, strings_of (get "distributionals" fields) with
      | Some _, None => addError "'distributionals' must be an array of strings"
      | _, _ => vret tt
      end ;;;
      (* course_tag -> tags (Optional, default []) *)
      match get "course_tag" fields, strings_of (get "course_tag" fields) with
      | Some _, None => addError "'course_tag' must be an array of strings"
      | _, _ => vret tt
      end ;;;
      (* course_codes -> codes (Required) *)
      codes <-
        match get "course_codes" fields with
        | None => addError "Missing 'course_codes' field" ;;; vret []
        | Some (JArray items) => forEachCode items 0 []
        | Some _ => addError "'course_codes' must be an array" ;;; vret []
        end ;;
      vret (Mapped {|
        codes := codes;
        tags := Some (match strings_of (get "course_tag" fields) with
                      | Some ts => ts
                      | None => []
                      end);
        title := match get "title" fields with
                 | Some (JString t) => t
                 | _ => EmptyString
                 end;
        credit := credit;
        dist := strings_of (get "distributionals" fields);
        seasons := [];
        season_codes := [];
        version := Some "v2";
        external_id := match get "external_id" fields with
                       | Some (JNumber (Finite q)) =>
                           if isInteger (Finite q)
                           then Some (Z.div (Qnum q) (Zpos (Qden q)))
                           else None
                       | _ => None
                       end;
        description := match get "description" fields with
                       | Some (JString d) => Some d
                       | _ => None
                       end
      |})
  | _ => addError "Course entry must be an object" ;;; vret EmptyObject
  end.

(** [list.map((entry, index) => ...)], from the index [index]. *)
Fixpoint validateAndMapCourseList_from (entries : list JSON) (index : nat)
  : V (list MappedEntry) :=
  match entries with
  | [] => vret []
  | entry :: rest =>
      pushPath ("[" ++ index_to_string index ++ "]")%string ;;;
      mapped <- validateAndMapCourse entry ;;
      popPath ;;;
      others <- validateAndMapCourseList_from rest (S index) ;;
      vret (mapped :: others)
  end.

Definition validateAndMapCourseList (entries : list JSON) : V (list MappedEntry) :=
  validateAndMapCourseList_from entries 0.

(** [validate], from whatever state an earlier call left: the two fields
    are reset first. *)
Definition validate (data : JSON)
  : V (Result (list MappedEntry) (list CoursesValidationError)) :=
  fun _ =>
    let st0 := {| errors := []; currentPath := [] |} in
    match data with
    | JArray entries =>
        let (mapped, st) := validateAndMapCourseList entries st0 in
        match errors st with
        | [] => (ok mapped, st)
        | _ => (err (errors st), st)
        end
    | _ => (err [ {| path := "root"; message := "Root must be an array of courses" |} ], st0)
    end.

(** [validateCourses]: a new validator, one call. *)
Definition validateCourses (data : JSON)
  : Result (list MappedEntry) (list CoursesValidationError) :=
  fst (validate data {| errors := []; currentPath := [] |}).

(** [isCourseList] *)
Definition isCourseList (data : JSON) : bool := is_ok (validateCourses data).

End WithParsing.
End CourseValidator.

(** The catalog that the engine receives from [validate]: each mapped
    course is an object of its own, here with its index as its address. *)
Fixpoint catalog_from (index : nat) (mapped : list CourseValidator.MappedEntry) : Catalog :=
  match mapped with
  | [] => []
  | CourseValidator.Mapped c :: rest =>
      {| addr := index; obj := ACourse c |} :: catalog_from (S index) rest
  | CourseValidator.EmptyObject :: rest => catalog_from (S index) rest
  end.

(* ================================================================= *)
(** ** schema/mql/validators/v1.ts: class MQLValidator *)

(** [String.prototype.trim] and [String(value)], built-ins like those of
    [JsRuntime]. *)
Class JsStrings : Type := {
  trim : string -> string;
  String_of_value : JSON -> string     (* `${value}` *)
}.

(** [a === b] on two values of a parsed document: two objects or two
    arrays of it are never the same object. *)
Definition strict_equal (a b : option JSON) : bool :=
  match a, b with
  | None, None => true
  | Some JNull, Some JNull => true
  | Some (JBool x), Some (JBool y) => Bool.eqb x y
  | Some (JNumber (Finite x)), Some (JNumber (Finite y)) => Qeq_bool x y
  | Some (JNumber PosInfinity), Some (JNumber PosInfinity) => true
  | Some (JNumber NegInfinity), Some (JNumber NegInfinity) => true
  | Some (JString x), Some (JString y) => String.eqb x y
  | _, _ => false
  end.

(** [a > b] on numbers. *)
Definition js_gt (a b : JsNumber) : bool :=
  match a, b with
  | NaN, _ | _, NaN => false
  | PosInfinity, PosInfinity => false
  | PosInfinity, _ => true
  | Finite x, Finite y => negb (Qle_bool x y)
  | Finite _, NegInfinity => true
  | _, _ => false
  end.

(** [`${n}`] for an integer [n] that is not negative. *)
Definition integer_to_string (n : JsNumber) : string :=
  match n with
  | Finite q => U16_to_string (Z.to_N (Z.div (Qnum q) (Zpos (Qden q))))
  | _ => EmptyString
  end.

Definition is_digit (c : ascii) : bool :=
  (48 <=? nat_of_ascii c)%nat && (nat_of_ascii c <=? 57)%nat.

Definition is_upper (c : ascii) : bool :=
  (65 <=? nat_of_ascii c)%nat && (nat_of_ascii c <=? 90)%nat.

Fixpoint all_chars (p : ascii -> bool) (s : string) : bool :=
  match s with
  | EmptyString => true
  | String c rest => p c && all_chars p rest
  end.

(** [/^\d+$/.test(s)] *)
Definition digits (s : string) : bool :=
  negb (String.eqb s EmptyString) && all_chars is_digit s.

(** [/^[A-Z]{2,4}$/.test(s)] *)
Definition department_format (s : string) : bool :=
  (2 <=? String.length s)%nat && (String.length s <=? 4)%nat && all_chars is_upper s.

Section Traversal.
Context {A : Type}.
Variable absent : A.
Variable present : JSON -> A.
Variable key : string.

(** What to do with [value[key]]: [present] on the property, [absent]
    when there is none. *)
Fixpoint field (fields : list (string * JSON)) : A :=
  match fields with
  | [] => absent
  | (k, v) :: rest => if String.eqb k key then present v else field rest
  end.

End Traversal.

Section ForEach.
Variable callback : JSON -> nat -> CourseValidator.V unit.

(** [items.forEach((item, index) => ...)], from the index [index]. *)
Fixpoint forEach_from (items : list JSON) (index : nat) : CourseValidator.V unit :=
  match items with
  | [] => CourseValidator.vret tt
  | item :: rest =>
      CourseValidator.vbind (callback item index) (fun _ => forEach_from rest (S index))
  end.

End ForEach.

Definition forEach (callback : JSON -> nat -> CourseValidator.V unit)
    (items : list JSON) : CourseValidator.V unit :=
  forEach_from callback items 0.

Module MQLValidator.

(** [MQLValidationError] has the fields of [CoursesValidationError], and
    the class has the two private fields and the three helpers [pushPath],
    [popPath] and [addError] of [CourseValidator], with the same text:
    they are taken from there. *)
Import CourseValidator.
Local Open Scope validator_scope.

Definition MQLValidationError : Type := CoursesValidationError.

(** [isObject] *)
Definition isObject (value : option JSON) : bool :=
  match value with
  | Some (JObject _) => true
  | _ => false
  end.

(** [isU16] *)
Definition isU16 (value : option JSON) : bool :=
  match value with
  | Some (JNumber n) =>
      isInteger n && js_le (Finite 0) n && js_le n (Finite (inject_Z 65535))
  | _ => false
  end.

(** [isValidQueryType] *)
Definition isValidQueryType (type : option JSON) : bool :=
  strict_equal type (Some (JString "Select"))
  || strict_equal type (Some (JString "Limit")).

(** [isValidVersion]: [/^\d+\.\d+\.\d+$/.test(version)] *)
Definition isValidVersion (version : string) : bool :=
  match split "." version with
  | [major; minor; patch] => digits major && digits minor && digits patch
  | _ => false
  end.

Definition validateClass (cls : JSON) : V unit :=
  match cls with
  | JObject fields =>
      match get "department_id" fields with
      | None => addError "Missing 'department_id' field"
      | Some (JString department_id) =>
          if department_format department_id then vret tt
          else addError ("Invalid department_id format: " ++ department_id)%string
      | Some _ => addError "'department_id' must be a string"
      end ;;;
      match get "course_number" fields with
      | None => addError "Missing 'course_number' field"
      | Some _ =>
          if isU16 (get "course_number" fields) then vret tt
          else addError "'course_number' must be a valid U16"
      end ;;;
      match get "lab" fields with
      | None => addError "Missing 'lab' field"
      | Some (JBool _) => vret tt
      | Some _ => addError "'lab' must be a boolean"
      end
  | _ => addError "Class must be an object"
  end.

(** [!(key in value) || typeof value[key] !== "string"] *)
Definition not_a_string (value : option JSON) : bool :=
  match value with
  | Some (JString _) => false
  | _ => true
  end.

Definition validateTagCode (tagCode : JSON) : V unit :=
  match tagCode with
  | JObject fields =>
      (if not_a_string (get "tag" fields) then addError "'tag' must be a string"
       else vret tt) ;;;
      (if not_a_string (get "code" fields) then addError "'code' must be a string"
       else vret tt)
  | _ => addError "TagCode must be an object"
  end.

Definition validateDistCode (distCode : JSON) : V unit :=
  match distCode with
  | JObject fields =>
      (if not_a_string (get "dist" fields) then addError "'dist' must be a string"
       else vret tt) ;;;
      (if not_a_string (get "code" fields) then addError "'code' must be a string"
       else vret tt)
  | _ => addError "DistCode must be an object"
  end.

(** [value[key]] of a value that may be no object: [range.from.course_number]
    is read only after [isObject(range.from)]. *)
Definition property (value : option JSON) (key : string) : option JSON :=
  match value with
  | Some (JObject fields) => get key fields
  | _ => None
  end.

(** [value] as a number, once [isU16(value)]. *)
Definition number_of (value : option JSON) : JsNumber :=
  match value with
  | Some (JNumber n) => n
  | _ => NaN
  end.

Definition validateRange (range : JSON) : V unit :=
  match range with
  | JObject fields =>
      match get "from" fields with
      | None => addError "Missing 'from' field"
      | Some from => pushPath "from" ;;; validateClass from ;;; popPath
      end ;;;
      match get "to" fields with
      | None => addError "Missing 'to' field"
      | Some to => pushPath "to" ;;; validateClass to ;;; popPath
      end ;;;
      (* Validate range ordering *)
      let from := get "from" fields in
      let to := get "to" fields in
      if isObject from && isObject to
         && strict_equal (property from "department_id") (property to "department_id")
         && isU16 (property from "course_number")
         && isU16 (property to "course_number")
      then
        if js_gt (number_of (property from "course_number"))
                 (number_of (property to "course_number"))
        then addError ("Range 'from' course_number ("
                       ++ integer_to_string (number_of (property from "course_number"))
                       ++ ") cannot be greater than 'to' ("
                       ++ integer_to_string (number_of (property to "course_number"))
                       ++ ")")%string
        else vret tt
      else vret tt
  | _ => addError "Range must be an object"
  end.

Definition validateRangeDist (rangeDist : JSON) : V unit :=
  match rangeDist with
  | JObject fields =>
      validateRange rangeDist ;;;
      match get "dist" fields with
      | None => addError "Missing 'dist' field"
      | Some (JString _) => vret tt
      | Some _ => addError "'dist' must be a string"
      end
  | _ => addError "RangeDist must be an object"
  end.

Definition validateRangeTag (rangeTag : JSON) : V unit :=
  match rangeTag with
  | JObject fields =>
      validateRange rangeTag ;;;
      match get "tag" fields with
      | None => addError "Missing 'tag' field"
      | Some (JString _) => vret tt
      | Some _ => addError "'tag' must be a string"
      end
  | _ => addError "RangeTag must be an object"
  end.

Definition validateQuantity (quantity : JSON) : V unit :=
  match quantity with
  | JObject fields =>
      match get "Single" fields, get "Many" fields with
      | Some single, _ =>
          (if isU16 (Some single) then vret tt
           else addError "'Single' must be a valid U16 (0-65535)") ;;;
          (if strict_equal (Some single) (Some (JNumber (Finite 0)))
           then addError "'Single' quantity must be greater than 0"
           else vret tt)
      | None, Some (JObject many) =>
          (if isU16 (get "from" many) then vret tt
           else addError "'Many.from' must be a valid U16") ;;;
          (if isU16 (get "to" many) then vret tt
           else addError "'Many.to' must be a valid U16") ;;;
          (if isU16 (get "from" many) && isU16 (get "to" many)
              && js_gt (number_of (get "from" many)) (number_of (get "to" many))
           then addError ("'Many.from' (" ++ integer_to_string (number_of (get "from" many))
                          ++ ") cannot be greater than 'Many.to' ("
                          ++ integer_to_string (number_of (get "to" many)) ++ ")")%string
           else vret tt)
      | None, Some _ => addError "'Many' must be an object with 'from' and 'to' fields"
      | None, None => addError "Quantity must have either 'Single' or 'Many' field"
      end
  | _ => addError "Quantity must be an object"
  end.

Section WithStrings.
Context {strings : JsStrings}.

Section Selectors.
Variable validateSelector : JSON -> V unit.

(** [validateSelectors], with the method it calls on each selector. *)
Definition validateSelectors_with (selectors : list JSON) : V unit :=
  match selectors with
  | [] => addError "Selector array cannot be empty"
  | _ => vret tt
  end ;;;
  forEach (fun selector index =>
             pushPath ("[" ++ index_to_string index ++ "]")%string ;;;
             validateSelector selector ;;;
             popPath) selectors.

End Selectors.

Fixpoint validateQuery (query : JSON) {struct query} : V unit :=
  match query with
  | JObject fields =>
      (* Validate quantity *)
      match get "quantity" fields with
      | None => addError "Missing 'quantity' field"
      | Some quantity => pushPath "quantity" ;;; validateQuantity quantity ;;; popPath
      end ;;;
      (* Validate type *)
      match get "type" fields with
      | None => addError "Missing 'type' field"
      | Some type =>
          if isValidQueryType (Some type) then vret tt
          else addError ("Invalid query type: " ++ String_of_value type
                         ++ ". Must be 'Select' or 'Limit'")%string
      end ;;;
      (* Validate selector *)
      field (addError "Missing 'selector' field")
            (fun selector =>
               match selector with
               | JArray selectors =>
                   pushPath "selector" ;;;
                   validateSelectors_with validateSelector selectors ;;;
                   popPath
               | _ => addError "'selector' must be an array"
               end)
            "selector" fields
  | _ => addError "Query must be an object"
  end
with validateSelector (selector : JSON) {struct selector} : V unit :=
  match selector with
  | JObject [(key, value)] =>
      if String.eqb key "Class" then validateClass value
      else if String.eqb key "Placement" then
        match value with
        | JString _ => vret tt
        | _ => addError "'Placement' must be a string"
        end
      else if String.eqb key "Tag" then
        match value with
        | JString _ => vret tt
        | _ => addError "'Tag' must be a string"
        end
      else if String.eqb key "TagCode" then validateTagCode value
      else if String.eqb key "Dist" then
        match value with
        | JString _ => vret tt
        | _ => addError "'Dist' must be a string"
        end
      else if String.eqb key "DistCode" then validateDistCode value
      else if String.eqb key "Range" then validateRange value
      else if String.eqb key "RangeDist" then validateRangeDist value
      else if String.eqb key "RangeTag" then validateRangeTag value
      else if String.eqb key "Query" then
        pushPath "Query" ;;; validateQuery value ;;; popPath
      else addError ("Unknown selector type: " ++ key)%string
  | JObject _ => addError "Selector must have exactly one field"
  | _ => addError "Selector must be an object"
  end.

Definition validateSelectors (selectors : list JSON) : V unit :=
  validateSelectors_with validateSelector selectors.

Definition validateRequirement (req : JSON) : V unit :=
  match req with
  | JObject fields =>
      (* Validate query *)
      match get "query" fields with
      | None => addError "Missing 'query' field"
      | Some query => pushPath "query" ;;; validateQuery query ;;; popPath
      end ;;;
      (* Validate description *)
      match get "description" fields with
      | None => addError "Missing 'description' field"
      | Some (JString description) =>
          if String.eqb (trim description) EmptyString
          then addError "'description' cannot be empty"
          else vret tt
      | Some _ => addError "'description' must be a string"
      end ;;;
      (* Validate priority *)
      match get "priority" fields with
      | None => addError "Missing 'priority' field"
      | Some _ =>
          if isU16 (get "priority" fields) then vret tt
          else addError "'priority' must be a valid U16 (0-65535)"
      end
  | _ => addError "Requirement must be an object"
  end.

(** An empty array returns before [popPath]. *)
Definition validateRequirements (requirements : list JSON) : V unit :=
  pushPath "requirements" ;;;
  match requirements with
  | [] => vret tt
  | _ =>
      forEach (fun req index =>
                 pushPath ("[" ++ index_to_string index ++ "]")%string ;;;
                 validateRequirement req ;;;
                 popPath) requirements ;;;
      popPath
  end.

(** [validateQueryFile], on the properties of [data]: it is called on an
    object only. *)
Definition validateQueryFile (data : list (string * JSON)) : V unit :=
  pushPath "root" ;;;
  (* Validate version *)
  match get "version" data with
  | None => addError "Missing 'version' field"
  | Some (JString version) =>
      if isValidVersion version then vret tt
      else addError ("Invalid version format: " ++ version)%string
  | Some _ => addError "'version' must be a string"
  end ;;;
  (* Validate requirements *)
  match get "requirements" data with
  | None => addError "Missing 'requirements' field"
  | Some (JArray requirements) => validateRequirements requirements
  | Some _ => addError "'requirements' must be an array"
  end ;;;
  popPath.

(** [validate], from whatever state an earlier call left: the two fields
    are reset first.  On success the document itself is returned. *)
Definition validate (data : JSON) : V (Result JSON (list MQLValidationError)) :=
  fun _ =>
    let st0 := {| errors := []; currentPath := [] |} in
    match data with
    | JObject fields =>
        let (_, st) := validateQueryFile fields st0 in
        match errors st with
        | [] => (ok data, st)
        | _ => (err (errors st), st)
        end
    | _ => (err [ {| path := "root";
                     message := "Root must be an object" |} ], st0)
    end.

(** [validateMQL]: a new validator, one call. *)
Definition validateMQL (data : JSON) : Result JSON (list MQLValidationError) :=
  fst (validate data {| errors := []; currentPath := [] |}).

(** [isMQLQueryFile] *)
Definition isMQLQueryFile (data : JSON) : bool := is_ok (validateMQL data).

End WithStrings.
End MQLValidator.

(* ================================================================= *)
(** ** schema/courses/validators: the deprecated class CourseValidator

    The validator of the first course schema ([codes], [title], [credit],
    [dist], [seasons], [season_codes]); it checks the entries and returns
    the array as it got it. *)

(** [a < b] on numbers. *)
Definition js_lt (a b : JsNumber) : bool :=
  match a, b with
  | NaN, _ | _, NaN => false
  | NegInfinity, NegInfinity => false
  | NegInfinity, _ => true
  | Finite x, Finite y => negb (Qle_bool y x)
  | Finite _, PosInfinity => true
  | _, _ => false
  end.

Module DeprecatedCourseValidator.
Import CourseValidator.
Local Open Scope validator_scope.

(** [isStringArray] *)
Definition isStringArray (value : option JSON) : bool :=
  match strings_of value with
  | Some _ => true
  | None => false
  end.

Definition validateCourse (course : JSON) : V unit :=
  match course with
  | JObject fields =>
      (* Validate codes (Required) *)
      match get "codes" fields with
      | None => addError "Missing 'codes' field"
      | Some codes =>
          match strings_of (Some codes) with
          | None => addError "'codes' must be an array of strings"
          | Some [] => addError "'codes' array cannot be empty"
          | Some _ => vret tt
          end
      end ;;;
      (* Validate title (Required) *)
      match get "title" fields with
      | None => addError "Missing 'title' field"
      | Some (JString _) => vret tt
      | Some _ => addError "'title' must be a string"
      end ;;;
      (* Validate credit (Required) *)
      match get "credit" fields with
      | None => addError "Missing 'credit' field"
      | Some (JNumber credit) =>
          if js_lt credit (Finite 0)
          then addError "'credit' must be a non-negative number"
          else vret tt
      | Some _ => addError "'credit' must be a non-negative number"
      end ;;;
      (* Validate dist (Optional) *)
      match get "dist" fields with
      | None => vret tt
      | Some _ =>
          if isStringArray (get "dist" fields) then vret tt
          else addError "'dist' must be an array of strings"
      end ;;;
      (* Validate seasons (Required) *)
      match get "seasons" fields with
      | None => addError "Missing 'seasons' field"
      | Some _ =>
          if isStringArray (get "seasons" fields) then vret tt
          else addError "'seasons' must be an array of strings"
      end ;;;
      (* Validate season_codes (Required) *)
      match get "season_codes" fields with
      | None => addError "Missing 'season_codes' field"
      | Some _ =>
          if isStringArray (get "season_codes" fields) then vret tt
          else addError "'season_codes' must be an array of strings"
      end
  | _ => addError "Course entry must be an object"
  end.

Definition validateCourseList (entries : list JSON) : V unit :=
  forEach (fun course index =>
             pushPath ("[" ++ index_to_string index ++ "]")%string ;;;
             validateCourse course ;;;
             popPath) entries.

(** [validate], from whatever state an earlier call left.  On success the
    array itself is returned. *)
Definition validate (data : JSON) : V (Result JSON (list CoursesValidationError)) :=
  fun _ =>
    let st0 := {| errors := []; currentPath := [] |} in
    match data with
    | JArray entries =>
        let (_, st) := validateCourseList entries st0 in
        match errors st with
        | [] => (ok data, st)
        | _ => (err (errors st), st)
        end
    | _ => (err [ {| path := "root"; message := "Root must be an array of courses" |} ], st0)
    end.

(** [validateCourses]: a new validator, one call. *)
Definition validateCourses (data : JSON) : Result JSON (list CoursesValidationError) :=
  fst (validate data {| errors := []; currentPath := [] |}).

(** [isCourseList] *)
Definition isCourseList (data : JSON) : bool := is_ok (validateCourses data).

End DeprecatedCourseValidator.

(* ================================================================= *)
(** * The vocabulary of the properties *)

(** Two lists hold the same objects. *)
Definition same_elements (l1 l2 : CourseList) : Prop :=
  forall r : Ref, In r (map identity l1) <-> In r (map identity l2).

Section Vocabulary.
Context {rt : JsRuntime}.

(** [this.selectorVTable[key].bind(this)] for the key of [s], called on
    [(mql, s, courseList)]: one selector of [mql], evaluated. *)
Definition evalSelector (courseList : Catalog) (mql : MQLQuery) (s : Selector)
  : M (Result CourseList MatchingError) :=
  QueryMatcher.selectorVTable QueryMatcher.match_ (keyOf s) mql s courseList.

(** The selectors of a list were evaluated one after the other, each with
    success: the worlds they went through and what each returned. *)
Inductive Evaluated (courseList : Catalog) (mql : MQLQuery)
  : list Selector -> World -> list CourseList -> World -> Prop :=
| Evaluated_nil (w : World) : Evaluated courseList mql [] w [] w
| Evaluated_cons (s : Selector) (rest : list Selector) (w w1 w2 : World)
    (data : CourseList) (datas : list CourseList) :
    evalSelector courseList mql s w = (ok data, w1) ->
    Evaluated courseList mql rest w1 datas w2 ->
    Evaluated courseList mql (s :: rest) w (data :: datas) w2.

(** The union, in the order of arrival, of the lists that the selectors
    returned. *)
Definition unionAll (datas : list CourseList) : JsSet :=
  fold_left Set_addAll datas [].

(** A result picks exactly the courses of the catalog that satisfy [P], in
    the order of the catalog, and is a failure when there is none. *)
Definition selects_exactly (courseList : Catalog) (P : Course -> Prop)
    (r : Result CourseList MatchingError) : Prop :=
  match r with
  | ok data =>
      data <> [] /\
      exists keep : CatalogEntry -> bool,
        data = map FromCatalog (filter keep courseList) /\
        forall e, keep e = true <-> exists c, obj e = ACourse c /\ P c
  | err _ =>
      forall e c, In e courseList -> obj e = ACourse c -> ~ P c
  end.

(** One of the codes of the course has [dep] before its first space. *)
Definition has_department (dep : string) (c : Course) : Prop :=
  exists code, In code (codes c) /\ QueryMatcher.department_of code = dep.

(** The first code of the course has [dep] before its first space. *)
Definition first_code_department (dep : string) (c : Course) : Prop :=
  match codes c with
  | first :: _ => QueryMatcher.department_of first = dep
  | [] => False
  end.

(** The lower-cased [dist] list of the course has the lower-cased [d]. *)
Definition dist_contains (d : string) (c : Course) : Prop :=
  exists ds, dist c = Some ds /\ In (toLowerCase d) (map toLowerCase ds).

(** The [tags] list of the course has [tag]. *)
Definition tags_contain (tag : string) (c : Course) : Prop :=
  exists ts, tags c = Some ts /\ In tag ts.

(** [code] is a department and a number, the department is that of [from]
    and the number lies between the numbers of [from] and [to]. *)
Definition code_in_range (from to : Class) (code : string) : Prop :=
  exists dep numStr,
    split " " code = [dep; numStr] /\
    dep = department_id from /\
    js_le (U16_to_number (course_number from)) (Number numStr) = true /\
    js_le (Number numStr) (U16_to_number (course_number to)) = true.

(** [code] splits in two parts at spaces. *)
Definition two_part (code : string) : Prop :=
  List.length (split " " code) = 2%nat.

(** Some code of the course is in range, codes of another shape skipped. *)
Definition some_code_in_range (from to : Class) (c : Course) : Prop :=
  exists code, In code (codes c) /\ code_in_range from to code.

(** Some code of the course is in range and every code before it splits
    in two parts. *)
Definition first_codes_in_range (from to : Class) (c : Course) : Prop :=
  exists pre code post,
    codes c = pre ++ code :: post /\
    Forall two_part pre /\
    code_in_range from to code.

(** Whether the callback of [queryRange] returns the course. *)
Definition rangeKeeps (from to : Class) (course : CatalogEntry) : bool :=
  match obj course with
  | ACourse c =>
      match QueryMatcher.scanCodes from to (map (split " ") (codes c)) with
      | QueryMatcher.Found => true
      | _ => false
      end
  | AManual _ => false
  end.

(** The result of a query with the selectors [sels] in flatten mode. *)
Definition flatten (courseList : Catalog) (qn : Quantity) (ty : MQLQueryType)
    (sels : list Selector) (w : World) : Result CourseList MatchingError :=
  result_of (QueryMatcher.matchFlatten courseList (Build_MQLQuery qn ty sels)) w.

(** For two selectors that succeed on their own, the lists [A, B] and
    [B, A] give the same objects, and the list [A, A] gives the objects
    that [A] gives. *)
Definition union_unordered_idempotent (courseList : Catalog) (qn : Quantity)
    (ty : MQLQueryType) (A B : Selector) (w : World) : Prop :=
  forall dA dB : CourseList,
    flatten courseList qn ty [A] w = ok dA ->
    flatten courseList qn ty [B] w = ok dB ->
    exists dAB dBA dAA : CourseList,
      flatten courseList qn ty [A; B] w = ok dAB /\
      flatten courseList qn ty [B; A] w = ok dBA /\
      flatten courseList qn ty [A; A] w = ok dAA /\
      same_elements dAB dBA /\
      same_elements dAA dA.

(** The queries of a list of requirements, evaluated one after the other
    in flatten mode: the outcome of each, failures included. *)
Fixpoint evaluateAll (courseList : Catalog) (reqs : list MQLRequirement)
  : M (list (Result CourseList MatchingError)) :=
  match reqs with
  | [] => ret []
  | req :: rest =>
      outcome <- QueryMatcher.match_ courseList (query req) false ;;
      outcomes <- evaluateAll courseList rest ;;
      ret (outcome :: outcomes)
  end.

End Vocabulary.

(** The errors among the outcomes, in their order. *)
Definition errors_in (outcomes : list (Result CourseList MatchingError))
  : list MatchingError :=
  flat_map (fun o => match o with err e => [e] | ok _ => [] end) outcomes.

(** The lists among the outcomes, in their order. *)
Definition selected_in (outcomes : list (Result CourseList MatchingError))
  : list CourseList :=
  flat_map (fun o => match o with ok data => [data] | err _ => [] end) outcomes.

(** The requirements whose outcome is a success, each with its list. *)
Fixpoint matched (reqs : list MQLRequirement)
    (outcomes : list (Result CourseList MatchingError)) : list QueryResult :=
  match reqs, outcomes with
  | req :: reqs', ok data :: outcomes' =>
      {| requirement := req; selectedCourses := data |} :: matched reqs' outcomes'
  | _ :: reqs', err _ :: outcomes' => matched reqs' outcomes'
  | _, _ => []
  end.

(** The error of a requirement when its query, evaluated in flatten mode
    from the world [w0], fails. *)
Definition failure_of {rt : JsRuntime} (courseList : Catalog) (w0 : World)
    (req : MQLRequirement) : list MatchingError :=
  match result_of (QueryMatcher.match_ courseList (query req) false) w0 with
  | err e => [e]
  | ok _ => []
  end.

(** [a] comes no later than [b] when requirements go by falling priority. *)
Definition priority_ge (a b : MQLRequirement) : Prop :=
  (priority b <= priority a)%N.

(** The requirements of priority [p], in the order of the list. *)
Definition with_priority (p : U16) (reqs : list MQLRequirement) : list MQLRequirement :=
  filter (fun r => N.eqb (priority r) p) reqs.

(** The references of the objects of a list that the engine created. *)
Definition fresh_refs (l : list Element) : list nat :=
  flat_map (fun x => match identity x with
                     | FreshRef r => [r]
                     | CatalogRef _ => []
                     end) l.

(** Selectors that pick entries of the catalog: all but Placement and
    Query, whose results are objects made on the spot. *)
Definition catalog_selector (s : Selector) : bool :=
  match s with
  | SPlacement _ | SQuery _ => false
  | _ => true
  end.

(** A result as a JSON reader sees it: object references forgotten. *)
Fixpoint forget_refs (x : Element) : Element :=
  match x with
  | FromCatalog e => FromCatalog e
  | NewManual _ m => NewManual 0 m
  | NewList _ items => NewList 0 (map forget_refs items)
  end.

(** The same, with the ids of the placeholders that the engine synthesized
    blanked as well. *)
Fixpoint scrub (x : Element) : Element :=
  match x with
  | FromCatalog e => FromCatalog e
  | NewManual _ m =>
      NewManual 0 {| filled := filled m; mf_id := EmptyString;
                     mf_description := mf_description m |}
  | NewList _ items => NewList 0 (map scrub items)
  end.

Definition mapQueryResult (f : Element -> Element) (qr : QueryResult) : QueryResult :=
  {| requirement := requirement qr;
     selectedCourses := map f (selectedCourses qr) |}.

Definition mapEvaluation (f : Element -> Element) (r : MatchingEvaluationResult)
  : MatchingEvaluationResult :=
  {| results := map (mapQueryResult f) (results r);
     allSelectedCourses := map f (allSelectedCourses r) |}.

Definition mapResult {T E} (f : T -> T) (r : Result T E) : Result T E :=
  match r with
  | ok data => ok (f data)
  | err e => err e
  end.

(** [Some e] when a result is the failure [e]. *)
Definition error_of {T E} (r : Result T E) : option E :=
  match r with
  | ok _ => None
  | err e => Some e
  end.

(** What a run from the world [w] may hold: new objects have references
    that were free in [w], each its own. *)
Definition scoped (w : World) (out : Result CourseList MatchingError * World) : Prop :=
  next_ref w <= next_ref (snd out) /\
  match fst out with
  | ok data =>
      NoDup (fresh_refs data) /\
      Forall (fun r => next_ref w <= r < next_ref (snd out)) (fresh_refs data)
  | err _ => True
  end.

(** Two results are the same but for the references and the ids of the
    objects made on the way. *)
Definition similar (r1 r2 : Result CourseList MatchingError) : Prop :=
  mapResult (map scrub) r1 = mapResult (map scrub) r2.

(** A query whose evaluation in flatten mode depends on the world only in
    the references and ids of the objects it makes. *)
Definition steady {rt : JsRuntime} (q : MQLQuery) : Prop :=
  forall courseList : Catalog,
    (forall w, scoped w (QueryMatcher.match_ courseList q false w)) /\
    (forall w1 w2,
        similar (fst (QueryMatcher.match_ courseList q false w1))
                (fst (QueryMatcher.match_ courseList q false w2))).

(** Induction on a query with the nested queries of its selectors as
    induction hypotheses. *)
Section QueryInduction.
Variable P : MQLQuery -> Prop.

Definition nested (s : Selector) : Prop :=
  match s with
  | SQuery q => P q
  | _ => True
  end.

Hypothesis step : forall qn ty sels, Forall nested sels -> P (Build_MQLQuery qn ty sels).

Fixpoint MQLQuery_nested_ind (q : MQLQuery) : P q :=
  match q with
  | Build_MQLQuery qn ty sels =>
      step qn ty
        ((fix all (l : list Selector) : Forall nested l :=
            match l with
            | [] => Forall_nil nested
            | s :: rest =>
                @Forall_cons _ nested s rest
                  (match s return nested s with
                   | SQuery q' => MQLQuery_nested_ind q'
                   | _ => I
                   end)
                  (all rest)
            end) sels)
  end.
End QueryInduction.

(* ================================================================= *)
(** * More vocabulary: what results are made of *)

(** RangeDist and RangeTag, the two kinds whose handlers are stubs. *)
Definition reserved (s : Selector) : bool :=
  match s with
  | SRangeDist _ _ _ | SRangeTag _ _ _ => true
  | _ => false
  end.

(** No Placement selector in the query, nested queries included. *)
Fixpoint placement_free (q : MQLQuery) : bool :=
  match q with
  | Build_MQLQuery _ _ sels =>
      forallb (fun s => match s with
                        | SPlacement _ => false
                        | SQuery q' => placement_free q'
                        | _ => true
                        end) sels
  end.

(** The catalog entries that an element refers to, nested lists included. *)
Fixpoint catalog_entries (x : Element) : list CatalogEntry :=
  match x with
  | FromCatalog e => [e]
  | NewManual _ _ => []
  | NewList _ items => flat_map catalog_entries items
  end.

(** No synthesized placeholder in the element, nested lists included. *)
Fixpoint no_placeholder (x : Element) : bool :=
  match x with
  | FromCatalog _ => true
  | NewManual _ _ => false
  | NewList _ items => forallb no_placeholder items
  end.

(** The placeholder that a Placement selector makes in the world [w],
    [i] objects and [i] UUIDs later. *)
Definition placeholder_at (w : World) (i : nat) (text : string) : Element :=
  NewManual (next_ref w + i)
    {| filled := false; mf_id := uuid_source w (uuid_drawn w + i);
       mf_description := text |}.

(** [placeholder_at] for each text of a list, counting from [i]. *)
Fixpoint placeholders_from (w : World) (i : nat) (texts : list string) : list Element :=
  match texts with
  | [] => []
  | text :: rest => placeholder_at w i text :: placeholders_from w (S i) rest
  end.

(** The world after [n] objects were made and [n] UUIDs drawn. *)
Definition after_placements (w : World) (n : nat) : World :=
  {| next_ref := next_ref w + n; uuid_source := uuid_source w;
     uuid_drawn := uuid_drawn w + n; console := console w |}.

(** Two results match the same courses, or both fail. *)
Definition same_selection (r1 r2 : Result CourseList MatchingError) : Prop :=
  match r1, r2 with
  | ok d1, ok d2 => d1 = d2
  | err _, err _ => True
  | _, _ => False
  end.

(** Induction on an element with the items of a nested list as induction
    hypotheses. *)
Section ElementInduction.
Variable P : Element -> Prop.
Hypothesis onCatalog : forall e, P (FromCatalog e).
Hypothesis onManual : forall r m, P (NewManual r m).
Hypothesis onList : forall r items, Forall P items -> P (NewList r items).

Fixpoint Element_nested_ind (x : Element) : P x :=
  match x with
  | FromCatalog e => onCatalog e
  | NewManual r m => onManual r m
  | NewList r items =>
      onList r
        ((fix all (l : list Element) : Forall P l :=
            match l with
            | [] => Forall_nil P
            | y :: rest => @Forall_cons _ P y rest (Element_nested_ind y) (all rest)
            end) items)
  end.
End ElementInduction.

(* ================================================================= *)
(** * Vocabulary for the course validator *)

(** [s] has no space. *)
Fixpoint no_space (s : string) : bool :=
  match s with
  | EmptyString => true
  | String c rest => negb (Ascii.eqb c " ") && no_space rest
  end.

(** [item], an entry of [course_codes], is rendered as [code]. *)
Definition CodeOf (item : JSON) (code : string) : Prop :=
  exists fields department number,
    item = JObject fields /\
    get "department" fields = Some (JString department) /\
    get "number" fields = Some (JString number) /\
    code = (department ++ " " ++ number)%string.

(** [entry] passes the checks of [validateAndMapCourse] and is mapped to
    the course [m]. *)
Definition Accepted {parsing : JsParsing} (entry : JSON)
    (m : CourseValidator.MappedEntry) : Prop :=
  exists fields c items credits,
    entry = JObject fields /\
    m = CourseValidator.Mapped c /\
    get "title" fields = Some (JString (title c)) /\
    get "credits" fields = Some (JString credits) /\
    credit c = parseFloat credits /\
    isNaN (parseFloat credits) = false /\
    get "course_codes" fields = Some (JArray items) /\
    Forall2 CodeOf items (codes c) /\
    tags c = Some (match strings_of (get "course_tag" fields) with
                   | Some ts => ts
                   | None => []
                   end) /\
    (get "course_tag" fields = None \/ strings_of (get "course_tag" fields) <> None) /\
    dist c = strings_of (get "distributionals" fields) /\
    (get "distributionals" fields = None
     \/ strings_of (get "distributionals" fields) <> None) /\
    seasons c = [] /\ season_codes c = [] /\ version c = Some "v2".

(** The number of errors recorded so far. *)
Definition error_count (st : CourseValidator.State) : nat :=
  List.length (CourseValidator.errors st).

(** A step of the validator never removes an error. *)
Definition monotone {A} (m : CourseValidator.V A) : Prop :=
  forall st, error_count st <= error_count (snd (m st)).

(** A step of the validator records no error from the state [st]. *)
Definition quiet {A} (m : CourseValidator.V A) (st : CourseValidator.State) : Prop :=
  error_count (snd (m st)) = error_count st.

(** The codes that [forEachCode] collects. *)
Definition collected (items : list JSON) : list string :=
  flat_map (fun item =>
              match item with
              | JObject fields =>
                  match get "department" fields, get "number" fields with
                  | Some (JString department), Some (JString number) =>
                      [(department ++ " " ++ number)%string]
                  | _, _ => []
                  end
              | _ => []
              end) items.

(** A selector that looks at the codes of a course. *)
Definition reads_codes (s : Selector) : bool :=
  match s with
  | SClass _ | STagCode _ _ | SDistCode _ _ | SRange _ _ => true
  | _ => false
  end.

(** The path segment of the entry [i] of the catalog. *)
Definition entry_segment (i : nat) : string :=
  ("[" ++ index_to_string i ++ "]")%string.

(** The path segment of the entry [j] of [course_codes]. *)
Definition code_segment (j : nat) : string :=
  ("course_codes[" ++ index_to_string j ++ "]")%string.

(** A step of the validator leaves the path as it found it and records
    errors only under the current path, at a suffix that [P] allows. *)
Definition emits (P : list string -> Prop) {A} (m : CourseValidator.V A) : Prop :=
  forall st,
    CourseValidator.currentPath (snd (m st)) = CourseValidator.currentPath st
    /\ exists new,
         CourseValidator.errors (snd (m st)) = CourseValidator.errors st ++ new
         /\ Forall (fun e => exists suffix,
                       P suffix /\
                       CourseValidator.path e
                       = String.concat "." (CourseValidator.currentPath st ++ suffix))
                   new.



(** Whether the callback of [queryRange] warns about the course. *)
Definition rangeWarns {rt : JsRuntime} (from to : Class) (course : CatalogEntry) : bool :=
  match obj course with
  | ACourse c =>
      match QueryMatcher.scanCodes from to (map (split " ") (codes c)) with
      | QueryMatcher.SoftError => true
      | _ => false
      end
  | AManual _ => false
  end.

(** The course has a code that does not split in two parts, and before it
    only codes that do and are not in range. *)
Definition dropped_for_shape {rt : JsRuntime} (from to : Class) (c : Course) : Prop :=
  exists pre code post,
    codes c = pre ++ code :: post
    /\ ~ two_part code
    /\ Forall (fun x => two_part x /\ ~ code_in_range from to x) pre.

(** [code] is in range, as a test. *)
Definition code_in_rangeb {rt : JsRuntime} (from to : Class) (code : string) : bool :=
  match split " " code with
  | [dep; numStr] =>
      String.eqb dep (department_id from)
      && js_le (U16_to_number (course_number from)) (Number numStr)
      && js_le (Number numStr) (U16_to_number (course_number to))
  | _ => false
  end.

(** Some code of the entry is in range, as a test. *)
Definition any_code_in_range {rt : JsRuntime} (from to : Class) (e : CatalogEntry) : bool :=
  match obj e with
  | ACourse c => existsb (code_in_rangeb from to) (codes c)
  | AManual _ => false
  end.

(* ================================================================= *)
(** * Vocabulary for the MQL validator *)

(** ** A parsed document read at the types of [schema/mql/mql.ts]

    [validate] returns the document it was given, cast to [MQLQueryFile];
    the engine then reads it at that type.  The functions below read a
    parsed value at each type of [mql.ts], where it has the shape. *)

Definition asU16 (value : option JSON) : option U16 :=
  match value with
  | Some (JNumber (Finite q)) =>
      if MQLValidator.isU16 value
      then Some (Z.to_N (Z.div (Qnum q) (Zpos (Qden q))))
      else None
  | _ => None
  end.

Definition asString (value : option JSON) : option string :=
  match value with
  | Some (JString s) => Some s
  | _ => None
  end.

Definition asClass (value : option JSON) : option Class :=
  match value with
  | Some (JObject fields) =>
      match get "department_id" fields, asU16 (get "course_number" fields),
            get "lab" fields with
      | Some (JString d), Some n, Some (JBool l) =>
          Some {| department_id := d; course_number := n; lab := l |}
      | _, _, _ => None
      end
  | _ => None
  end.

(** [{ Single: U16 } | { Many: { from: U16; to: U16 } }], the first
    alternative whenever there is a [Single]. *)
Definition asQuantity (value : option JSON) : option Quantity :=
  match value with
  | Some (JObject fields) =>
      match get "Single" fields, get "Many" fields with
      | Some single, _ => option_map Single (asU16 (Some single))
      | None, Some (JObject many) =>
          match asU16 (get "from" many), asU16 (get "to" many) with
          | Some from, Some to => Some (Many from to)
          | _, _ => None
          end
      | None, _ => None
      end
  | _ => None
  end.

Definition asQueryType (value : option JSON) : option MQLQueryType :=
  match value with
  | Some (JString s) =>
      if String.eqb s "Select" then Some Select
      else if String.eqb s "Limit" then Some Limit
      else None
  | _ => None
  end.

Definition asRange (value : JSON) : option (Class * Class) :=
  match value with
  | JObject fields =>
      match asClass (get "from" fields), asClass (get "to" fields) with
      | Some from, Some to => Some (from, to)
      | _, _ => None
      end
  | _ => None
  end.

(** Two string properties of an object. *)
Definition asStrings (value : JSON) (key1 key2 : string) : option (string * string) :=
  match value with
  | JObject fields =>
      match get key1 fields, get key2 fields with
      | Some (JString s1), Some (JString s2) => Some (s1, s2)
      | _, _ => None
      end
  | _ => None
  end.

Section Traverse.
Context {B : Type}.
Variable read : JSON -> option B.

(** Every item of an array read with [read]. *)
Fixpoint traverse (items : list JSON) : option (list B) :=
  match items with
  | [] => Some []
  | item :: rest =>
      match read item, traverse rest with
      | Some x, Some xs => Some (x :: xs)
      | _, _ => None
      end
  end.

End Traverse.

Fixpoint asQuery (query : JSON) {struct query} : option MQLQuery :=
  match query with
  | JObject fields =>
      match asQuantity (get "quantity" fields), asQueryType (get "type" fields),
            field None
                  (fun selector =>
                     match selector with
                     | JArray selectors => traverse asSelector selectors
                     | _ => None
                     end)
                  "selector" fields with
      | Some n, Some t, Some selectors => Some (Build_MQLQuery n t selectors)
      | _, _, _ => None
      end
  | _ => None
  end
with asSelector (selector : JSON) {struct selector} : option Selector :=
  match selector with
  | JObject [(key, value)] =>
      if String.eqb key "Class" then option_map SClass (asClass (Some value))
      else if String.eqb key "Placement" then option_map SPlacement (asString (Some value))
      else if String.eqb key "Tag" then option_map STag (asString (Some value))
      else if String.eqb key "TagCode" then
        option_map (fun p => STagCode (fst p) (snd p)) (asStrings value "tag" "code")
      else if String.eqb key "Dist" then option_map SDist (asString (Some value))
      else if String.eqb key "DistCode" then
        option_map (fun p => SDistCode (fst p) (snd p)) (asStrings value "dist" "code")
      else if String.eqb key "Range" then
        option_map (fun p => SRange (fst p) (snd p)) (asRange value)
      else if String.eqb key "RangeDist" then
        match asRange value, asString (MQLValidator.property (Some value) "dist") with
        | Some p, Some d => Some (SRangeDist (fst p) (snd p) d)
        | _, _ => None
        end
      else if String.eqb key "RangeTag" then
        match asRange value, asString (MQLValidator.property (Some value) "tag") with
        | Some p, Some t => Some (SRangeTag (fst p) (snd p) t)
        | _, _ => None
        end
      else if String.eqb key "Query" then option_map SQuery (asQuery value)
      else None
  | _ => None
  end.

Definition asRequirement (req : JSON) : option MQLRequirement :=
  match req with
  | JObject fields =>
      match get "query" fields, asString (get "description" fields),
            asU16 (get "priority" fields) with
      | Some query, Some d, Some p =>
          option_map (fun q => {| query := q; req_description := d; priority := p |})
                     (asQuery query)
      | _, _, _ => None
      end
  | _ => None
  end.

Definition asQueryFile (data : JSON) : option MQLQueryFile :=
  match data with
  | JObject fields =>
      match asString (get "version" fields), get "requirements" fields with
      | Some v, Some (JArray requirements) =>
          option_map (fun rs => {| file_version := v; requirements := rs |})
                     (traverse asRequirement requirements)
      | _, _ => None
      end
  | _ => None
  end.

(** ** What the validator asks of a document beyond its types *)

Definition is_nil {A} (l : list A) : bool :=
  match l with
  | [] => true
  | _ => false
  end.

(** The department is two to four capital letters. *)
Definition class_ok (c : Class) : bool := department_format (department_id c).

(** Both ends are classes in order, when of one department. *)
Definition range_ok (from to : Class) : bool :=
  class_ok from && class_ok to
  && (negb (String.eqb (department_id from) (department_id to))
      || (course_number from <=? course_number to)%N).

Definition quantity_ok (n : Quantity) : bool :=
  match n with
  | Single k => negb (k =? 0)%N
  | Many from to => (from <=? to)%N
  end.

(** A quantity in order, a selector at least, and every selector as the
    validator wants it, nested queries included. *)
Fixpoint query_ok (q : MQLQuery) : bool :=
  match q with
  | Build_MQLQuery n _ sels =>
      quantity_ok n && negb (is_nil sels)
      && forallb (fun s => match s with
                           | SClass c => class_ok c
                           | SRange from to => range_ok from to
                           | SRangeDist from to _ => range_ok from to
                           | SRangeTag from to _ => range_ok from to
                           | SQuery q' => query_ok q'
                           | _ => true
                           end) sels
  end.

Definition selector_ok (s : Selector) : bool :=
  match s with
  | SClass c => class_ok c
  | SRange from to => range_ok from to
  | SRangeDist from to _ => range_ok from to
  | SRangeTag from to _ => range_ok from to
  | SQuery q => query_ok q
  | _ => true
  end.

Definition requirement_ok {strings : JsStrings} (r : MQLRequirement) : bool :=
  query_ok (query r) && negb (String.eqb (trim (req_description r)) EmptyString).

Definition file_ok {strings : JsStrings} (f : MQLQueryFile) : bool :=
  MQLValidator.isValidVersion (file_version f) && forallb requirement_ok (requirements f).

(** [okb] of what was read, and false when nothing was. *)
Definition valid_as {T} (read : option T) (okb : T -> bool) : bool :=
  match read with
  | Some x => okb x
  | None => false
  end.

(** A check of the validator decides [b]: it leaves the state as it found
    it when [b] holds, and records an error when not. *)
Definition decides (m : CourseValidator.V unit) (b : bool) : Prop :=
  monotone m
  /\ (b = true -> forall st, m st = (tt, st))
  /\ (b = false -> forall st, ~ quiet m st).

Definition range_pair_ok (p : Class * Class) : bool := range_ok (fst p) (snd p).

Definition is_some {T} (o : option T) : bool :=
  match o with
  | Some _ => true
  | None => false
  end.

(** What the two checks of the recursion decide on a value. *)
Definition checked {strings : JsStrings} (v : JSON) : Prop :=
  decides (MQLValidator.validateQuery v) (valid_as (asQuery v) query_ok)
  /\ decides (MQLValidator.validateSelector v) (valid_as (asSelector v) selector_ok).

(** Any place under the current path. *)
Definition anywhere (suffix : list string) : Prop := True.

(** [data.requirements] of a document. *)
Definition requirements_field (data : JSON) : option JSON :=
  MQLValidator.property (Some data) "requirements".

(** [data.requirements] when it is an array, else no requirement. *)
Definition requirements_of (data : JSON) : list JSON :=
  match requirements_field data with
  | Some (JArray requirements) => requirements
  | _ => []
  end.

(** The place of the document itself, or a place under the segments
    [requirements] and [[i]] of one of its requirements. *)
Definition at_requirement (requirements : list JSON) (suffix : list string) : Prop :=
  suffix = []
  \/ exists i more, suffix = "requirements" :: entry_segment i :: more
                    /\ i < List.length requirements.

(** No selector list is empty in the query, nested queries included. *)
Fixpoint nonempty_selectors (q : MQLQuery) : bool :=
  match q with
  | Build_MQLQuery _ _ sels =>
      negb (is_nil sels)
      && forallb (fun s => match s with
                           | SQuery q' => nonempty_selectors q'
                           | _ => true
                           end) sels
  end.

(** No nested list is empty in the element. *)
Fixpoint no_empty_list (x : Element) : bool :=
  match x with
  | NewList _ items => negb (is_nil items) && forallb no_empty_list items
  | _ => true
  end.

(** ** The first course schema, [schema/courses/courses.ts] *)

Record PlainCourse : Type := {
  plain_codes : list string;
  plain_title : string;
  plain_credit : JsNumber;
  plain_dist : option (list string);
  plain_seasons : list string;
  plain_season_codes : list string
}.

(** An entry read at that type: [dist] may be missing, but not be
    anything else than an array of strings. *)
Definition asPlainCourse (entry : JSON) : option PlainCourse :=
  match entry with
  | JObject fields =>
      match strings_of (get "codes" fields), get "title" fields, get "credit" fields,
            strings_of (get "seasons" fields), strings_of (get "season_codes" fields) with
      | Some cs, Some (JString t), Some (JNumber n), Some ss, Some scs =>
          match get "dist" fields, strings_of (get "dist" fields) with
          | Some _, None => None
          | _, ds =>
              Some {| plain_codes := cs; plain_title := t; plain_credit := n;
                      plain_dist := ds; plain_seasons := ss; plain_season_codes := scs |}
          end
      | _, _, _, _, _ => None
      end
  | _ => None
  end.

(** At least one code, and a credit that is not negative. *)
Definition plain_course_ok (c : PlainCourse) : bool :=
  negb (is_nil (plain_codes c)) && negb (js_lt (plain_credit c) (Finite 0)).

(** The entries of an array. *)
Definition entries_of (data : JSON) : list JSON :=
  match data with
  | JArray entries => entries
  | _ => []
  end.

(** An array whose entries all read as courses of the first schema, in
    order. *)
Definition plain_catalog_ok (data : JSON) : bool :=
  match data with
  | JArray entries =>
      forallb (fun entry => valid_as (asPlainCourse entry) plain_course_ok) entries
  | _ => false
  end.

(** Induction on a parsed value with the items of an array and the
    properties of an object as induction hypotheses. *)
Section JSONInduction.
Variable P : JSON -> Prop.
Hypothesis onNull : P JNull.
Hypothesis onBool : forall b, P (JBool b).
Hypothesis onNumber : forall n, P (JNumber n).
Hypothesis onString : forall s, P (JString s).
Hypothesis onArray : forall items, Forall P items -> P (JArray items).
Hypothesis onObject :
  forall fields, Forall (fun kv => P (snd kv)) fields -> P (JObject fields).

Fixpoint JSON_nested_ind (v : JSON) : P v :=
  match v with
  | JNull => onNull
  | JBool b => onBool b
  | JNumber n => onNumber n
  | JString s => onString s
  | JArray items =>
      onArray
        ((fix all (l : list JSON) : Forall P l :=
            match l with
            | [] => Forall_nil P
            | x :: rest => @Forall_cons _ P x rest (JSON_nested_ind x) (all rest)
            end) items)
  | JObject fields =>
      onObject
        ((fix all (l : list (string * JSON)) : Forall (fun kv => P (snd kv)) l :=
            match l with
            | [] => Forall_nil _
            | kv :: rest =>
                @Forall_cons _ (fun kv => P (snd kv)) kv rest
                  (JSON_nested_ind (snd kv)) (all rest)
            end) fields)
  end.
End JSONInduction.

(* ================================================================= *)
(** * The claims as the specification words them, and sample inputs *)

Section Wording.
Context {rt : JsRuntime}.

(** DistCode and TagCode look at the department of the FIRST code. *)
Definition first_code_selection (courseList : Catalog) (mql : MQLQuery)
    (d tag dep : string) (w : World) : Prop :=
  selects_exactly courseList
    (fun c => first_code_department dep c /\ dist_contains d c)
    (result_of (evalSelector courseList mql (SDistCode d dep)) w)
  /\ selects_exactly courseList
    (fun c => first_code_department dep c /\ tags_contain tag c)
    (result_of (evalSelector courseList mql (STagCode tag dep)) w).

(** Range skips the codes of another shape and matches on any code in
    range. *)
Definition any_code_selection (courseList : Catalog) (mql : MQLQuery)
    (from to : Class) (w : World) : Prop :=
  department_id from = department_id to ->
  selects_exactly courseList (some_code_in_range from to)
    (result_of (evalSelector courseList mql (SRange from to)) w).

(** Two invocations of [matchCourses], one after the other, return the
    same value, as far as [view] shows it. *)
Definition same_twice (view : Element -> Element) (courseList : Catalog)
    (mql : MQLQueryFile) (w : World) : Prop :=
  let (first, w1) := matchCourses courseList mql w in
  let (second, _) := matchCourses courseList mql w1 in
  mapResult (mapEvaluation view) first = mapResult (mapEvaluation view) second.

End Wording.

Definition sample_course (cs : list string) (ts ds : option (list string)) : Course := {|
  codes := cs; tags := ts; title := "Sample"; credit := Finite 1; dist := ds;
  seasons := []; season_codes := [];
  version := None; external_id := None; description := None
|}.

(** A course listed under two departments. *)
Definition cross_listed : CatalogEntry := {|
  addr := 1;
  obj := ACourse (sample_course ["MATH 101"; "CS 201"] (Some ["core"]) (Some ["QR"]))
|}.

(** A course whose first code has no space. *)
Definition odd_code_first : CatalogEntry := {|
  addr := 2;
  obj := ACourse (sample_course ["CS201"; "CS 201"] (Some ["core"]) None)
|}.

Definition intro_course : CatalogEntry := {|
  addr := 3;
  obj := ACourse (sample_course ["CS 112"] (Some ["intro"]) (Some ["QR"; "Sc"]))
|}.

Definition sample_catalog : Catalog := [cross_listed; odd_code_first; intro_course].

Definition CS (n : U16) : Class :=
  {| department_id := "CS"; course_number := n; lab := false |}.

Definition sample_query (sels : list Selector) : MQLQuery :=
  Build_MQLQuery (Single 1) Select sels.

Definition req_core : MQLRequirement :=
  {| query := sample_query [STag "core"]; req_description := "core"; priority := 5 |}.
Definition req_intro : MQLRequirement :=
  {| query := sample_query [STag "intro"]; req_description := "intro"; priority := 10 |}.
Definition req_range : MQLRequirement :=
  {| query := sample_query [SRange (CS 100) (CS 299)];
     req_description := "range"; priority := 5 |}.

Definition sample_document : MQLQueryFile :=
  {| file_version := "1.0.0"; requirements := [req_core; req_intro; req_range] |}.

Definition placement_document : MQLQueryFile :=
  {| file_version := "1.0.0";
     requirements := [ {| query := sample_query [SPlacement "AP Calc BC"];
                          req_description := "placement"; priority := 1 |} ] |}.

(** What [matchCourses] returns on the sample document. *)
Definition sample_evaluation : MatchingEvaluationResult :=
  {| results :=
       [ {| requirement := req_intro; selectedCourses := [FromCatalog intro_course] |};
         {| requirement := req_core;
            selectedCourses := [FromCatalog cross_listed; FromCatalog odd_code_first] |};
         {| requirement := req_range;
            selectedCourses := [FromCatalog cross_listed; FromCatalog intro_course] |} ];
     allSelectedCourses :=
       [FromCatalog intro_course; FromCatalog cross_listed; FromCatalog odd_code_first] |}.

(* ================================================================= *)
(** * The Class selector and the query that holds it *)

(** The handler gets a selector together with the query that holds it, in
    whose [selector] list [lab] is written.  Two Class selectors that are
    the same but for [lab], each evaluated in the query of which it is the
    one selector, give identical results. *)
Definition lab_blind_results {rt : JsRuntime} (courseList : Catalog) (A B : Class)
    (qn : Quantity) (ty : MQLQueryType) (w : World) : Prop :=
  department_id A = department_id B ->
  course_number A = course_number B ->
  result_of (evalSelector courseList (Build_MQLQuery qn ty [SClass A]) (SClass A)) w
  = result_of (evalSelector courseList (Build_MQLQuery qn ty [SClass B]) (SClass B)) w.

(** ** [JSON.stringify] of a query

    With the keys in the order of [mql.ts], for strings without a control
    character. *)

Definition escape_char (c : ascii) : string :=
  if Ascii.eqb c (ascii_of_nat 34) then String (ascii_of_nat 92) dquote
  else if Ascii.eqb c (ascii_of_nat 92)
       then String (ascii_of_nat 92) (String (ascii_of_nat 92) EmptyString)
       else String c EmptyString.

Fixpoint escaped (s : string) : string :=
  match s with
  | EmptyString => EmptyString
  | String c rest => (escape_char c ++ escaped rest)%string
  end.

Definition stringify_string (s : string) : string :=
  (dquote ++ escaped s ++ dquote)%string.

(** A key and its colon. *)
Definition stringify_key (k : string) : string :=
  (dquote ++ k ++ dquote ++ ":")%string.

Definition stringify_bool (b : bool) : string :=
  if b then "true" else "false".

Definition stringify_class (c : Class) : string :=
  ("{" ++ stringify_key "department_id" ++ stringify_string (department_id c)
   ++ "," ++ stringify_key "course_number" ++ U16_to_string (course_number c)
   ++ "," ++ stringify_key "lab" ++ stringify_bool (lab c) ++ "}")%string.

Definition stringify_quantity (n : Quantity) : string :=
  match n with
  | Single k => ("{" ++ stringify_key "Single" ++ U16_to_string k ++ "}")%string
  | Many from to =>
      ("{" ++ stringify_key "Many" ++ "{" ++ stringify_key "from" ++ U16_to_string from
       ++ "," ++ stringify_key "to" ++ U16_to_string to ++ "}}")%string
  end.

Definition stringify_type (t : MQLQueryType) : string :=
  match t with
  | Select => stringify_string "Select"
  | Limit => stringify_string "Limit"
  end.

(** An object with one key. *)
Definition stringify_one (k body : string) : string :=
  ("{" ++ stringify_key k ++ body ++ "}")%string.

Definition stringify_ends (from to : Class) : string :=
  (stringify_key "from" ++ stringify_class from
   ++ "," ++ stringify_key "to" ++ stringify_class to)%string.

Fixpoint stringify_query (q : MQLQuery) : string :=
  match q with
  | Build_MQLQuery n t sels =>
      ("{" ++ stringify_key "quantity" ++ stringify_quantity n
       ++ "," ++ stringify_key "type" ++ stringify_type t
       ++ "," ++ stringify_key "selector" ++ "["
       ++ String.concat ","
            (map (fun s =>
                    match s with
                    | SClass c => stringify_one "Class" (stringify_class c)
                    | SPlacement p => stringify_one "Placement" (stringify_string p)
                    | STag tag => stringify_one "Tag" (stringify_string tag)
                    | STagCode tag code =>
                        stringify_one "TagCode"
                          ("{" ++ stringify_key "tag" ++ stringify_string tag
                           ++ "," ++ stringify_key "code" ++ stringify_string code ++ "}")
                    | SDist d => stringify_one "Dist" (stringify_string d)
                    | SDistCode d code =>
                        stringify_one "DistCode"
                          ("{" ++ stringify_key "dist" ++ stringify_string d
                           ++ "," ++ stringify_key "code" ++ stringify_string code ++ "}")
                    | SRange from to =>
                        stringify_one "Range" ("{" ++ stringify_ends from to ++ "}")
                    | SRangeDist from to d =>
                        stringify_one "RangeDist"
                          ("{" ++ stringify_ends from to
                           ++ "," ++ stringify_key "dist" ++ stringify_string d ++ "}")
                    | SRangeTag from to tag =>
                        stringify_one "RangeTag"
                          ("{" ++ stringify_ends from to
                           ++ "," ++ stringify_key "tag" ++ stringify_string tag ++ "}")
                    | SQuery q' => stringify_one "Query" (stringify_query q')
                    end) sels)
       ++ "]}")%string
  end.

(** [ascii_runtime] with the serialisation written out. *)
Definition printing_runtime : JsRuntime := {|
  toLowerCase := lower_string;
  Number := digits_Number;
  JSON_stringify := stringify_query
|}.

(** A class that the sample catalog does not list, as a lecture and as a
    lab. *)
Definition unlisted_lecture : Class :=
  {| department_id := "CS"; course_number := 999; lab := false |}.
Definition unlisted_lab : Class :=
  {| department_id := "CS"; course_number := 999; lab := true |}.

(** More sample inputs. *)

Definition MATH (n : U16) : Class :=
  {| department_id := "MATH"; course_number := n; lab := false |}.

(** A query whose two selectors both match the cross-listed course. *)
Definition overlapping_query : MQLQuery :=
  sample_query [STag "core"; SDist "qr"].

(** A requirement with a reserved selector after one that matches. *)
Definition req_reserved : MQLRequirement :=
  {| query := sample_query [STag "core"; SRangeTag (CS 100) (CS 299) "core"];
     req_description := "reserved"; priority := 7 |}.

Definition reserved_document : MQLQueryFile :=
  {| file_version := "1.0.0"; requirements := [req_core; req_reserved] |}.

(** [parseFloat] on decimal numerals: digits, or digits, a point and
    digits, not both empty; [NaN] elsewhere. *)
Definition decimal_parseFloat (s : string) : JsNumber :=
  match split "." s with
  | [i] => if String.eqb i EmptyString then NaN else digits_Number i
  | [i; f] =>
      match digits_value 0 i, digits_value 0 f with
      | Some a, Some b =>
          if String.eqb i EmptyString && String.eqb f EmptyString then NaN
          else let scale := (10 ^ Z.of_nat (String.length f))%Z in
               Finite (Qmake (a * scale + b) (Z.to_pos scale))
      | _, _ => NaN
      end
  | _ => NaN
  end.

Definition ascii_parsing : JsParsing := {| parseFloat := decimal_parseFloat |}.

Definition json_code (department number : string) : JSON :=
  JObject [("department", JString department); ("number", JString number)].

(** A catalog file: a course with every field, and one with no code. *)
Definition sample_json : JSON :=
  JArray [
    JObject [("title", JString "Intro");
             ("credits", JString "1.0");
             ("course_codes", JArray [json_code "CS" "112"; json_code "MATH" "101"]);
             ("course_tag", JArray [JString "intro"]);
             ("distributionals", JArray [JString "QR"])];
    JObject [("title", JString "Seminar");
             ("credits", JString "0.5");
             ("course_codes", JArray [])]
  ].

Definition sample_mapped : list CourseValidator.MappedEntry := [
  CourseValidator.Mapped {|
    codes := ["CS 112"; "MATH 101"]; tags := Some ["intro"]; title := "Intro";
    credit := decimal_parseFloat "1.0"; dist := Some ["QR"];
    seasons := []; season_codes := []; version := Some "v2";
    external_id := None; description := None |};
  CourseValidator.Mapped {|
    codes := []; tags := Some []; title := "Seminar";
    credit := decimal_parseFloat "0.5"; dist := None;
    seasons := []; season_codes := []; version := Some "v2";
    external_id := None; description := None |}
].

(** A catalog file with three faults: an entry that is no object, a title
    that is no string, a code that is no object. *)
Definition faulty_json : JSON :=
  JArray [
    JString "CS 112";
    JObject [("title", JNumber (Finite 1));
             ("credits", JString "1.0");
             ("course_codes", JArray [json_code "CS" "112"; JNull])]
  ].

Definition faulty_errors : list CourseValidator.CoursesValidationError := [
  {| CourseValidator.path := "[0]";
     CourseValidator.message := "Course entry must be an object" |};
  {| CourseValidator.path := "[1]";
     CourseValidator.message := "'title' must be a string" |};
  {| CourseValidator.path := "[1].course_codes[1]";
     CourseValidator.message := "Course code entry must be an object" |}
].

(** A catalog whose codes all split in two parts. *)
Definition well_shaped_catalog : Catalog := [cross_listed; intro_course].

(* ================================================================= *)
(** * Sample documents for the MQL validator *)

Definition is_space (c : ascii) : bool :=
  match nat_of_ascii c with
  | 9 | 10 | 11 | 12 | 13 | 32 => true
  | _ => false
  end.

Fixpoint trim_start (s : string) : string :=
  match s with
  | EmptyString => EmptyString
  | String c rest => if is_space c then trim_start rest else s
  end.

Fixpoint reversed (s acc : string) : string :=
  match s with
  | EmptyString => acc
  | String c rest => reversed rest (String c acc)
  end.

(** [trim] on ASCII text. *)
Definition ascii_trim (s : string) : string :=
  reversed (trim_start (reversed (trim_start s) EmptyString)) EmptyString.

(** [String(value)] of a string, a boolean, [null] and an object. *)
Definition ascii_String (value : JSON) : string :=
  match value with
  | JString s => s
  | JBool true => "true"
  | JBool false => "false"
  | JNull => "null"
  | _ => String_of_object
  end.

Definition ascii_strings : JsStrings :=
  {| trim := ascii_trim; String_of_value := ascii_String |}.

Definition json_number (n : Z) : JSON := JNumber (Finite (inject_Z n)).

Definition json_class (c : Class) : JSON :=
  JObject [("department_id", JString (department_id c));
           ("course_number", json_number (Z.of_N (course_number c)));
           ("lab", JBool (lab c))].

(** A query for one course out of the selectors. *)
Definition json_query (selectors : list JSON) : JSON :=
  JObject [("quantity", JObject [("Single", json_number 1)]);
           ("type", JString "Select");
           ("selector", JArray selectors)].

Definition json_requirement (query : JSON) (description : string) (priority : Z) : JSON :=
  JObject [("query", query); ("description", JString description);
           ("priority", json_number priority)].

Definition json_document (requirements : list JSON) : JSON :=
  JObject [("version", JString "1.0.0"); ("requirements", JArray requirements)].

Definition json_range (from to : Class) : JSON :=
  JObject [("from", json_class from); ("to", json_class to)].

(** [sample_document] as the file it is parsed from. *)
Definition sample_document_json : JSON :=
  json_document [
    json_requirement (json_query [JObject [("Tag", JString "core")]]) "core" 5;
    json_requirement (json_query [JObject [("Tag", JString "intro")]]) "intro" 10;
    json_requirement (json_query [JObject [("Range", json_range (CS 100) (CS 299))]])
                     "range" 5
  ].

(** [reserved_document] as the file it is parsed from. *)
Definition reserved_document_json : JSON :=
  json_document [
    json_requirement (json_query [JObject [("Tag", JString "core")]]) "core" 5;
    json_requirement
      (json_query [JObject [("Tag", JString "core")];
                   JObject [("RangeTag",
                             JObject [("from", json_class (CS 100));
                                      ("to", json_class (CS 299));
                                      ("tag", JString "core")])]])
      "reserved" 7
  ].

(** A requirement with a nested query. *)
Definition req_nested : MQLRequirement :=
  {| query := sample_query [SQuery (sample_query [STag "core"]); SClass (CS 112)];
     req_description := "nested"; priority := 3 |}.

Definition nested_document : MQLQueryFile :=
  {| file_version := "1.0.0"; requirements := [req_nested] |}.

Definition nested_document_json : JSON :=
  json_document [
    json_requirement
      (json_query [JObject [("Query", json_query [JObject [("Tag", JString "core")]])];
                   JObject [("Class", json_class (CS 112))]])
      "nested" 3
  ].

(** What [matchCourses] returns on the nested document. *)
Definition nested_evaluation : MatchingEvaluationResult :=
  {| results :=
       [ {| requirement := req_nested;
            selectedCourses :=
              [NewList 0 [FromCatalog cross_listed; FromCatalog odd_code_first];
               FromCatalog intro_course] |} ];
     allSelectedCourses :=
       [NewList 0 [FromCatalog cross_listed; FromCatalog odd_code_first];
        FromCatalog intro_course] |}.

(** A document with five faults: a version of two numbers, a quantity of
    0, no selector, a lower-case department, a blank description. *)
Definition faulty_document_json : JSON :=
  JObject [("version", JString "1.0");
           ("requirements",
            JArray [
              json_requirement
                (JObject [("quantity", JObject [("Single", json_number 0)]);
                          ("type", JString "Select");
                          ("selector", JArray [])])
                "first" 1;
              json_requirement
                (json_query
                   [JObject [("Class",
                              JObject [("department_id", JString "cs");
                                       ("course_number", json_number 112);
                                       ("lab", JBool false)])]])
                "  " 2
            ])].

Definition faulty_document_errors : list MQLValidator.MQLValidationError := [
  {| CourseValidator.path := "root";
     CourseValidator.message := "Invalid version format: 1.0" |};
  {| CourseValidator.path := "root.requirements.[0].query.quantity";
     CourseValidator.message := "'Single' quantity must be greater than 0" |};
  {| CourseValidator.path := "root.requirements.[0].query.selector";
     CourseValidator.message := "Selector array cannot be empty" |};
  {| CourseValidator.path := "root.requirements.[1].query.selector.[0]";
     CourseValidator.message := "Invalid department_id format: cs" |};
  {| CourseValidator.path := "root.requirements.[1]";
     CourseValidator.message := "'description' cannot be empty" |}
].

(** A document without a requirement. *)
Definition empty_document_json : JSON := json_document [].

(** A catalog of the first schema, and one whose entry has no code and a
    negative credit. *)
Definition plain_catalog_json : JSON :=
  JArray [JObject [("codes", JArray [JString "CS 112"]);
                   ("title", JString "Intro");
                   ("credit", json_number 1);
                   ("seasons", JArray [JString "Fall"]);
                   ("season_codes", JArray [JString "202603"])]].

Definition faulty_plain_catalog_json : JSON :=
  JArray [JObject [("codes", JArray []);
                   ("title", JString "Intro");
                   ("credit", json_number (-1));
                   ("seasons", JArray []);
                   ("season_codes", JArray [])]].

(* ================================================================= *)
(** * Properties *)

Section Properties.
Context {rt : JsRuntime}.

Lemma match_flatten (courseList : Catalog) (mql : MQLQuery) :
  QueryMatcher.match_ courseList mql false = QueryMatcher.matchFlatten courseList mql.
Proof. destruct mql; reflexivity. Qed.

Lemma match_top (courseList : Catalog) (mql : MQLQuery) :
  QueryMatcher.match_ courseList mql true = QueryMatcher.matchTop courseList mql.
Proof. destruct mql; reflexivity. Qed.

(** ** Class selectors *)

(** C10, as the code has it: [queryClass] does not read [lab].  Two Class
    selectors with the same [department_id] and [course_number] match the
    same courses in the same order whatever their [lab] values, or both
    fail with the same message: the handler only looks for the string
    [department_id course_number] in the [codes] of each course.  Called
    with the same enclosing query they are evaluated to the same result
    in the same way.  Under two enclosing queries a failure differs in its
    [requirement], which is [JSON.stringify] of the enclosing query, and
    in nothing else. *)
Theorem queryClass_ignores_lab :
  forall (mql : MQLQuery) (dep : string) (num : U16) (lab1 lab2 : bool)
         (courseList : Catalog),
    let A := SClass {| department_id := dep; course_number := num; lab := lab1 |} in
    let B := SClass {| department_id := dep; course_number := num; lab := lab2 |} in
    let fmt := (dep ++ " " ++ U16_to_string num)%string in
    let found := filter (fun course =>
                           match obj course with
                           | ACourse c => includes (codes c) fmt
                           | AManual _ => false
                           end) courseList in
    QueryMatcher.queryClass mql A courseList = QueryMatcher.queryClass mql B courseList
    /\ evalSelector courseList mql A = evalSelector courseList mql B
    /\ (forall w : World,
          evalSelector courseList mql A w
          = (match found with
             | [] => err (mkError (JSON_stringify mql)
                            (fmt ++ " not found in catalog")%string)
             | _ => ok (map FromCatalog found)
             end, w))
    /\ (forall (mql' : MQLQuery) (w w' : World),
          match result_of (evalSelector courseList mql A) w,
                result_of (evalSelector courseList mql' B) w' with
          | ok dA, ok dB => dA = dB /\ dA = map FromCatalog found
          | err eA, err eB =>
              eA = mkError (JSON_stringify mql) (fmt ++ " not found in catalog")%string
              /\ eB = mkError (JSON_stringify mql') (fmt ++ " not found in catalog")%string
          | _, _ => False
          end).
Proof.
  intros mql dep num lab1 lab2 courseList. cbv zeta.
  split; [reflexivity|]. split; [reflexivity|]. split.
  - intros w. unfold evalSelector. cbn [keyOf QueryMatcher.selectorVTable].
    unfold QueryMatcher.queryClass. cbn [department_id course_number].
    destruct (filter _ courseList); reflexivity.
  - intros mql' w w'. unfold result_of, evalSelector.
    cbn [keyOf QueryMatcher.selectorVTable].
    unfold QueryMatcher.queryClass. cbn [department_id course_number].
    destruct (filter _ courseList); cbn; split; reflexivity.
Qed.

(** ** What a handler returns *)

Lemma evalSelector_nonempty (courseList : Catalog) (mql : MQLQuery) (s : Selector)
    (w w' : World) (data : CourseList) :
  evalSelector courseList mql s w = (ok data, w') -> data <> [].
Proof.
  unfold evalSelector.
  destruct s; cbn [keyOf QueryMatcher.selectorVTable];
    unfold QueryMatcher.queryClass, QueryMatcher.queryPlacement, QueryMatcher.queryTag,
      QueryMatcher.queryTagCode, QueryMatcher.queryDist, QueryMatcher.queryDistCode,
      QueryMatcher.queryRange, QueryMatcher.queryRangeDist, QueryMatcher.queryRangeTag,
      QueryMatcher.queryQuery, bind, ret; cbn.
  all: try match goal with
           | |- context [filter ?f ?l] => destruct (filter f l) eqn:?
           end; try (intros H; inversion H; subst; discriminate).
  - (* Range *)
    destruct (negb _); [intros H; inversion H|].
    destruct (flatMapM _ courseList w) as [l w1]; destruct l;
      intros H; inversion H; subst; discriminate.
  - (* Query *)
    destruct (QueryMatcher.match_ courseList q false w) as [[d|e] w1]; cbn;
      intros H; inversion H; subst; discriminate.
Qed.

(** ** The empty selector list *)

(** C9: in flatten mode a query with no selector succeeds with the empty
    collection, and leaves the world as it found it; through
    [matchCourses] a requirement with such a query is reported as matched
    by no course.  This is so although a selector that succeeds never
    returns an empty list. *)
Theorem empty_selector_list_succeeds :
  forall (courseList : Catalog) (qn : Quantity) (ty : MQLQueryType) (w : World),
    QueryMatcher.matchFlatten courseList (Build_MQLQuery qn ty []) w = (ok [], w)
    /\ (forall (ver desc : string) (prio : U16),
          let req := {| query := Build_MQLQuery qn ty [];
                        req_description := desc; priority := prio |} in
          matchCourses courseList {| file_version := ver; requirements := [req] |} w
          = (ok {| results := [ {| requirement := req; selectedCourses := [] |} ];
                   allSelectedCourses := [] |}, w))
    /\ (forall (mql : MQLQuery) (s : Selector),
          match result_of (evalSelector courseList mql s) w with
          | ok data => data <> []
          | err _ => True
          end).
Proof.
  intros courseList qn ty w. split; [reflexivity|]. split; [reflexivity|].
  intros mql s. unfold result_of.
  destruct (evalSelector courseList mql s w) as [[data|e] w'] eqn:E; cbn; [|exact I].
  eapply evalSelector_nonempty; eassumption.
Qed.

(** ** The Query selector *)

Lemma evalSelector_Query (courseList : Catalog) (mql q : MQLQuery) (w : World) :
  evalSelector courseList mql (SQuery q) w
  = match QueryMatcher.matchFlatten courseList q w with
    | (ok data, w1) => (ok [NewList (next_ref w1) data], world_after alloc w1)
    | (err e, w1) => (err e, world_after (log Trace) w1)
    end.
Proof.
  unfold evalSelector. cbn [keyOf QueryMatcher.selectorVTable].
  unfold QueryMatcher.queryQuery, bind. rewrite match_flatten.
  destruct (QueryMatcher.matchFlatten courseList q w) as [[data|e] w1]; reflexivity.
Qed.

(** C6: a Query selector runs the nested query in flatten mode
    ([this.match] with [limitOne] false is [matchFlatten]).  When that
    succeeds its whole result becomes the one element of the list that the
    selector returns, as a nested list under a reference of its own; when
    it fails the selector fails with the same error. *)
Theorem queryQuery_wraps_nested_result :
  forall (courseList : Catalog) (mql q : MQLQuery) (w : World),
    QueryMatcher.match_ courseList q false = QueryMatcher.matchFlatten courseList q
    /\ QueryMatcher.queryQuery QueryMatcher.match_ mql (SQuery q) courseList w
       = evalSelector courseList mql (SQuery q) w
    /\ match QueryMatcher.matchFlatten courseList q w with
       | (ok data, w1) =>
           evalSelector courseList mql (SQuery q) w
           = (ok [NewList (next_ref w1) data], world_after alloc w1)
       | (err e, w1) =>
           evalSelector courseList mql (SQuery q) w
           = (err e, world_after (log Trace) w1)
       end.
Proof.
  intros courseList mql q w. split; [apply match_flatten|]. split; [reflexivity|].
  rewrite evalSelector_Query.
  destruct (QueryMatcher.matchFlatten courseList q w) as [[data|e] w1]; reflexivity.
Qed.

(** ** Selectors with a department: DistCode and TagCode *)

Lemma includes_In (xs : list string) (x : string) :
  includes xs x = true <-> In x xs.
Proof.
  unfold includes. rewrite existsb_exists. split.
  - intros [y [Hin Heq]]. apply String.eqb_eq in Heq. subst. exact Hin.
  - intros Hin. exists x. split; [exact Hin | apply String.eqb_refl].
Qed.

Lemma some_code_in_spec (dep : string) (c : Course) :
  QueryMatcher.some_code_in dep c = true <-> has_department dep c.
Proof.
  unfold QueryMatcher.some_code_in, some, has_department. rewrite existsb_exists.
  split; intros [code [Hin H]]; exists code; split; auto.
  - now apply String.eqb_eq.
  - now apply String.eqb_eq.
Qed.

Lemma dist_includes_spec (d : string) (c : Course) :
  QueryMatcher.dist_includes c (toLowerCase d) = true <-> dist_contains d c.
Proof.
  unfold QueryMatcher.dist_includes, dist_contains.
  destruct (dist c) as [ds|].
  - rewrite includes_In. split.
    + intros H. exists ds. auto.
    + intros [ds' [E H]]. inversion E; subst. exact H.
  - split; [discriminate | intros [ds [E _]]; discriminate].
Qed.

Lemma courseFilter_spec (d dep : string) (e : CatalogEntry) :
  QueryMatcher.courseFilter (toLowerCase d) dep e = true
  <-> exists c, obj e = ACourse c /\ has_department dep c /\ dist_contains d c.
Proof.
  unfold QueryMatcher.courseFilter. destruct (obj e) as [c|m].
  - split.
    + intros H. exists c. split; [reflexivity|].
      destruct (dist c) eqn:Ed; [|discriminate].
      apply andb_true_iff in H. destruct H as [H1 H2].
      split; [now apply some_code_in_spec|].
      apply dist_includes_spec. exact H2.
    + intros [c' [E [H1 H2]]]. inversion E; subst c'.
      pose proof H2 as [ds [Ed _]]. rewrite Ed.
      apply andb_true_iff. split; [now apply some_code_in_spec|].
      now apply dist_includes_spec.
  - split; [discriminate | intros [c [E _]]; discriminate].
Qed.

Lemma tagCodeFilter_spec (tag dep : string) (e : CatalogEntry) :
  QueryMatcher.tagCodeFilter tag dep e = true
  <-> exists c, obj e = ACourse c /\ has_department dep c /\ tags_contain tag c.
Proof.
  unfold QueryMatcher.tagCodeFilter, tags_contain. destruct (obj e) as [c|m].
  - split.
    + intros H. exists c. split; [reflexivity|].
      destruct (tags c) as [ts|] eqn:Et; [|discriminate].
      apply andb_true_iff in H. destruct H as [H1 H2].
      split; [now apply some_code_in_spec|].
      exists ts. split; [reflexivity | now apply includes_In].
    + intros [c' [E [H1 [ts [Et H2]]]]]. inversion E; subst c'.
      rewrite Et. apply andb_true_iff. split; [now apply some_code_in_spec|].
      now apply includes_In.
  - split; [discriminate | intros [c [E _]]; discriminate].
Qed.

(** A handler that filters the catalog with [keep] and fails on an empty
    outcome selects exactly what [keep] keeps. *)
Lemma filter_selects (courseList : Catalog) (keep : CatalogEntry -> bool)
    (P : Course -> Prop) (e0 : MatchingError) :
  (forall e, keep e = true <-> exists c, obj e = ACourse c /\ P c) ->
  selects_exactly courseList P
    (match filter keep courseList with
     | [] => err e0
     | _ => ok (map FromCatalog (filter keep courseList))
     end).
Proof.
  intros Hkeep. destruct (filter keep courseList) as [|x l] eqn:Ef; cbn.
  - intros e c Hin Hobj HP.
    assert (Hk : keep e = true) by (apply Hkeep; eauto).
    assert (Hf : In e (filter keep courseList)) by (apply filter_In; auto).
    rewrite Ef in Hf. exact Hf.
  - split; [discriminate|]. exists keep. rewrite Ef. split; [reflexivity | exact Hkeep].
Qed.

(** C2, as the code has it: a DistCode selector matches exactly the
    courses that have the given department in SOME of their codes (the text
    before the first space of a code, not only of the first code) and the
    lower-cased target among their lower-cased [dist]; a TagCode selector
    matches exactly the courses that have the department in some of their
    codes and the tag, as it is, among their [tags].  Either fails exactly
    when no course of the catalog is so. *)
Theorem department_selectors_match_any_code :
  forall (courseList : Catalog) (mql : MQLQuery) (d tag dep : string) (w : World),
    selects_exactly courseList
      (fun c => has_department dep c /\ dist_contains d c)
      (result_of (evalSelector courseList mql (SDistCode d dep)) w)
    /\ selects_exactly courseList
      (fun c => has_department dep c /\ tags_contain tag c)
      (result_of (evalSelector courseList mql (STagCode tag dep)) w).
Proof.
  intros courseList mql d tag dep w. split.
  - pose proof (@filter_selects courseList (QueryMatcher.courseFilter (toLowerCase d) dep)
                  (fun c => has_department dep c /\ dist_contains d c)
                  (mkError (JSON_stringify mql)
                     ("DIST_DEPT(" ++ d ++ ", " ++ dep ++ ") not found in catalog")%string)
                  (courseFilter_spec d dep)) as H.
    unfold result_of, evalSelector. cbn [keyOf QueryMatcher.selectorVTable].
    unfold QueryMatcher.queryDistCode.
    destruct (filter _ courseList); exact H.
  - pose proof (@filter_selects courseList (QueryMatcher.tagCodeFilter tag dep)
                  (fun c => has_department dep c /\ tags_contain tag c)
                  (mkError (JSON_stringify mql)
                     ("TAG_DEPT(" ++ tag ++ ", " ++ dep ++ ") not found in catalog")%string)
                  (tagCodeFilter_spec tag dep)) as H.
    unfold result_of, evalSelector. cbn [keyOf QueryMatcher.selectorVTable].
    unfold QueryMatcher.queryTagCode.
    destruct (filter _ courseList); exact H.
Qed.

(** ** The Range selector *)

Lemma scanCodes_Found (from to : Class) (cs : list string) :
  QueryMatcher.scanCodes from to (map (split " ") cs) = QueryMatcher.Found
  <-> exists pre code post,
        cs = pre ++ code :: post /\ Forall two_part pre /\ code_in_range from to code.
Proof.
  induction cs as [|c cs IH]; cbn [map QueryMatcher.scanCodes].
  - split; [discriminate|]. intros [pre [code [post [E _]]]].
    destruct pre; discriminate.
  - assert (Hlater :
      (exists pre code post,
          cs = pre ++ code :: post /\ Forall two_part pre /\ code_in_range from to code)
      -> two_part c
      -> exists pre code post,
          c :: cs = pre ++ code :: post /\ Forall two_part pre /\ code_in_range from to code).
    { intros [pre [code [post [E [Hpre Hcode]]]]] Hc.
      exists (c :: pre), code, post. subst cs. repeat split; auto. }
    assert (Hfirst : forall pre code post,
      c :: cs = pre ++ code :: post -> Forall two_part pre -> code_in_range from to code ->
      code_in_range from to c \/
      (two_part c /\ exists pre' , cs = pre' ++ code :: post /\ Forall two_part pre')).
    { intros pre code post E Hpre Hcode. destruct pre as [|p pre'].
      - cbn in E. inversion E; subst. left. exact Hcode.
      - cbn in E. inversion E; subst. inversion Hpre; subst. right. split; eauto. }
    destruct (split " " c) as [|dep [|numStr [|x l]]] eqn:Es.
    + (* no part *)
      split; [discriminate|]. intros [pre [code [post [E [Hpre Hcode]]]]].
      destruct (Hfirst _ _ _ E Hpre Hcode) as [[a [b [Ec _]]] | [Hc _]].
      * rewrite Es in Ec. discriminate.
      * unfold two_part in Hc. rewrite Es in Hc. discriminate.
    + (* one part *)
      split; [discriminate|]. intros [pre [code [post [E [Hpre Hcode]]]]].
      destruct (Hfirst _ _ _ E Hpre Hcode) as [[a [b [Ec _]]] | [Hc _]].
      * rewrite Es in Ec. discriminate.
      * unfold two_part in Hc. rewrite Es in Hc. discriminate.
    + (* a department and a number *)
      assert (Hc : two_part c) by (unfold two_part; rewrite Es; reflexivity).
      destruct (String.eqb dep (department_id from)) eqn:Edep; cbn [negb].
      * apply String.eqb_eq in Edep.
        destruct (js_le (U16_to_number (course_number from)) (Number numStr)
                  && js_le (Number numStr) (U16_to_number (course_number to))) eqn:Ein.
        -- split; [intros _ | reflexivity].
           apply andb_true_iff in Ein. destruct Ein as [E1 E2].
           exists [], c, cs. repeat split; auto.
           exists dep, numStr. auto.
        -- rewrite IH. split; [intros H; apply Hlater; auto|].
           intros [pre [code [post [E [Hpre Hcode]]]]].
           destruct (Hfirst _ _ _ E Hpre Hcode) as [[a [b [Ec [_ [E1 E2]]]]] | [_ [pre' [E' Hpre']]]].
           ++ rewrite Es in Ec. inversion Ec; subst a b.
              rewrite E1, E2 in Ein. discriminate.
           ++ exists pre', code, post. auto.
      * rewrite IH. split; [intros H; apply Hlater; auto|].
        intros [pre [code [post [E [Hpre Hcode]]]]].
        destruct (Hfirst _ _ _ E Hpre Hcode) as [[a [b [Ec [Ea _]]]] | [_ [pre' [E' Hpre']]]].
        -- rewrite Es in Ec. inversion Ec; subst a b.
           subst dep. rewrite String.eqb_refl in Edep. discriminate.
        -- exists pre', code, post. auto.
    + (* more parts *)
      split; [discriminate|]. intros [pre [code [post [E [Hpre Hcode]]]]].
      destruct (Hfirst _ _ _ E Hpre Hcode) as [[a [b [Ec _]]] | [Hc _]].
      * rewrite Es in Ec. discriminate.
      * unfold two_part in Hc. rewrite Es in Hc. discriminate.
Qed.

Lemma rangeKeeps_spec (from to : Class) (e : CatalogEntry) :
  rangeKeeps from to e = true
  <-> exists c, obj e = ACourse c /\ first_codes_in_range from to c.
Proof.
  unfold rangeKeeps, first_codes_in_range. destruct (obj e) as [c|m].
  - split.
    + intros H. exists c. split; [reflexivity|]. apply scanCodes_Found.
      destruct (QueryMatcher.scanCodes _ _ _); try discriminate; reflexivity.
    + intros [c' [E H]]. inversion E; subst c'.
      apply scanCodes_Found in H. rewrite H. reflexivity.
  - split; [discriminate | intros [c [E _]]; discriminate].
Qed.

(** The callback of [queryRange] returns the course or nothing; it only
    writes to the console. *)
Lemma rangeCallback_spec (from to : Class) (e : CatalogEntry) (w : World) :
  let out := QueryMatcher.rangeCallback from to e w in
  fst out = (if rangeKeeps from to e then [e] else [])
  /\ next_ref (snd out) = next_ref w
  /\ uuid_drawn (snd out) = uuid_drawn w
  /\ uuid_source (snd out) = uuid_source w.
Proof.
  unfold QueryMatcher.rangeCallback, rangeKeeps.
  destruct (obj e) as [c|m]; [|cbn; auto].
  destruct (QueryMatcher.scanCodes from to (map (split " ") (codes c))); cbn; auto.
Qed.

(** So [flatMap] with that callback is a filter. *)
Lemma flatMapM_rangeCallback (from to : Class) (courseList : Catalog) (w : World) :
  let out := flatMapM (QueryMatcher.rangeCallback from to) courseList w in
  fst out = filter (rangeKeeps from to) courseList
  /\ next_ref (snd out) = next_ref w
  /\ uuid_drawn (snd out) = uuid_drawn w
  /\ uuid_source (snd out) = uuid_source w.
Proof.
  revert w. induction courseList as [|e l IH]; intros w; cbn [flatMapM filter].
  - cbn. auto.
  - unfold bind.
    destruct (rangeCallback_spec from to e w) as [H1 [H2 [H3 H4]]].
    destruct (QueryMatcher.rangeCallback from to e w) as [ys w1]. cbn in H1, H2, H3, H4.
    destruct (IH w1) as [I1 [I2 [I3 I4]]].
    destruct (flatMapM (QueryMatcher.rangeCallback from to) l w1) as [zs w2].
    cbn in I1, I2, I3, I4. cbn. subst ys zs.
    repeat split; try congruence.
    destruct (rangeKeeps from to e); reflexivity.
Qed.

Lemma queryRange_result (mql : MQLQuery) (from to : Class) (courseList : Catalog) (w : World) :
  department_id from = department_id to ->
  result_of (evalSelector courseList mql (SRange from to)) w
  = match filter (rangeKeeps from to) courseList with
    | [] => err (mkError (JSON_stringify mql)
              ("RANGE(" ++ department_id from ++ U16_to_string (course_number from)
               ++ ", " ++ department_id to ++ U16_to_string (course_number to)
               ++ ") not found in catalog")%string)
    | _ => ok (map FromCatalog (filter (rangeKeeps from to) courseList))
    end.
Proof.
  intros Hdep. unfold result_of, evalSelector. cbn [keyOf QueryMatcher.selectorVTable].
  unfold QueryMatcher.queryRange. rewrite Hdep, String.eqb_refl. cbn [negb].
  unfold bind. rewrite <- Hdep.
  destruct (flatMapM_rangeCallback from to courseList w) as [H _].
  destruct (flatMapM (QueryMatcher.rangeCallback from to) courseList w) as [l w'].
  cbn in H. subst l.
  destruct (filter (rangeKeeps from to) courseList); reflexivity.
Qed.

(** C3, as the code has it: for a Range selector within one department a
    course matches exactly when one of its codes is in range (a department
    and a number, the department that of the selector, the number between
    the two bounds, both included) and every code BEFORE that one splits
    in two parts.  The first code in range decides, whatever comes after
    it; a code of another shape met before any code in range drops the
    course (with a warning, and without failing the selector).  The
    selector fails exactly when no course matches. *)
Theorem queryRange_first_codes_in_range :
  forall (courseList : Catalog) (mql : MQLQuery) (from to : Class) (w : World),
    department_id from = department_id to ->
    selects_exactly courseList (first_codes_in_range from to)
      (result_of (evalSelector courseList mql (SRange from to)) w).
Proof.
  intros courseList mql from to w Hdep. rewrite queryRange_result by exact Hdep.
  apply filter_selects. apply rangeKeeps_spec.
Qed.

(** ** Flatten mode *)

Lemma flattenLoop_cons (courseList : Catalog) (mql : MQLQuery) (s : Selector)
    (rest : list Selector) (acc : JsSet) (w : World) :
  QueryMatcher.flattenLoop QueryMatcher.match_ courseList mql (s :: rest) acc w
  = match evalSelector courseList mql s w with
    | (ok data, w1) =>
        QueryMatcher.flattenLoop QueryMatcher.match_ courseList mql rest
          (Set_addAll acc data) w1
    | (err e, w1) => (err e, w1)
    end.
Proof.
  unfold evalSelector. cbn [QueryMatcher.flattenLoop]. unfold bind.
  destruct (QueryMatcher.selectorVTable QueryMatcher.match_ (keyOf s) mql s courseList w)
    as [[data|e] w1]; reflexivity.
Qed.

Lemma flattenLoop_Evaluated (courseList : Catalog) (mql : MQLQuery)
    (sels : list Selector) (w w' : World) (datas : list CourseList) :
  Evaluated courseList mql sels w datas w' ->
  forall acc,
    QueryMatcher.flattenLoop QueryMatcher.match_ courseList mql sels acc w
    = (ok (fold_left Set_addAll datas acc), w').
Proof.
  induction 1 as [w | s rest w w1 w2 data datas Hs _ IH]; intros acc.
  - reflexivity.
  - rewrite flattenLoop_cons, Hs. cbn [fold_left]. apply IH.
Qed.

Lemma flattenLoop_first_failure (courseList : Catalog) (mql : MQLQuery)
    (pre : list Selector) (w w1 : World) (datas : list CourseList) :
  Evaluated courseList mql pre w datas w1 ->
  forall s post e w2 acc,
    evalSelector courseList mql s w1 = (err e, w2) ->
    QueryMatcher.flattenLoop QueryMatcher.match_ courseList mql (pre ++ s :: post) acc w
    = (err e, w2).
Proof.
  induction 1 as [w | s0 rest w w1 w2 data datas Hs _ IH]; intros s post e w3 acc Hfail.
  - cbn [app]. rewrite flattenLoop_cons, Hfail. reflexivity.
  - cbn [app]. rewrite flattenLoop_cons, Hs. eapply IH. exact Hfail.
Qed.

(** The loop ends in one of two ways. *)
Lemma flattenLoop_cases (courseList : Catalog) (mql : MQLQuery)
    (sels : list Selector) (acc : JsSet) (w : World) :
  (exists datas w',
      Evaluated courseList mql sels w datas w' /\
      QueryMatcher.flattenLoop QueryMatcher.match_ courseList mql sels acc w
      = (ok (fold_left Set_addAll datas acc), w'))
  \/
  (exists pre s post datas w1 e w2,
      sels = pre ++ s :: post /\
      Evaluated courseList mql pre w datas w1 /\
      evalSelector courseList mql s w1 = (err e, w2) /\
      QueryMatcher.flattenLoop QueryMatcher.match_ courseList mql sels acc w
      = (err e, w2)).
Proof.
  revert acc w. induction sels as [|s rest IH]; intros acc w.
  - left. exists [], w. split; [constructor | reflexivity].
  - rewrite flattenLoop_cons.
    destruct (evalSelector courseList mql s w) as [[data|e] w1] eqn:Hs.
    + destruct (IH (Set_addAll acc data) w1)
        as [[datas [w' [Hev Hrun]]] | [pre [s' [post [datas [w2 [e [w3 [E [Hev [Hf Hrun]]]]]]]]]]].
      * left. exists (data :: datas), w'. split; [econstructor; eauto | exact Hrun].
      * right. exists (s :: pre), s', post, (data :: datas), w2, e, w3.
        subst rest. repeat split; auto. econstructor; eauto.
    + right. exists [], s, rest, [], w, e, w1. repeat split; auto. constructor.
Qed.

(** C7: in flatten mode the selectors are evaluated in the order of the
    list, each in the world that the one before left.  The query fails
    with [e] exactly when some selector fails with [e] after all the
    selectors before it succeeded; the world is then the one that this
    selector left, so nothing after it was evaluated, and nothing of what
    was gathered is returned.  The query succeeds exactly when all its
    selectors do, with the union of what they returned. *)
Theorem matchFlatten_short_circuits :
  forall (courseList : Catalog) (mql : MQLQuery) (w w' : World),
    (forall e : MatchingError,
        QueryMatcher.matchFlatten courseList mql w = (err e, w')
        <-> exists pre s post datas w1,
              selector mql = pre ++ s :: post /\
              Evaluated courseList mql pre w datas w1 /\
              evalSelector courseList mql s w1 = (err e, w'))
    /\ (forall data : CourseList,
        QueryMatcher.matchFlatten courseList mql w = (ok data, w')
        <-> exists datas,
              Evaluated courseList mql (selector mql) w datas w' /\
              data = unionAll datas).
Proof.
  intros courseList mql w w'.
  unfold QueryMatcher.matchFlatten, QueryMatcher.matchFlatten_, unionAll.
  destruct (flattenLoop_cases courseList mql (selector mql) [] w)
    as [[datas [w2 [Hev Hrun]]] | [pre [s [post [datas [w1 [e0 [w2 [E [Hev [Hf Hrun]]]]]]]]]]].
  - split.
    + intros e. split.
      * rewrite Hrun. discriminate.
      * intros [pre [s [post [datas' [w1 [E [Hev' Hf]]]]]]].
        rewrite E. eapply flattenLoop_first_failure; eauto.
    + intros data. split.
      * rewrite Hrun. intros H. inversion H; subst. exists datas. auto.
      * intros [datas' [Hev' ->]]. apply flattenLoop_Evaluated. exact Hev'.
  - split.
    + intros e. split.
      * rewrite Hrun. intros H. inversion H; subst.
        exists pre, s, post, datas, w1. auto.
      * intros [pre' [s' [post' [datas' [w1' [E' [Hev' Hf']]]]]]].
        rewrite E'. eapply flattenLoop_first_failure; eauto.
    + intros data. split.
      * rewrite Hrun. discriminate.
      * intros [datas' [Hev' ->]]. apply flattenLoop_Evaluated. exact Hev'.
Qed.

(** ** Sorting by priority *)

Lemma insert_Permutation (x : MQLRequirement) (l : list MQLRequirement) :
  Permutation (insert MQLMatcher.byPriority x l) (x :: l).
Proof.
  induction l as [|y l IH]; cbn [insert].
  - apply Permutation_refl.
  - destruct (MQLMatcher.byPriority x y <=? 0)%Z.
    + apply Permutation_refl.
    + eapply perm_trans; [apply perm_skip, IH | apply perm_swap].
Qed.

Lemma sort_Permutation (l : list MQLRequirement) :
  Permutation (sort MQLMatcher.byPriority l) l.
Proof.
  induction l as [|x l IH]; cbn [sort fold_right].
  - apply Permutation_refl.
  - eapply perm_trans; [apply insert_Permutation | apply perm_skip, IH].
Qed.

Lemma byPriority_le (x y : MQLRequirement) :
  (MQLMatcher.byPriority x y <=? 0)%Z = true <-> priority_ge x y.
Proof.
  unfold MQLMatcher.byPriority, priority_ge. rewrite Z.leb_le. lia.
Qed.

Lemma insert_sorted (x : MQLRequirement) (l : list MQLRequirement) :
  StronglySorted priority_ge l ->
  StronglySorted priority_ge (insert MQLMatcher.byPriority x l).
Proof.
  induction 1 as [|y l Hs IH Hall]; cbn [insert].
  - constructor; constructor.
  - destruct (MQLMatcher.byPriority x y <=? 0)%Z eqn:E.
    + apply byPriority_le in E. constructor.
      * constructor; assumption.
      * constructor; [exact E|].
        eapply Forall_impl; [|exact Hall].
        intros z Hz. unfold priority_ge in *. lia.
    + constructor; [exact IH|].
      eapply Permutation_Forall; [apply Permutation_sym, insert_Permutation|].
      constructor; [|exact Hall].
      assert (~ priority_ge x y) as Hn.
      { intros H. apply byPriority_le in H. congruence. }
      unfold priority_ge in *. lia.
Qed.

Lemma sort_sorted (l : list MQLRequirement) :
  StronglySorted priority_ge (sort MQLMatcher.byPriority l).
Proof.
  induction l as [|x l IH]; cbn [sort fold_right].
  - constructor.
  - apply insert_sorted. exact IH.
Qed.

Lemma insert_with_priority (p : U16) (x : MQLRequirement) (l : list MQLRequirement) :
  with_priority p (insert MQLMatcher.byPriority x l) = with_priority p (x :: l).
Proof.
  unfold with_priority. induction l as [|y l IH]; cbn [insert].
  - reflexivity.
  - destruct (MQLMatcher.byPriority x y <=? 0)%Z eqn:E; [reflexivity|].
    assert (~ priority_ge x y) as Hn.
    { intros H. apply byPriority_le in H. congruence. }
    unfold priority_ge in Hn.
    cbn [filter] in *. rewrite IH.
    destruct (N.eqb (priority x) p) eqn:Ex; [|reflexivity].
    apply N.eqb_eq in Ex.
    destruct (N.eqb (priority y) p) eqn:Ey; [|reflexivity].
    apply N.eqb_eq in Ey. lia.
Qed.

Lemma sort_with_priority (p : U16) (l : list MQLRequirement) :
  with_priority p (sort MQLMatcher.byPriority l) = with_priority p l.
Proof.
  induction l as [|x l IH]; cbn [sort fold_right].
  - reflexivity.
  - rewrite insert_with_priority. unfold with_priority in *. cbn [filter].
    fold (sort MQLMatcher.byPriority l). rewrite IH. reflexivity.
Qed.

(** ** The requirement resolver *)

(** The loop of [MQLMatcher.match] evaluates every requirement and sorts
    the outcomes into its accumulators. *)
Lemma resolveLoop_spec (courseList : Catalog) (todo : list MQLRequirement) :
  forall (errors : list MatchingError) (usedCourses : JsSet)
         (results : list QueryResult) (w : World),
    MQLMatcher.resolveLoop courseList todo errors usedCourses results w
    = let (outcomes, w') := evaluateAll courseList todo w in
      ((errors ++ errors_in outcomes,
        fold_left Set_addAll (selected_in outcomes) usedCourses,
        results ++ matched todo outcomes), w').
Proof.
  induction todo as [|req rest IH]; intros errors usedCourses results w.
  - cbn. rewrite !app_nil_r. reflexivity.
  - cbn [MQLMatcher.resolveLoop evaluateAll]. unfold bind.
    destruct (QueryMatcher.match_ courseList (query req) false w) as [[data|e] w1].
    + rewrite IH. destruct (evaluateAll courseList rest w1) as [outcomes w2].
      cbn. rewrite <- app_assoc. reflexivity.
    + rewrite IH. destruct (evaluateAll courseList rest w1) as [outcomes w2].
      cbn. rewrite <- app_assoc. reflexivity.
Qed.

Lemma evaluateAll_length (courseList : Catalog) (reqs : list MQLRequirement) (w : World) :
  List.length (fst (evaluateAll courseList reqs w)) = List.length reqs.
Proof.
  revert w. induction reqs as [|req rest IH]; intros w; cbn [evaluateAll].
  - reflexivity.
  - unfold bind.
    destruct (QueryMatcher.match_ courseList (query req) false w) as [o w1].
    specialize (IH w1). destruct (evaluateAll courseList rest w1) as [os w2].
    cbn in *. congruence.
Qed.

Lemma errors_in_nil (outcomes : list (Result CourseList MatchingError)) :
  errors_in outcomes = [] <-> forallb is_ok outcomes = true.
Proof.
  induction outcomes as [|[data|e] os IH]; cbn.
  - tauto.
  - exact IH.
  - split; discriminate.
Qed.

Lemma matched_all_ok (reqs : list MQLRequirement)
    (outcomes : list (Result CourseList MatchingError)) :
  List.length outcomes = List.length reqs ->
  forallb is_ok outcomes = true ->
  map requirement (matched reqs outcomes) = reqs.
Proof.
  revert outcomes. induction reqs as [|req rest IH]; intros [|[data|e] os] Hlen Hok;
    cbn in *; try discriminate; try reflexivity.
  f_equal. apply IH; [lia | exact Hok].
Qed.

(** [matchCourses] in terms of the outcomes of the requirements. *)
Lemma matchCourses_spec (courseList : Catalog) (mql : MQLQueryFile) (w : World) :
  let sorted := sort MQLMatcher.byPriority (requirements mql) in
  let outcomes := result_of (evaluateAll courseList sorted) w in
  matchCourses courseList mql w
  = (if forallb is_ok outcomes
     then ok {| results := matched sorted outcomes;
                allSelectedCourses := unionAll (selected_in outcomes) |}
     else err (errors_in outcomes),
     world_after (evaluateAll courseList sorted) w).
Proof.
  cbv zeta. unfold matchCourses, MQLMatcher.match_, bind, result_of, world_after, unionAll.
  rewrite resolveLoop_spec.
  destruct (evaluateAll courseList (sort MQLMatcher.byPriority (requirements mql)) w)
    as [outcomes w'].
  cbn [fst snd app].
  destruct (errors_in outcomes) as [|e es] eqn:Ee.
  - apply errors_in_nil in Ee. rewrite Ee. reflexivity.
  - destruct (forallb is_ok outcomes) eqn:Eo; [|reflexivity].
    apply errors_in_nil in Eo. congruence.
Qed.

(** C8: when [matchCourses] succeeds, the requirements of its [results]
    are those of the document sorted by priority, highest first, by a
    stable sort: every requirement is there once, none comes before one
    of higher priority, and requirements of one priority are in the order
    that the document has them. *)
Theorem results_sorted_by_priority_stably :
  forall (courseList : Catalog) (mql : MQLQueryFile) (w w' : World)
         (r : MatchingEvaluationResult),
    matchCourses courseList mql w = (ok r, w') ->
    let out := map requirement (results r) in
    out = sort MQLMatcher.byPriority (requirements mql)
    /\ Permutation out (requirements mql)
    /\ StronglySorted priority_ge out
    /\ forall p : U16, with_priority p out = with_priority p (requirements mql).
Proof.
  intros courseList mql w w' r Hrun. cbv zeta.
  rewrite matchCourses_spec in Hrun. cbv zeta in Hrun.
  destruct (forallb is_ok _) eqn:Hok in Hrun; [|discriminate].
  inversion Hrun as [[Hr Hw]]. cbn [results].
  rewrite matched_all_ok; [| apply evaluateAll_length | exact Hok].
  split; [reflexivity|]. split; [apply sort_Permutation|].
  split; [apply sort_sorted|]. intros p. apply sort_with_priority.
Qed.

(** ** Sets of objects *)

Lemma Ref_eqb_eq (r1 r2 : Ref) : Ref_eqb r1 r2 = true <-> r1 = r2.
Proof.
  destruct r1 as [a|a], r2 as [b|b]; cbn; try (split; discriminate).
  - rewrite Nat.eqb_eq. split; [intros ->; reflexivity | intros H; inversion H; reflexivity].
  - rewrite Nat.eqb_eq. split; [intros ->; reflexivity | intros H; inversion H; reflexivity].
Qed.

Lemma Set_has_In (s : JsSet) (x : Element) :
  Set_has s x = true <-> In (identity x) (map identity s).
Proof.
  unfold Set_has, same_object. rewrite existsb_exists, in_map_iff. split.
  - intros [y [Hin H]]. apply Ref_eqb_eq in H. exists y. auto.
  - intros [y [H Hin]]. exists y. split; [exact Hin|]. apply Ref_eqb_eq. auto.
Qed.

Lemma Set_has_false (s : JsSet) (x : Element) :
  Set_has s x = false <-> ~ In (identity x) (map identity s).
Proof.
  rewrite <- Set_has_In. destruct (Set_has s x); split; congruence.
Qed.

Lemma Set_add_identities (s : JsSet) (x : Element) (r : Ref) :
  In r (map identity (Set_add s x)) <-> In r (map identity s) \/ r = identity x.
Proof.
  unfold Set_add. destruct (Set_has s x) eqn:E.
  - apply Set_has_In in E. split; [auto | intros [H | ->]; auto].
  - rewrite map_app, in_app_iff. cbn. intuition.
Qed.

Lemma Set_addAll_identities (xs : list Element) (s : JsSet) (r : Ref) :
  In r (map identity (Set_addAll s xs))
  <-> In r (map identity s) \/ In r (map identity xs).
Proof.
  unfold Set_addAll. revert s. induction xs as [|x xs IH]; intros s; cbn [fold_left map].
  - cbn. tauto.
  - rewrite IH, Set_add_identities. cbn. intuition.
Qed.

Lemma Set_add_NoDup (s : JsSet) (x : Element) :
  NoDup (map identity s) -> NoDup (map identity (Set_add s x)).
Proof.
  intros Hs. unfold Set_add. destruct (Set_has s x) eqn:E; [exact Hs|].
  apply Set_has_false in E. rewrite map_app. cbn.
  apply NoDup_rev in Hs. rewrite <- (rev_involutive (map identity s ++ _)).
  apply NoDup_rev. rewrite rev_app_distr. cbn. constructor; [|exact Hs].
  rewrite <- in_rev. exact E.
Qed.

Lemma Set_addAll_NoDup (xs : list Element) (s : JsSet) :
  NoDup (map identity s) -> NoDup (map identity (Set_addAll s xs)).
Proof.
  unfold Set_addAll. revert s. induction xs as [|x xs IH]; intros s Hs; cbn [fold_left].
  - exact Hs.
  - apply IH, Set_add_NoDup, Hs.
Qed.

(** Adding what is already there changes nothing. *)
Lemma Set_addAll_absorb (xs : list Element) (s : JsSet) :
  (forall x, In x xs -> In (identity x) (map identity s)) ->
  Set_addAll s xs = s.
Proof.
  unfold Set_addAll. induction xs as [|x xs IH]; intros H; cbn [fold_left].
  - reflexivity.
  - assert (E : Set_add s x = s).
    { unfold Set_add. destruct (Set_has s x) eqn:E; [reflexivity|].
      apply Set_has_false in E. exfalso. apply E, H. left. reflexivity. }
    rewrite E. apply IH. intros y Hy. apply H. right. exact Hy.
Qed.

Lemma fresh_refs_In (l : list Element) (r : nat) :
  In r (fresh_refs l) <-> In (FreshRef r) (map identity l).
Proof.
  unfold fresh_refs. rewrite in_flat_map, in_map_iff. split.
  - intros [x [Hin H]]. exists x. split; [|exact Hin].
    destruct (identity x); cbn in H; [contradiction|].
    destruct H as [-> | []]. reflexivity.
  - intros [x [H Hin]]. exists x. split; [exact Hin|]. rewrite H. left. reflexivity.
Qed.

Lemma fresh_refs_app (l1 l2 : list Element) :
  fresh_refs (l1 ++ l2) = fresh_refs l1 ++ fresh_refs l2.
Proof. unfold fresh_refs. apply flat_map_app. Qed.

Lemma fresh_refs_FromCatalog (l : list CatalogEntry) :
  fresh_refs (map FromCatalog l) = [].
Proof. induction l as [|e l IH]; [reflexivity | exact IH]. Qed.

Lemma fresh_refs_NoDup (l : list Element) :
  NoDup (map identity l) -> NoDup (fresh_refs l).
Proof.
  induction l as [|x l IH]; cbn [map]; intros H.
  - constructor.
  - inversion H as [|? ? Hnot Hrest]; subst. specialize (IH Hrest).
    unfold fresh_refs. cbn [flat_map]. fold (fresh_refs l).
    destruct (identity x) as [a|a] eqn:Ex; cbn [app]; [exact IH|].
    constructor; [|exact IH]. rewrite fresh_refs_In. exact Hnot.
Qed.

Lemma Set_addAll_fresh_refs (xs : list Element) (s : JsSet) (r : nat) :
  In r (fresh_refs (Set_addAll s xs)) <-> In r (fresh_refs s) \/ In r (fresh_refs xs).
Proof. rewrite !fresh_refs_In. apply Set_addAll_identities. Qed.

(** ** Two runs side by side *)

Lemma Set_has_scrubbed (s : JsSet) (e : CatalogEntry) :
  Set_has s (FromCatalog e) = Set_has (map scrub s) (FromCatalog e).
Proof.
  unfold Set_has, same_object. induction s as [|x s IH]; cbn [map existsb].
  - reflexivity.
  - rewrite IH. f_equal. destruct x; reflexivity.
Qed.

Lemma Set_has_fresh (s : JsSet) (x : Element) (r : nat) :
  identity x = FreshRef r -> ~ In r (fresh_refs s) -> Set_has s x = false.
Proof.
  intros Hx Hr. apply Set_has_false. rewrite Hx, <- fresh_refs_In. exact Hr.
Qed.

(** Elements that differ in what [scrub] blanks are of the same kind. *)
Lemma scrub_eq_cases (x1 x2 : Element) :
  scrub x1 = scrub x2 ->
  (exists e, x1 = FromCatalog e /\ x2 = FromCatalog e)
  \/ (exists r1 r2, identity x1 = FreshRef r1 /\ identity x2 = FreshRef r2).
Proof.
  destruct x1, x2; cbn; intros H; try discriminate.
  - left. inversion H. eauto.
  - right. eauto.
  - right. eauto.
Qed.

Lemma fresh_refs_cons_fresh (x : Element) (l : list Element) (r : nat) :
  identity x = FreshRef r -> fresh_refs (x :: l) = r :: fresh_refs l.
Proof. intros H. unfold fresh_refs. cbn [flat_map]. rewrite H. reflexivity. Qed.

Lemma fresh_refs_cons_catalog (e : CatalogEntry) (l : list Element) :
  fresh_refs (FromCatalog e :: l) = fresh_refs l.
Proof. reflexivity. Qed.

(** Adding lists that agree up to [scrub] to sets that agree up to [scrub]
    gives sets that agree up to [scrub], as long as the new objects of
    each list are new to its set. *)
Lemma Set_addAll_similar (d1 d2 : list Element) :
  map scrub d1 = map scrub d2 ->
  forall a1 a2 : JsSet,
    map scrub a1 = map scrub a2 ->
    NoDup (fresh_refs d1) -> NoDup (fresh_refs d2) ->
    (forall r, In r (fresh_refs d1) -> ~ In r (fresh_refs a1)) ->
    (forall r, In r (fresh_refs d2) -> ~ In r (fresh_refs a2)) ->
    map scrub (Set_addAll a1 d1) = map scrub (Set_addAll a2 d2).
Proof.
  unfold Set_addAll. revert d2.
  induction d1 as [|x1 d1 IH]; intros [|x2 d2] Hd a1 a2 Ha N1 N2 D1 D2;
    cbn [map fold_left] in *; try discriminate; [exact Ha|].
  inversion Hd as [[Hx Hrest]].
  destruct (scrub_eq_cases _ _ Hx) as [[e [-> ->]] | [r1 [r2 [I1 I2]]]].
  - rewrite !fresh_refs_cons_catalog in *.
    assert (Hhas : Set_has a1 (FromCatalog e) = Set_has a2 (FromCatalog e)).
    { rewrite (Set_has_scrubbed a1), (Set_has_scrubbed a2), Ha. reflexivity. }
    unfold Set_add at 2 4. rewrite Hhas.
    destruct (Set_has a2 (FromCatalog e)).
    + apply IH; auto.
    + apply IH; auto.
      * rewrite !map_app, Ha. reflexivity.
      * intros r Hr. rewrite fresh_refs_app. cbn. rewrite app_nil_r. auto.
      * intros r Hr. rewrite fresh_refs_app. cbn. rewrite app_nil_r. auto.
  - rewrite (@fresh_refs_cons_fresh x1 d1 r1 I1) in *.
    rewrite (@fresh_refs_cons_fresh x2 d2 r2 I2) in *.
    inversion N1 as [|? ? Hn1 N1']; inversion N2 as [|? ? Hn2 N2']; subst.
    unfold Set_add at 2 4.
    rewrite (@Set_has_fresh a1 x1 r1 I1) by (apply D1; left; reflexivity).
    rewrite (@Set_has_fresh a2 x2 r2 I2) by (apply D2; left; reflexivity).
    apply IH; auto.
    + rewrite !map_app, Ha. cbn. rewrite Hx. reflexivity.
    + intros r Hr. rewrite fresh_refs_app, (@fresh_refs_cons_fresh x1 [] r1 I1). cbn.
      rewrite in_app_iff. intros [H | [H | []]].
      * apply (D1 r); [right; exact Hr | exact H].
      * subst r. contradiction.
    + intros r Hr. rewrite fresh_refs_app, (@fresh_refs_cons_fresh x2 [] r2 I2). cbn.
      rewrite in_app_iff. intros [H | [H | []]].
      * apply (D2 r); [right; exact Hr | exact H].
      * subst r. contradiction.
Qed.

Lemma filter_handler_catalog (keep : CatalogEntry -> bool) (e0 : MatchingError)
    (courseList : Catalog) :
  exists r : Result CourseList MatchingError,
    (forall w,
        fst ((match filter keep courseList with
              | [] => ret (err e0)
              | _ => ret (ok (map FromCatalog (filter keep courseList)))
              end) w) = r /\
        next_ref (snd ((match filter keep courseList with
              | [] => ret (err e0)
              | _ => ret (ok (map FromCatalog (filter keep courseList)))
              end) w)) = next_ref w)
    /\ match filter keep courseList with
       | [] => exists e, r = err e
       | _ => r = ok (map FromCatalog (filter keep courseList))
       end.
Proof.
  destruct (filter keep courseList) as [|x l].
  - exists (err e0). split; [intros w; split; reflexivity | eauto].
  - exists (ok (map FromCatalog (x :: l))).
    split; [intros w; split; reflexivity | reflexivity].
Qed.

(** A selector that picks entries of the catalog does so whatever the
    world and the enclosing query; it makes no object. *)
Lemma evalSelector_catalog (courseList : Catalog) (s : Selector) :
  catalog_selector s = true ->
  exists sel : list CatalogEntry,
    forall mql : MQLQuery,
    exists r : Result CourseList MatchingError,
      (forall w, fst (evalSelector courseList mql s w) = r /\
                 next_ref (snd (evalSelector courseList mql s w)) = next_ref w)
      /\ match sel with
         | [] => exists e, r = err e
         | _ => r = ok (map FromCatalog sel)
         end.
Proof.
  unfold evalSelector.
  destruct s; cbn [catalog_selector keyOf QueryMatcher.selectorVTable];
    try discriminate; intros _.
  - (* Class *)
    unfold QueryMatcher.queryClass.
    match goal with |- context [filter ?f courseList] => exists (filter f courseList) end.
    intros mql. exact (filter_handler_catalog _ _ _).
  - (* Tag *)
    unfold QueryMatcher.queryTag.
    match goal with |- context [filter ?f courseList] => exists (filter f courseList) end.
    intros mql. exact (filter_handler_catalog _ _ _).
  - (* TagCode *)
    unfold QueryMatcher.queryTagCode.
    match goal with |- context [filter ?f courseList] => exists (filter f courseList) end.
    intros mql. exact (filter_handler_catalog _ _ _).
  - (* Dist *)
    unfold QueryMatcher.queryDist.
    match goal with |- context [filter ?f courseList] => exists (filter f courseList) end.
    intros mql. exact (filter_handler_catalog _ _ _).
  - (* DistCode *)
    unfold QueryMatcher.queryDistCode.
    match goal with |- context [filter ?f courseList] => exists (filter f courseList) end.
    intros mql. exact (filter_handler_catalog _ _ _).
  - (* Range *)
    unfold QueryMatcher.queryRange.
    destruct (negb (String.eqb (department_id from) (department_id to))).
    + exists []. intros mql.
      exists (err (mkError String_of_object
                ("RANGE on different department IDs: " ++ department_id from
                 ++ " != " ++ department_id to)%string)).
      split; [intros w; split; reflexivity | eauto].
    + exists (filter (rangeKeeps from to) courseList). intros mql.
      exists (match filter (rangeKeeps from to) courseList with
              | [] => err (mkError (JSON_stringify mql)
                        ("RANGE(" ++ department_id from ++ U16_to_string (course_number from)
                         ++ ", " ++ department_id to ++ U16_to_string (course_number to)
                         ++ ") not found in catalog")%string)
              | _ => ok (map FromCatalog (filter (rangeKeeps from to) courseList))
              end).
      split.
      * intros w. unfold bind.
        destruct (flatMapM_rangeCallback from to courseList w) as [H1 [H2 _]].
        destruct (flatMapM (QueryMatcher.rangeCallback from to) courseList w) as [l w'].
        cbn in H1, H2. subst l.
        destruct (filter (rangeKeeps from to) courseList); cbn; auto.
      * destruct (filter (rangeKeeps from to) courseList); eauto.
  - (* RangeDist *)
    exists []. intros mql.
    exists (err (mkError String_of_object "queryRangeDist: unimplemented")).
    split; [intros w; split; reflexivity | eauto].
  - (* RangeTag *)
    exists []. intros mql.
    exists (err (mkError String_of_object "queryRangeTag: unimplemented")).
    split; [intros w; split; reflexivity | eauto].
Qed.

Lemma similar_refl (r : Result CourseList MatchingError) : similar r r.
Proof. reflexivity. Qed.

(** Each selector is evaluated the same way in any two worlds, but for
    the references and ids of what it makes. *)
Lemma evalSelector_steady (courseList : Catalog) (mql : MQLQuery) (s : Selector) :
  nested steady s ->
  (forall w, scoped w (evalSelector courseList mql s w)) /\
  (forall w1 w2, similar (fst (evalSelector courseList mql s w1))
                         (fst (evalSelector courseList mql s w2))).
Proof.
  intros Hnested.
  destruct (catalog_selector s) eqn:Hkind.
  - destruct (evalSelector_catalog courseList s Hkind) as [sel Hsel].
    destruct (Hsel mql) as [r [Hrun Hr]]. split.
    + intros w. destruct (Hrun w) as [H1 H2]. unfold scoped. rewrite H1, H2.
      split; [lia|]. destruct sel as [|e l].
      * destruct Hr as [e0 ->]. exact I.
      * rewrite Hr, fresh_refs_FromCatalog. split; constructor.
    + intros w1 w2. destruct (Hrun w1) as [H1 _]. destruct (Hrun w2) as [H2 _].
      rewrite H1, H2. reflexivity.
  - destruct s; try discriminate.
    + (* Placement *)
      split.
      * intros w. unfold scoped. cbn. split; [lia|]. split.
        -- constructor; [intros [] | constructor].
        -- constructor; [lia | constructor].
      * intros w1 w2. reflexivity.
    + (* Query *)
      cbn in Hnested. split.
      * intros w. rewrite evalSelector_Query.
        destruct (Hnested courseList) as [Hsc _]. specialize (Hsc w).
        rewrite match_flatten in Hsc. unfold scoped in *.
        destruct (QueryMatcher.matchFlatten courseList q w) as [[data|e] w1];
          cbn in *.
        -- destruct Hsc as [Hle _]. split; [lia|]. split.
           ++ constructor; [intros [] | constructor].
           ++ constructor; [lia | constructor].
        -- destruct Hsc as [Hle _]. exact (conj Hle I).
      * intros w1 w2. rewrite !evalSelector_Query.
        destruct (Hnested courseList) as [_ Hsim]. specialize (Hsim w1 w2).
        rewrite !match_flatten in Hsim. unfold similar in *.
        destruct (QueryMatcher.matchFlatten courseList q w1) as [[d1|e1] w1'];
          destruct (QueryMatcher.matchFlatten courseList q w2) as [[d2|e2] w2'];
          cbn in *; try discriminate.
        -- inversion Hsim as [Hd]. rewrite Hd. reflexivity.
        -- exact Hsim.
Qed.

Lemma flattenLoop_scoped (courseList : Catalog) (mql : MQLQuery) (sels : list Selector) :
  Forall (nested steady) sels ->
  forall (acc : JsSet) (w : World) (lo : nat),
    lo <= next_ref w ->
    NoDup (map identity acc) ->
    Forall (fun r => lo <= r < next_ref w) (fresh_refs acc) ->
    let out := QueryMatcher.flattenLoop QueryMatcher.match_ courseList mql sels acc w in
    next_ref w <= next_ref (snd out) /\
    match fst out with
    | ok data =>
        NoDup (map identity data) /\
        Forall (fun r => lo <= r < next_ref (snd out)) (fresh_refs data)
    | err _ => True
    end.
Proof.
  induction 1 as [|s rest Hs _ IH]; intros acc w lo Hlo Hnd Hacc; cbv zeta.
  - cbn. auto.
  - rewrite flattenLoop_cons.
    destruct (evalSelector_steady courseList mql s Hs) as [Hsc _]. specialize (Hsc w).
    unfold scoped in Hsc.
    destruct (evalSelector courseList mql s w) as [[data|e] w1]; cbn in Hsc.
    + destruct Hsc as [Hle [_ Hdata]].
      assert (Hacc' : Forall (fun r => lo <= r < next_ref w1)
                             (fresh_refs (Set_addAll acc data))).
      { apply Forall_forall. intros r Hr. apply Set_addAll_fresh_refs in Hr.
        rewrite Forall_forall in Hacc, Hdata. destruct Hr as [Hr | Hr].
        - specialize (Hacc r Hr). lia.
        - specialize (Hdata r Hr). lia. }
      assert (Hlo' : lo <= next_ref w1) by lia.
      specialize (IH (Set_addAll acc data) w1 lo Hlo' (Set_addAll_NoDup data acc Hnd) Hacc').
      cbv zeta in IH. destruct IH as [IH1 IH2]. split; [lia | exact IH2].
    + cbn. destruct Hsc as [Hle _]. auto.
Qed.

Lemma similar_cases (r1 r2 : Result CourseList MatchingError) :
  similar r1 r2 ->
  (exists d1 d2, r1 = ok d1 /\ r2 = ok d2 /\ map scrub d1 = map scrub d2)
  \/ (exists e, r1 = err e /\ r2 = err e).
Proof.
  unfold similar. destruct r1 as [d1|e1], r2 as [d2|e2]; cbn; intros H; try discriminate.
  - left. inversion H. eauto.
  - right. inversion H. eauto.
Qed.

(** What a scoped run made is new to a set whose objects were there before. *)
Lemma scoped_disjoint (w w' : World) (data : CourseList) (acc : JsSet) :
  scoped w (ok data, w') ->
  Forall (fun r => r < next_ref w) (fresh_refs acc) ->
  NoDup (fresh_refs data)
  /\ (forall r, In r (fresh_refs data) -> ~ In r (fresh_refs acc))
  /\ Forall (fun r => r < next_ref w') (fresh_refs (Set_addAll acc data)).
Proof.
  unfold scoped. cbn. intros [Hle [Hnd Hdata]] Hacc.
  rewrite Forall_forall in Hdata, Hacc. split; [exact Hnd|]. split.
  - intros r Hr Hin. specialize (Hdata r Hr). specialize (Hacc r Hin). lia.
  - apply Forall_forall. intros r Hr. apply Set_addAll_fresh_refs in Hr.
    destruct Hr as [Hr | Hr].
    + specialize (Hacc r Hr). lia.
    + specialize (Hdata r Hr). lia.
Qed.

Lemma flattenLoop_similar (courseList : Catalog) (mql : MQLQuery) (sels : list Selector) :
  Forall (nested steady) sels ->
  forall (acc1 acc2 : JsSet) (w1 w2 : World),
    map scrub acc1 = map scrub acc2 ->
    Forall (fun r => r < next_ref w1) (fresh_refs acc1) ->
    Forall (fun r => r < next_ref w2) (fresh_refs acc2) ->
    similar
      (fst (QueryMatcher.flattenLoop QueryMatcher.match_ courseList mql sels acc1 w1))
      (fst (QueryMatcher.flattenLoop QueryMatcher.match_ courseList mql sels acc2 w2)).
Proof.
  induction 1 as [|s rest Hs _ IH]; intros acc1 acc2 w1 w2 Hacc B1 B2.
  - cbn. unfold similar. cbn. rewrite Hacc. reflexivity.
  - rewrite !flattenLoop_cons.
    destruct (evalSelector_steady courseList mql s Hs) as [Hsc Hsim].
    pose proof (Hsc w1) as S1. pose proof (Hsc w2) as S2. specialize (Hsim w1 w2).
    destruct (evalSelector courseList mql s w1) as [r1 w1'].
    destruct (evalSelector courseList mql s w2) as [r2 w2'].
    cbn [fst] in Hsim.
    destruct (@similar_cases r1 r2 Hsim) as [[d1 [d2 [-> [-> Hd]]]] | [e [-> ->]]].
    + destruct (@scoped_disjoint w1 w1' d1 acc1 S1 B1) as [N1 [D1 B1']].
      destruct (@scoped_disjoint w2 w2' d2 acc2 S2 B2) as [N2 [D2 B2']].
      apply IH; auto. apply Set_addAll_similar; auto.
    + reflexivity.
Qed.

(** Every query is steady. *)
Lemma steady_all (q : MQLQuery) : steady q.
Proof.
  induction q as [qn ty sels Hsels] using MQLQuery_nested_ind.
  intros courseList. split.
  - intros w. rewrite match_flatten.
    unfold QueryMatcher.matchFlatten, QueryMatcher.matchFlatten_. cbn [selector].
    pose proof (@flattenLoop_scoped courseList (Build_MQLQuery qn ty sels) sels Hsels
                  [] w (next_ref w) (le_n _) (NoDup_nil _) (Forall_nil _)) as H.
    cbv zeta in H. destruct H as [H1 H2]. unfold scoped. split; [exact H1|].
    destruct (fst (QueryMatcher.flattenLoop _ _ _ _ _ _)); [|exact I].
    destruct H2 as [H2 H3]. split; [apply fresh_refs_NoDup, H2 | exact H3].
  - intros w1 w2. rewrite !match_flatten.
    unfold QueryMatcher.matchFlatten, QueryMatcher.matchFlatten_. cbn [selector].
    apply flattenLoop_similar; auto; constructor.
Qed.

(** ** Two runs of the resolver *)

Lemma resolveLoop_similar (courseList : Catalog) (todo : list MQLRequirement) :
  forall (errors : list MatchingError) (used1 used2 : JsSet)
         (res1 res2 : list QueryResult) (w1 w2 : World),
    map scrub used1 = map scrub used2 ->
    Forall (fun r => r < next_ref w1) (fresh_refs used1) ->
    Forall (fun r => r < next_ref w2) (fresh_refs used2) ->
    map (mapQueryResult scrub) res1 = map (mapQueryResult scrub) res2 ->
    let '(e1, u1, r1) := fst (MQLMatcher.resolveLoop courseList todo errors used1 res1 w1) in
    let '(e2, u2, r2) := fst (MQLMatcher.resolveLoop courseList todo errors used2 res2 w2) in
    e1 = e2 /\ map scrub u1 = map scrub u2
    /\ map (mapQueryResult scrub) r1 = map (mapQueryResult scrub) r2.
Proof.
  induction todo as [|req rest IH]; intros errors used1 used2 res1 res2 w1 w2 Hu B1 B2 Hr.
  - cbn. auto.
  - cbn [MQLMatcher.resolveLoop]. unfold bind.
    destruct (steady_all (query req) courseList) as [Hsc Hsim].
    pose proof (Hsc w1) as S1. pose proof (Hsc w2) as S2. specialize (Hsim w1 w2).
    destruct (QueryMatcher.match_ courseList (query req) false w1) as [o1 w1'].
    destruct (QueryMatcher.match_ courseList (query req) false w2) as [o2 w2'].
    cbn [fst] in Hsim.
    destruct (@similar_cases o1 o2 Hsim) as [[d1 [d2 [-> [-> Hd]]]] | [e [-> ->]]].
    + destruct (@scoped_disjoint w1 w1' d1 used1 S1 B1) as [N1 [D1 B1']].
      destruct (@scoped_disjoint w2 w2' d2 used2 S2 B2) as [N2 [D2 B2']].
      apply IH; auto.
      * apply Set_addAll_similar; auto.
      * rewrite !map_app, Hr. cbn. unfold mapQueryResult at 2 4. cbn. rewrite Hd.
        reflexivity.
    + destruct S1 as [L1 _]. destruct S2 as [L2 _]. cbn in L1, L2.
      apply IH; auto.
      * eapply Forall_impl; [|exact B1]. cbn. intros; lia.
      * eapply Forall_impl; [|exact B2]. cbn. intros; lia.
Qed.

(** C4, as the code has it: two runs of [matchCourses] on the same
    catalog and document, in whatever state of the runtime, give the same
    verdict, the same errors and, on success, the same
    [MatchingEvaluationResult] EXCEPT for the ids of the placeholders that
    Placement selectors synthesize (each run draws them anew from
    [crypto.randomUUID]) and for the identity of the objects made on the
    way. *)
Theorem matchCourses_deterministic_up_to_new_ids :
  forall (courseList : Catalog) (mql : MQLQueryFile) (w1 w2 : World),
    mapResult (mapEvaluation scrub) (result_of (matchCourses courseList mql) w1)
    = mapResult (mapEvaluation scrub) (result_of (matchCourses courseList mql) w2)
    /\ is_ok (result_of (matchCourses courseList mql) w1)
       = is_ok (result_of (matchCourses courseList mql) w2)
    /\ error_of (result_of (matchCourses courseList mql) w1)
       = error_of (result_of (matchCourses courseList mql) w2)
    /\ same_twice scrub courseList mql w1.
Proof.
  assert (Hany : forall courseList mql w1 w2,
    mapResult (mapEvaluation scrub) (result_of (matchCourses courseList mql) w1)
    = mapResult (mapEvaluation scrub) (result_of (matchCourses courseList mql) w2)).
  { intros courseList mql w1 w2.
    unfold result_of, matchCourses, MQLMatcher.match_, bind.
    pose proof (@resolveLoop_similar courseList
                  (sort MQLMatcher.byPriority (requirements mql))
                  [] [] [] [] [] w1 w2 eq_refl (Forall_nil _) (Forall_nil _) eq_refl) as H.
    destruct (MQLMatcher.resolveLoop courseList _ [] [] [] w1) as [[[e1 u1] r1] w1'].
    destruct (MQLMatcher.resolveLoop courseList _ [] [] [] w2) as [[[e2 u2] r2] w2'].
    cbn [fst] in H. destruct H as [He [Hu Hr]]. subst e2.
    destruct e1 as [|e es]; cbn; [|reflexivity].
    unfold mapEvaluation. cbn. rewrite Hu, Hr. reflexivity. }
  intros courseList mql w1 w2. pose proof (Hany courseList mql w1 w2) as H.
  split; [exact H|]. split; [|split].
  - destruct (result_of (matchCourses courseList mql) w1),
             (result_of (matchCourses courseList mql) w2); cbn in *; congruence.
  - destruct (result_of (matchCourses courseList mql) w1),
             (result_of (matchCourses courseList mql) w2); cbn in *; congruence.
  - unfold same_twice.
    pose proof (Hany courseList mql w1 (world_after (matchCourses courseList mql) w1)) as H'.
    unfold result_of, world_after in H'.
    destruct (matchCourses courseList mql w1) as [first w'] eqn:E1. cbn [fst snd] in H'.
    destruct (matchCourses courseList mql w') as [second w'']. exact H'.
Qed.

(** ** All or nothing *)

(** Whether a query fails, and with what error, does not depend on the
    world. *)
Lemma failure_of_world (courseList : Catalog) (req : MQLRequirement) (w1 w2 : World) :
  failure_of courseList w1 req = failure_of courseList w2 req.
Proof.
  unfold failure_of, result_of.
  destruct (steady_all (query req) courseList) as [_ Hsim]. specialize (Hsim w1 w2).
  destruct (@similar_cases _ _ Hsim) as [[d1 [d2 [-> [-> _]]]] | [e [-> ->]]]; reflexivity.
Qed.

Lemma evaluateAll_errors (courseList : Catalog) (reqs : list MQLRequirement) (w w0 : World) :
  errors_in (fst (evaluateAll courseList reqs w))
  = flat_map (failure_of courseList w0) reqs.
Proof.
  revert w. induction reqs as [|req rest IH]; intros w; cbn [evaluateAll flat_map].
  - reflexivity.
  - unfold bind. rewrite (failure_of_world courseList req w0 w).
    unfold failure_of at 1. unfold result_of.
    destruct (QueryMatcher.match_ courseList (query req) false w) as [o w1].
    specialize (IH w1). destruct (evaluateAll courseList rest w1) as [os w2].
    cbn in *. rewrite <- IH. destruct o; reflexivity.
Qed.

Lemma flat_map_nil {A B} (f : A -> list B) (l : list A) :
  flat_map f l = [] <-> forall x, In x l -> f x = [].
Proof.
  induction l as [|a l IH]; cbn.
  - split; [intros _ x [] | reflexivity].
  - split.
    + intros H. apply app_eq_nil in H. destruct H as [Ha Hl].
      intros x [<- | Hx]; [exact Ha | apply IH; assumption].
    + intros H. rewrite (H a (or_introl eq_refl)). cbn. apply IH.
      intros x Hx. apply H. right. exact Hx.
Qed.

(** C1: [MQLMatcher.match] evaluates the query of every requirement, in
    the sorted order and whatever the outcome of the ones before.  It
    succeeds exactly when every one of these evaluations succeeds, with
    one result per requirement; otherwise it returns the errors of all the
    requirements that fail, in that order, and nothing of what the others
    matched.  Whether a requirement fails, and with what error, does not
    depend on when it is evaluated. *)
Theorem match_all_or_nothing :
  forall (courseList : Catalog) (mql : MQLQueryFile) (w : World),
    let sorted := sort MQLMatcher.byPriority (requirements mql) in
    let outcomes := result_of (evaluateAll courseList sorted) w in
    List.length outcomes = List.length (requirements mql)
    /\ MQLMatcher.match_ courseList mql w
       = (if forallb is_ok outcomes
          then ok {| results := matched sorted outcomes;
                     allSelectedCourses := unionAll (selected_in outcomes) |}
          else err (errors_in outcomes),
          world_after (evaluateAll courseList sorted) w)
    /\ (is_ok (result_of (MQLMatcher.match_ courseList mql) w) = true
        <-> forall (req : MQLRequirement) (w0 : World),
              In req (requirements mql) ->
              is_ok (result_of (QueryMatcher.match_ courseList (query req) false) w0) = true)
    /\ (forall w0 : World,
          errors_in outcomes = flat_map (failure_of courseList w0) sorted).
Proof.
  intros courseList mql w sorted outcomes.
  assert (Hspec := matchCourses_spec courseList mql w). cbv zeta in Hspec.
  unfold matchCourses in Hspec. fold sorted in Hspec. fold outcomes in Hspec.
  assert (Herr : forall w0, errors_in outcomes = flat_map (failure_of courseList w0) sorted).
  { intros w0. apply evaluateAll_errors. }
  split; [|split; [exact Hspec | split; [|exact Herr]]].
  - unfold outcomes, result_of. rewrite evaluateAll_length.
    apply Permutation_length, sort_Permutation.
  - unfold result_of at 1. rewrite Hspec. cbn [fst].
    assert (Hok : is_ok (if forallb is_ok outcomes
                         then ok {| results := matched sorted outcomes;
                                    allSelectedCourses := unionAll (selected_in outcomes) |}
                         else @err MatchingEvaluationResult _ (errors_in outcomes)) = true
                  <-> errors_in outcomes = []).
    { rewrite errors_in_nil. destruct (forallb is_ok outcomes); cbn; split; congruence. }
    rewrite Hok. split.
    + intros Hnil req w0 Hin. rewrite (Herr w0), flat_map_nil in Hnil.
      assert (Hs : In req sorted).
      { eapply Permutation_in; [apply Permutation_sym, sort_Permutation | exact Hin]. }
      specialize (Hnil req Hs). unfold failure_of in Hnil.
      destruct (result_of (QueryMatcher.match_ courseList (query req) false) w0);
        [reflexivity | discriminate].
    + intros Hall. rewrite (Herr w). apply flat_map_nil. intros req Hs.
      assert (Hin : In req (requirements mql)).
      { eapply Permutation_in; [apply sort_Permutation | exact Hs]. }
      specialize (Hall req w Hin). unfold failure_of.
      destruct (result_of (QueryMatcher.match_ courseList (query req) false) w);
        [reflexivity | discriminate].
Qed.

(** ** The union of flatten mode *)

Lemma evalSelector_catalog_ok (courseList : Catalog) (mql : MQLQuery) (s : Selector)
    (w : World) (d : CourseList) :
  catalog_selector s = true ->
  fst (evalSelector courseList mql s w) = ok d ->
  forall mql' w', fst (evalSelector courseList mql' s w') = ok d.
Proof.
  intros Hkind Hrun mql' w'.
  destruct (evalSelector_catalog courseList s Hkind) as [sel Hsel].
  destruct (Hsel mql) as [r [Hr Hshape]]. destruct (Hr w) as [E _].
  destruct (Hsel mql') as [r' [Hr' Hshape']]. destruct (Hr' w') as [E' _].
  rewrite E'. rewrite E in Hrun. subst r.
  destruct sel as [|x l].
  - destruct Hshape as [e He]. discriminate.
  - rewrite Hshape'. symmetry. exact Hshape.
Qed.

Lemma flatten_one (courseList : Catalog) (qn : Quantity) (ty : MQLQueryType)
    (s : Selector) (w : World) :
  flatten courseList qn ty [s] w
  = mapResult (Set_addAll [])
      (fst (evalSelector courseList (Build_MQLQuery qn ty [s]) s w)).
Proof.
  unfold flatten, result_of, QueryMatcher.matchFlatten, QueryMatcher.matchFlatten_.
  cbn [selector]. rewrite flattenLoop_cons.
  destruct (evalSelector _ _ s w) as [[d|e] w1]; reflexivity.
Qed.

Lemma flatten_two (courseList : Catalog) (qn : Quantity) (ty : MQLQueryType)
    (s1 s2 : Selector) (w : World) (d1 d2 : CourseList) :
  (forall mql w', fst (evalSelector courseList mql s1 w') = ok d1) ->
  (forall mql w', fst (evalSelector courseList mql s2 w') = ok d2) ->
  flatten courseList qn ty [s1; s2] w = ok (Set_addAll (Set_addAll [] d1) d2).
Proof.
  intros H1 H2.
  unfold flatten, result_of, QueryMatcher.matchFlatten, QueryMatcher.matchFlatten_.
  cbn [selector]. rewrite flattenLoop_cons.
  specialize (H1 (Build_MQLQuery qn ty [s1; s2]) w).
  destruct (evalSelector _ _ s1 w) as [r1 w1]. cbn in H1. subst r1.
  rewrite flattenLoop_cons.
  specialize (H2 (Build_MQLQuery qn ty [s1; s2]) w1).
  destruct (evalSelector _ _ s2 w1) as [r2 w2]. cbn in H2. subst r2.
  reflexivity.
Qed.

(** C5, as the code has it: for two selectors that pick entries of the
    catalog (any kind but Placement and Query) and succeed on their own,
    flatten mode gives the same objects, each once, for the lists [A, B]
    and [B, A], and for [A, A] exactly what it gives for [A]. *)
Theorem catalog_union_unordered_idempotent :
  forall (courseList : Catalog) (qn : Quantity) (ty : MQLQueryType)
         (A B : Selector) (w : World),
    catalog_selector A = true ->
    catalog_selector B = true ->
    union_unordered_idempotent courseList qn ty A B w
    /\ forall dA dB dAB dBA : CourseList,
        flatten courseList qn ty [A] w = ok dA ->
        flatten courseList qn ty [B] w = ok dB ->
        flatten courseList qn ty [A; B] w = ok dAB ->
        flatten courseList qn ty [B; A] w = ok dBA ->
        NoDup (map identity dAB) /\ NoDup (map identity dBA)
        /\ Permutation (map identity dAB) (map identity dBA)
        /\ (forall r, In r (map identity dAB)
                      <-> In r (map identity dA) \/ In r (map identity dB))
        /\ flatten courseList qn ty [A; A] w = ok dA.
Proof.
  intros courseList qn ty A B w HA HB.
  assert (Hmain : forall dA dB,
    flatten courseList qn ty [A] w = ok dA ->
    flatten courseList qn ty [B] w = ok dB ->
    exists a b,
      dA = Set_addAll [] a /\ dB = Set_addAll [] b /\
      flatten courseList qn ty [A; B] w = ok (Set_addAll (Set_addAll [] a) b) /\
      flatten courseList qn ty [B; A] w = ok (Set_addAll (Set_addAll [] b) a) /\
      flatten courseList qn ty [A; A] w = ok (Set_addAll [] a)).
  { intros dA dB EA EB. rewrite flatten_one in EA, EB.
    destruct (fst (evalSelector courseList (Build_MQLQuery qn ty [A]) A w)) as [a|] eqn:Ea;
      [|discriminate].
    destruct (fst (evalSelector courseList (Build_MQLQuery qn ty [B]) B w)) as [b|] eqn:Eb;
      [|discriminate].
    cbn in EA, EB. inversion EA; inversion EB; subst.
    pose proof (evalSelector_catalog_ok _ _ _ _ HA Ea) as Pa.
    pose proof (evalSelector_catalog_ok _ _ _ _ HB Eb) as Pb.
    exists a, b. repeat split.
    - apply flatten_two; assumption.
    - apply flatten_two; assumption.
    - rewrite (@flatten_two courseList qn ty A A w a a Pa Pa). f_equal.
      apply Set_addAll_absorb. intros x Hx.
      apply Set_addAll_identities. right. apply in_map. exact Hx. }
  assert (Hsame : forall a b r,
    In r (map identity (Set_addAll (Set_addAll [] a) b))
    <-> In r (map identity (Set_addAll [] a)) \/ In r (map identity (Set_addAll [] b))).
  { intros a b r. rewrite !Set_addAll_identities. cbn. tauto. }
  split.
  - intros dA dB EA EB.
    destruct (Hmain dA dB EA EB) as [a [b [-> [-> [EAB [EBA EAA]]]]]].
    do 3 eexists. split; [exact EAB|]. split; [exact EBA|]. split; [exact EAA|].
    split.
    + intros r. rewrite !Hsame. tauto.
    + intros r. tauto.
  - intros dA dB dAB dBA EA EB EAB EBA.
    destruct (Hmain dA dB EA EB) as [a [b [-> [-> [EAB' [EBA' EAA]]]]]].
    rewrite EAB' in EAB. rewrite EBA' in EBA. inversion EAB; inversion EBA; subst.
    assert (N1 : NoDup (map identity (Set_addAll (Set_addAll [] a) b))).
    { apply Set_addAll_NoDup, Set_addAll_NoDup. constructor. }
    assert (N2 : NoDup (map identity (Set_addAll (Set_addAll [] b) a))).
    { apply Set_addAll_NoDup, Set_addAll_NoDup. constructor. }
    split; [exact N1|]. split; [exact N2|]. split.
    + apply NoDup_Permutation; auto. intros r. rewrite !Hsame. tauto.
    + split; [apply Hsame | exact EAA].
Qed.

End Properties.

(* ================================================================= *)
(** * Further properties of the engine *)

Section MoreProperties.
Context {rt : JsRuntime}.

(** ** Selectors that fail whatever the catalog *)

(** X1: A Range selector across two departments fails with the message of
    its own, whatever the catalog, and without looking at it: nothing is
    written to the console. *)
Theorem queryRange_cross_department :
  forall (courseList : Catalog) (mql : MQLQuery) (from to : Class) (w : World),
    department_id from <> department_id to ->
    evalSelector courseList mql (SRange from to) w
    = (err (mkError String_of_object
              ("RANGE on different department IDs: " ++ department_id from
               ++ " != " ++ department_id to)%string), w).
Proof.
  intros courseList mql from to w Hne. unfold evalSelector.
  cbn [keyOf QueryMatcher.selectorVTable]. unfold QueryMatcher.queryRange.
  destruct (String.eqb (department_id from) (department_id to)) eqn:E.
  - apply String.eqb_eq in E. contradiction.
  - reflexivity.
Qed.

Lemma Evaluated_In (courseList : Catalog) (mql : MQLQuery) (sels : list Selector)
    (w w' : World) (datas : list CourseList) :
  Evaluated courseList mql sels w datas w' ->
  forall s, In s sels ->
  exists wa wb data, evalSelector courseList mql s wa = (ok data, wb) /\ In data datas.
Proof.
  induction 1 as [w | s0 rest w w1 w2 data datas Hs Hev IH]; intros s Hin.
  - destruct Hin.
  - destruct Hin as [<- | Hin].
    + exists w, w1, data. split; [exact Hs | left; reflexivity].
    + destruct (IH s Hin) as [wa [wb [d [H1 H2]]]].
      exists wa, wb, d. split; [exact H1 | right; exact H2].
Qed.

Lemma reserved_fails (courseList : Catalog) (mql : MQLQuery) (s : Selector) (w : World) :
  reserved s = true -> is_ok (fst (evalSelector courseList mql s w)) = false.
Proof. destruct s; cbn; try discriminate; reflexivity. Qed.

Lemma matchFlatten_ok_Evaluated (courseList : Catalog) (mql : MQLQuery) (w w' : World)
    (data : CourseList) :
  QueryMatcher.matchFlatten courseList mql w = (ok data, w') ->
  exists datas, Evaluated courseList mql (selector mql) w datas w' /\ data = unionAll datas.
Proof.
  unfold QueryMatcher.matchFlatten, QueryMatcher.matchFlatten_, unionAll. intros Hrun.
  destruct (flattenLoop_cases courseList mql (selector mql) [] w)
    as [[datas [w2 [Hev Hrun']]] | [pre [s [post [datas [w1 [e0 [w2 [E [Hev [Hf Hrun']]]]]]]]]]];
    rewrite Hrun' in Hrun; [|discriminate].
  inversion Hrun; subst. exists datas. auto.
Qed.

(** Whether [matchCourses] succeeds, in terms of the requirements. *)
Lemma matchCourses_ok_iff (courseList : Catalog) (mql : MQLQueryFile) (w : World) :
  is_ok (result_of (matchCourses courseList mql) w) = true
  <-> forall req, In req (requirements mql) ->
        is_ok (result_of (QueryMatcher.match_ courseList (query req) false) w) = true.
Proof.
  unfold result_of at 1. rewrite matchCourses_spec. cbv zeta. cbn [fst].
  set (sorted := sort MQLMatcher.byPriority (requirements mql)).
  set (outcomes := result_of (evaluateAll courseList sorted) w).
  assert (Hok : is_ok (if forallb is_ok outcomes
                       then ok {| results := matched sorted outcomes;
                                  allSelectedCourses := unionAll (selected_in outcomes) |}
                       else @err MatchingEvaluationResult _ (errors_in outcomes)) = true
                <-> errors_in outcomes = []).
  { rewrite errors_in_nil. destruct (forallb is_ok outcomes); cbn; split; congruence. }
  rewrite Hok. unfold outcomes, result_of.
  rewrite (evaluateAll_errors courseList sorted w w), flat_map_nil.
  split.
  - intros H req Hin.
    assert (Hs : In req sorted).
    { eapply Permutation_in; [apply Permutation_sym, sort_Permutation | exact Hin]. }
    specialize (H req Hs). unfold failure_of, result_of in *.
    destruct (fst (QueryMatcher.match_ courseList (query req) false w));
      [reflexivity | discriminate].
  - intros H req Hs.
    assert (Hin : In req (requirements mql)).
    { eapply Permutation_in; [apply sort_Permutation | exact Hs]. }
    specialize (H req Hin). unfold failure_of, result_of in *.
    destruct (fst (QueryMatcher.match_ courseList (query req) false w));
      [reflexivity | discriminate].
Qed.

(** X2: A query with a RangeDist or a RangeTag among its selectors never
    succeeds in flatten mode, and a document with such a requirement is
    never matched, whatever the catalog and the other selectors. *)
Theorem reserved_selector_fails_document :
  forall (courseList : Catalog) (mql : MQLQueryFile) (req : MQLRequirement)
         (s : Selector) (w : World),
    In req (requirements mql) ->
    In s (selector (query req)) ->
    reserved s = true ->
    is_ok (result_of (QueryMatcher.matchFlatten courseList (query req)) w) = false
    /\ is_ok (result_of (matchCourses courseList mql) w) = false.
Proof.
  intros courseList mql req s w Hreq Hs Hres.
  assert (Hq : forall w0,
    is_ok (result_of (QueryMatcher.matchFlatten courseList (query req)) w0) = false).
  { intros w0. unfold result_of.
    destruct (QueryMatcher.matchFlatten courseList (query req) w0) as [[data|e] w'] eqn:E;
      [|reflexivity].
    exfalso. destruct (matchFlatten_ok_Evaluated _ _ _ E) as [datas [Hev _]].
    destruct (Evaluated_In Hev s Hs) as [wa [wb [d [Hrun _]]]].
    pose proof (reserved_fails courseList (query req) s wa Hres) as Hfail.
    rewrite Hrun in Hfail. discriminate. }
  split; [apply Hq|].
  destruct (is_ok (result_of (matchCourses courseList mql) w)) eqn:E; [|reflexivity].
  exfalso. pose proof (proj1 (matchCourses_ok_iff courseList mql w) E req Hreq) as H.
  rewrite match_flatten, Hq in H. discriminate.
Qed.

(** ** What Class, Tag and Dist select *)

Lemma class_keep_spec (fmt : string) (e : CatalogEntry) :
  match obj e with
  | ACourse c => includes (codes c) fmt
  | AManual _ => false
  end = true
  <-> exists c, obj e = ACourse c /\ In fmt (codes c).
Proof.
  destruct (obj e) as [c|m].
  - rewrite includes_In. split.
    + intros Hin. exists c. auto.
    + intros [c' [E Hin]]. inversion E; subst. exact Hin.
  - split; [discriminate | intros [c [E _]]; discriminate].
Qed.

Lemma tag_keep_spec (tag : string) (e : CatalogEntry) :
  match obj e with
  | ACourse c => QueryMatcher.tags_include c tag
  | AManual _ => false
  end = true
  <-> exists c, obj e = ACourse c /\ tags_contain tag c.
Proof.
  unfold QueryMatcher.tags_include, tags_contain. destruct (obj e) as [c|m].
  - destruct (tags c) as [ts|] eqn:Et.
    + rewrite includes_In. split.
      * intros Hin. exists c. split; [reflexivity|]. exists ts. auto.
      * intros [c' [E [ts' [Et' Hin]]]]. inversion E; subst c'.
        rewrite Et in Et'. inversion Et'; subst. exact Hin.
    + split; [discriminate|].
      intros [c' [E [ts' [Et' _]]]]. inversion E; subst c'.
      rewrite Et in Et'. discriminate.
  - split; [discriminate | intros [c [E _]]; discriminate].
Qed.

Lemma dist_keep_spec (d : string) (e : CatalogEntry) :
  match obj e with
  | ACourse c => QueryMatcher.dist_includes c (toLowerCase d)
  | AManual _ => false
  end = true
  <-> exists c, obj e = ACourse c /\ dist_contains d c.
Proof.
  destruct (obj e) as [c|m].
  - rewrite dist_includes_spec. split.
    + intros Hd. exists c. auto.
    + intros [c' [E Hd]]. inversion E; subst. exact Hd.
  - split; [discriminate | intros [c [E _]]; discriminate].
Qed.

(** X3: A Class selector matches exactly the courses whose [codes] hold the
    string made of the department, one space and the number in decimal,
    in the order of the catalog, and fails exactly when there is none. *)
Theorem queryClass_selects_exactly :
  forall (courseList : Catalog) (mql : MQLQuery) (cls : Class) (w : World),
    selects_exactly courseList
      (fun c => In (department_id cls ++ " " ++ U16_to_string (course_number cls))%string
                   (codes c))
      (result_of (evalSelector courseList mql (SClass cls)) w).
Proof.
  intros courseList mql cls w.
  set (fmt := (department_id cls ++ " " ++ U16_to_string (course_number cls))%string).
  pose proof (@filter_selects courseList _ (fun c => In fmt (codes c))
                (mkError (JSON_stringify mql) (fmt ++ " not found in catalog")%string)
                (class_keep_spec fmt)) as H.
  unfold result_of, evalSelector. cbn [keyOf QueryMatcher.selectorVTable].
  unfold QueryMatcher.queryClass. fold fmt.
  destruct (filter _ courseList); exact H.
Qed.

(** X4: A Tag selector matches exactly the courses that have the tag, as it
    is written, among their [tags]; a Dist selector matches exactly the
    courses that have the lower-cased target among their lower-cased
    [dist].  Entries without the field are never matched.  Either fails
    exactly when no course is matched. *)
Theorem queryTag_queryDist_select_exactly :
  forall (courseList : Catalog) (mql : MQLQuery) (tag d : string) (w : World),
    selects_exactly courseList (tags_contain tag)
      (result_of (evalSelector courseList mql (STag tag)) w)
    /\ selects_exactly courseList (dist_contains d)
      (result_of (evalSelector courseList mql (SDist d)) w).
Proof.
  intros courseList mql tag d w. split.
  - pose proof (@filter_selects courseList _ (tags_contain tag)
                  (mkError (JSON_stringify mql)
                     ("TAG(" ++ tag ++ ") not found in catalog")%string)
                  (tag_keep_spec tag)) as H.
    unfold result_of, evalSelector. cbn [keyOf QueryMatcher.selectorVTable].
    unfold QueryMatcher.queryTag.
    destruct (filter _ courseList); exact H.
  - pose proof (@filter_selects courseList _ (dist_contains d)
                  (mkError (JSON_stringify mql)
                     ("DIST(" ++ d ++ ") not found in catalog")%string)
                  (dist_keep_spec d)) as H.
    unfold result_of, evalSelector. cbn [keyOf QueryMatcher.selectorVTable].
    unfold QueryMatcher.queryDist.
    destruct (filter _ courseList); exact H.
Qed.

(** X5: Dist and DistCode read their target without regard to case: two
    targets with the same lower-case form match the same courses, or both
    match none. *)
Theorem dist_target_case_insensitive :
  forall (courseList : Catalog) (mql mql' : MQLQuery) (d d' dep : string) (w w' : World),
    toLowerCase d = toLowerCase d' ->
    same_selection (result_of (evalSelector courseList mql (SDist d)) w)
                   (result_of (evalSelector courseList mql' (SDist d')) w')
    /\ same_selection (result_of (evalSelector courseList mql (SDistCode d dep)) w)
                      (result_of (evalSelector courseList mql' (SDistCode d' dep)) w').
Proof.
  intros courseList mql mql' d d' dep w w' Hlow.
  unfold result_of, evalSelector. cbn [keyOf QueryMatcher.selectorVTable].
  unfold QueryMatcher.queryDist, QueryMatcher.queryDistCode. rewrite Hlow. split.
  - destruct (filter _ courseList); reflexivity.
  - destruct (filter _ courseList); reflexivity.
Qed.

(** ** Ranges that are empty *)

Lemma js_le_between (a b : U16) (x : JsNumber) :
  js_le (U16_to_number a) x = true ->
  js_le x (U16_to_number b) = true ->
  (a <= b)%N.
Proof.
  unfold U16_to_number. destruct x as [|q| |]; cbn; try discriminate.
  intros H1 H2. apply Qle_bool_iff in H1. apply Qle_bool_iff in H2.
  pose proof (Qle_trans _ _ _ H1 H2) as H. rewrite <- Zle_Qle in H. lia.
Qed.

Lemma scanCodes_inverted (from to : Class) (splits : list (list string)) :
  (course_number to < course_number from)%N ->
  QueryMatcher.scanCodes from to splits <> QueryMatcher.Found.
Proof.
  intros Hlt. induction splits as [|sp rest IH]; cbn [QueryMatcher.scanCodes].
  - discriminate.
  - destruct sp as [|dep [|numStr [|x l]]]; try discriminate.
    destruct (negb (String.eqb dep (department_id from))); [exact IH|].
    destruct (js_le (U16_to_number (course_number from)) (Number numStr)) eqn:E1;
      [|exact IH].
    destruct (js_le (Number numStr) (U16_to_number (course_number to))) eqn:E2;
      [|exact IH].
    pose proof (js_le_between _ _ _ E1 E2). lia.
Qed.

(** X6: A Range selector whose upper number is below its lower number matches
    no course and fails, whatever the catalog. *)
Theorem queryRange_inverted_bounds_fail :
  forall (courseList : Catalog) (mql : MQLQuery) (from to : Class) (w : World),
    department_id from = department_id to ->
    (course_number to < course_number from)%N ->
    result_of (evalSelector courseList mql (SRange from to)) w
    = err (mkError (JSON_stringify mql)
             ("RANGE(" ++ department_id from ++ U16_to_string (course_number from)
              ++ ", " ++ department_id to ++ U16_to_string (course_number to)
              ++ ") not found in catalog")%string).
Proof.
  intros courseList mql from to w Hdep Hlt. rewrite queryRange_result by exact Hdep.
  assert (E : filter (rangeKeeps from to) courseList = []).
  { induction courseList as [|e l IH]; [reflexivity|]. cbn [filter].
    assert (Hk : rangeKeeps from to e = false).
    { unfold rangeKeeps. destruct (obj e) as [c|m]; [|reflexivity].
      pose proof (@scanCodes_inverted from to (map (split " ") (codes c)) Hlt) as Hn.
      destruct (QueryMatcher.scanCodes from to _); congruence. }
    rewrite Hk. exact IH. }
  rewrite E. reflexivity.
Qed.

(** ** Placeholders *)

Lemma evalSelector_Placement (courseList : Catalog) (mql : MQLQuery) (text : string)
    (w : World) (i : nat) :
  evalSelector courseList mql (SPlacement text) (after_placements w i)
  = (ok [placeholder_at w i text], after_placements w (S i)).
Proof.
  unfold evalSelector, placeholder_at, after_placements. cbn.
  rewrite !Nat.add_succ_r. reflexivity.
Qed.

Lemma flattenLoop_placements (courseList : Catalog) (mql : MQLQuery) (w : World)
    (texts : list string) :
  forall (acc : JsSet) (i : nat),
    Forall (fun r => r < next_ref w + i) (fresh_refs acc) ->
    QueryMatcher.flattenLoop QueryMatcher.match_ courseList mql
      (map SPlacement texts) acc (after_placements w i)
    = (ok (acc ++ placeholders_from w i texts),
       after_placements w (i + List.length texts)).
Proof.
  induction texts as [|text rest IH]; intros acc i Hacc; cbn [map placeholders_from].
  - cbn. rewrite app_nil_r, Nat.add_0_r. reflexivity.
  - rewrite flattenLoop_cons, evalSelector_Placement.
    assert (Hnew : Set_addAll acc [placeholder_at w i text]
                   = acc ++ [placeholder_at w i text]).
    { unfold Set_addAll. cbn [fold_left]. unfold Set_add.
      rewrite (@Set_has_fresh acc (placeholder_at w i text) (next_ref w + i) eq_refl);
        [reflexivity|].
      intros Hin. rewrite Forall_forall in Hacc. specialize (Hacc _ Hin). lia. }
    rewrite Hnew, IH.
    + rewrite <- app_assoc. cbn [List.length app]. rewrite Nat.add_succ_r. reflexivity.
    + rewrite fresh_refs_app. apply Forall_app. split.
      * eapply Forall_impl; [|exact Hacc]. cbn. intros; lia.
      * cbn. constructor; [lia | constructor].
Qed.

Lemma after_placements_0 (w : World) : after_placements w 0 = w.
Proof. destruct w. unfold after_placements. cbn. rewrite !Nat.add_0_r. reflexivity. Qed.

(** X7: A query of [n] Placement selectors succeeds with [n] placeholders, in
    the order of the selectors, whatever the catalog: each with its own
    reference and the next UUID of the source, none merged with another
    even when the descriptions are the same. *)
Theorem placements_never_merged :
  forall (courseList : Catalog) (qn : Quantity) (ty : MQLQueryType)
         (texts : list string) (w : World),
    QueryMatcher.matchFlatten courseList (Build_MQLQuery qn ty (map SPlacement texts)) w
    = (ok (placeholders_from w 0 texts), after_placements w (List.length texts))
    /\ List.length (placeholders_from w 0 texts) = List.length texts
    /\ map (fun x => match x with
                     | NewManual _ m => mf_description m
                     | _ => EmptyString
                     end) (placeholders_from w 0 texts) = texts.
Proof.
  intros courseList qn ty texts w. split; [|split].
  - unfold QueryMatcher.matchFlatten, QueryMatcher.matchFlatten_. cbn [selector].
    pose proof (@flattenLoop_placements courseList
                  (Build_MQLQuery qn ty (map SPlacement texts)) w texts [] 0
                  (Forall_nil _)) as H.
    rewrite after_placements_0 in H. exact H.
  - generalize 0. induction texts as [|t rest IH]; intros i; cbn; [reflexivity|].
    rewrite IH. reflexivity.
  - generalize 0. induction texts as [|t rest IH]; intros i; cbn; [reflexivity|].
    rewrite IH. reflexivity.
Qed.

(** ** Single-result mode *)

(** X8: In single-result mode a query whose selector list has not exactly one
    selector fails with the error of the mode, and no selector is
    evaluated: the world is left as it was. *)
Theorem single_result_mode_needs_one_selector :
  forall (courseList : Catalog) (mql : MQLQuery) (w : World),
    List.length (selector mql) <> 1%nat ->
    QueryMatcher.match_ courseList mql true w
    = (err (mkError "MQL structure" "top level MQL should have one query"), w).
Proof.
  intros courseList mql w Hlen. rewrite match_top.
  unfold QueryMatcher.matchTop, QueryMatcher.matchTop_.
  destruct (selector mql) as [|s [|s' rest]]; cbn in Hlen; try reflexivity.
  contradiction.
Qed.

Lemma Set_addAll_NoDup_app (data : list Element) :
  forall acc : JsSet,
    NoDup (map identity (acc ++ data)) -> Set_addAll acc data = acc ++ data.
Proof.
  unfold Set_addAll. induction data as [|x data IH]; intros acc Hnd; cbn [fold_left].
  - rewrite app_nil_r. reflexivity.
  - assert (Hx : Set_has acc x = false).
    { apply Set_has_false. rewrite map_app in Hnd. cbn [map] in Hnd.
      apply NoDup_remove_2 in Hnd. intros Hin. apply Hnd. apply in_or_app. auto. }
    unfold Set_add at 2. rewrite Hx.
    replace (acc ++ x :: data) with ((acc ++ [x]) ++ data) by (rewrite <- app_assoc; reflexivity).
    apply IH. rewrite <- app_assoc. exact Hnd.
Qed.

(** A filter of a catalog that lists no object twice lists none twice. *)
Lemma filtered_catalog_no_alias (keep : CatalogEntry -> bool) (courseList : Catalog) :
  NoDup (map addr courseList) -> NoDup (map addr (filter keep courseList)).
Proof.
  induction courseList as [|e rest IH]; cbn [filter map]; intros Hcat; [constructor|].
  inversion Hcat as [|? ? Hfresh Hrest]; subst. destruct (keep e); cbn [map].
  - constructor; [|apply IH, Hrest].
    intros Hin. apply Hfresh. apply in_map_iff in Hin. destruct Hin as [e' [E He']].
    apply filter_In in He'. apply in_map_iff. exists e'. tauto.
  - apply IH, Hrest.
Qed.

(** What a catalog selector returns is the catalog, filtered. *)
Lemma evalSelector_catalog_filter (courseList : Catalog) (s : Selector) :
  catalog_selector s = true ->
  exists keep : CatalogEntry -> bool,
    forall mql w,
      match fst (evalSelector courseList mql s w) with
      | ok d => d = map FromCatalog (filter keep courseList)
      | err _ => True
      end.
Proof.
  unfold evalSelector.
  destruct s; cbn [catalog_selector keyOf QueryMatcher.selectorVTable];
    try discriminate; intros _.
  - unfold QueryMatcher.queryClass.
    match goal with |- context [filter ?f courseList] => exists f end.
    intros mql w. destruct (filter _ courseList) eqn:E; cbn; [exact I | reflexivity].
  - unfold QueryMatcher.queryTag.
    match goal with |- context [filter ?f courseList] => exists f end.
    intros mql w. destruct (filter _ courseList) eqn:E; cbn; [exact I | reflexivity].
  - unfold QueryMatcher.queryTagCode.
    match goal with |- context [filter ?f courseList] => exists f end.
    intros mql w. destruct (filter _ courseList) eqn:E; cbn; [exact I | reflexivity].
  - unfold QueryMatcher.queryDist.
    match goal with |- context [filter ?f courseList] => exists f end.
    intros mql w. destruct (filter _ courseList) eqn:E; cbn; [exact I | reflexivity].
  - unfold QueryMatcher.queryDistCode.
    match goal with |- context [filter ?f courseList] => exists f end.
    intros mql w. destruct (filter _ courseList) eqn:E; cbn; [exact I | reflexivity].
  - exists (rangeKeeps from to). intros mql w.
    unfold QueryMatcher.queryRange.
    destruct (negb (String.eqb (department_id from) (department_id to))); [exact I|].
    unfold bind.
    destruct (flatMapM_rangeCallback from to courseList w) as [H1 _].
    destruct (flatMapM (QueryMatcher.rangeCallback from to) courseList w) as [l w'].
    cbn in H1. subst l.
    destruct (filter (rangeKeeps from to) courseList) eqn:E; cbn; [exact I | reflexivity].
  - exists (fun _ => false). intros mql w. exact I.
  - exists (fun _ => false). intros mql w. exact I.
Qed.

(** What one selector returns has no object twice when the catalog has
    none twice. *)
Lemma evalSelector_NoDup (courseList : Catalog) (mql : MQLQuery) (s : Selector)
    (w w' : World) (data : CourseList) :
  NoDup (map addr courseList) ->
  evalSelector courseList mql s w = (ok data, w') ->
  NoDup (map identity data).
Proof.
  intros Hcat Hrun. destruct (catalog_selector s) eqn:Hkind.
  - destruct (evalSelector_catalog_filter courseList s Hkind) as [keep Hkeep].
    specialize (Hkeep mql w). rewrite Hrun in Hkeep. cbn in Hkeep. subst data.
    rewrite map_map. cbn [identity].
    rewrite <- (map_map addr CatalogRef).
    apply Finite.Injective_map_NoDup.
    + intros a b E. inversion E. reflexivity.
    + apply filtered_catalog_no_alias. exact Hcat.
  - destruct s; try discriminate.
    + cbn in Hrun. inversion Hrun; subst. cbn. constructor; [intros [] | constructor].
    + rewrite evalSelector_Query in Hrun.
      destruct (QueryMatcher.matchFlatten courseList q w) as [[d|e] w1];
        inversion Hrun; subst. cbn. constructor; [intros [] | constructor].
Qed.

Lemma flatten_mode_one_selector (courseList : Catalog) (qn : Quantity)
    (ty : MQLQueryType) (s : Selector) (w : World) :
  QueryMatcher.match_ courseList (Build_MQLQuery qn ty [s]) false w
  = (let (r, w') := QueryMatcher.match_ courseList (Build_MQLQuery qn ty [s]) true w in
     (mapResult (Set_addAll []) r, w')).
Proof.
  rewrite match_flatten, match_top.
  unfold QueryMatcher.matchFlatten, QueryMatcher.matchFlatten_,
    QueryMatcher.matchTop, QueryMatcher.matchTop_. cbn [selector].
  rewrite flattenLoop_cons. fold (evalSelector courseList (Build_MQLQuery qn ty [s]) s).
  destruct (evalSelector courseList (Build_MQLQuery qn ty [s]) s w) as [[d|e] w1];
    reflexivity.
Qed.

(** X9: On a query of one selector the two modes differ by the deduplication
    of flatten mode only, and on a catalog that lists no object twice
    they return the same. *)
Theorem modes_agree_on_one_selector :
  forall (courseList : Catalog) (qn : Quantity) (ty : MQLQueryType)
         (s : Selector) (w : World),
    NoDup (map addr courseList) ->
    QueryMatcher.match_ courseList (Build_MQLQuery qn ty [s]) false w
    = QueryMatcher.match_ courseList (Build_MQLQuery qn ty [s]) true w.
Proof.
  intros courseList qn ty s w Hcat. rewrite flatten_mode_one_selector.
  rewrite match_top. unfold QueryMatcher.matchTop, QueryMatcher.matchTop_. cbn [selector].
  fold (evalSelector courseList (Build_MQLQuery qn ty [s]) s).
  destruct (evalSelector courseList (Build_MQLQuery qn ty [s]) s w) as [[d|e] w1] eqn:E;
    [|reflexivity].
  cbn [mapResult]. rewrite (Set_addAll_NoDup_app d []); [reflexivity|].
  cbn [app]. eapply evalSelector_NoDup; eassumption.
Qed.

(** ** What a union holds *)

Lemma Set_addAll_In (xs : list Element) (s : JsSet) (x : Element) :
  In x (Set_addAll s xs) -> In x s \/ In x xs.
Proof.
  unfold Set_addAll. revert s. induction xs as [|y xs IH]; intros s Hin; cbn [fold_left] in Hin.
  - auto.
  - apply IH in Hin. destruct Hin as [Hin | Hin]; [|right; right; exact Hin].
    unfold Set_add in Hin. destruct (Set_has s y); [auto|].
    apply in_app_or in Hin. destruct Hin as [Hin | [<- | []]]; auto.
    right. left. reflexivity.
Qed.

Lemma fold_addAll_In (datas : list CourseList) (acc : JsSet) (x : Element) :
  In x (fold_left Set_addAll datas acc) -> In x acc \/ In x (List.concat datas).
Proof.
  revert acc. induction datas as [|d datas IH]; intros acc Hin; cbn [fold_left List.concat] in *.
  - auto.
  - apply IH in Hin. destruct Hin as [Hin | Hin].
    + apply Set_addAll_In in Hin. rewrite in_app_iff. tauto.
    + rewrite in_app_iff. tauto.
Qed.

Lemma fold_addAll_identities (datas : list CourseList) (acc : JsSet) (r : Ref) :
  In r (map identity (fold_left Set_addAll datas acc))
  <-> In r (map identity acc) \/ In r (map identity (List.concat datas)).
Proof.
  revert acc. induction datas as [|d datas IH]; intros acc; cbn [fold_left List.concat].
  - cbn. tauto.
  - rewrite IH, Set_addAll_identities, map_app, in_app_iff. tauto.
Qed.

Lemma fold_addAll_NoDup (datas : list CourseList) (acc : JsSet) :
  NoDup (map identity acc) -> NoDup (map identity (fold_left Set_addAll datas acc)).
Proof.
  revert acc. induction datas as [|d datas IH]; intros acc H; cbn [fold_left].
  - exact H.
  - apply IH, Set_addAll_NoDup, H.
Qed.

(** X10: What flatten mode returns holds no object twice, and holds exactly the
    objects that its selectors returned. *)
Theorem matchFlatten_deduplicated :
  forall (courseList : Catalog) (mql : MQLQuery) (w w' : World) (data : CourseList),
    QueryMatcher.matchFlatten courseList mql w = (ok data, w') ->
    NoDup (map identity data)
    /\ exists datas : list CourseList,
         Evaluated courseList mql (selector mql) w datas w'
         /\ (forall r, In r (map identity data) <-> In r (map identity (List.concat datas)))
         /\ (forall x, In x data -> In x (List.concat datas)).
Proof.
  intros courseList mql w w' data Hrun.
  destruct (matchFlatten_ok_Evaluated _ _ _ Hrun) as [datas [Hev ->]]. unfold unionAll.
  split; [apply fold_addAll_NoDup; constructor|].
  exists datas. split; [exact Hev|]. split.
  - intros r. rewrite fold_addAll_identities. cbn. tauto.
  - intros x Hin. apply fold_addAll_In in Hin. destruct Hin as [[] | Hin]. exact Hin.
Qed.

(** ** The outcomes of the requirements *)

Lemma evaluateAll_Forall2 (courseList : Catalog) (reqs : list MQLRequirement) (w : World) :
  Forall2 (fun req o =>
             exists wa wb, QueryMatcher.match_ courseList (query req) false wa = (o, wb))
          reqs (fst (evaluateAll courseList reqs w)).
Proof.
  revert w. induction reqs as [|req rest IH]; intros w; cbn [evaluateAll].
  - constructor.
  - unfold bind.
    destruct (QueryMatcher.match_ courseList (query req) false w) as [o w1] eqn:E.
    specialize (IH w1). destruct (evaluateAll courseList rest w1) as [os w2].
    cbn in *. constructor; [eauto | exact IH].
Qed.

Lemma matched_Forall2 (R : MQLRequirement -> Result CourseList MatchingError -> Prop)
    (reqs : list MQLRequirement) (outcomes : list (Result CourseList MatchingError)) :
  Forall2 R reqs outcomes ->
  forall qr, In qr (matched reqs outcomes) -> R (requirement qr) (ok (selectedCourses qr)).
Proof.
  induction 1 as [|req o reqs os HR _ IH]; intros qr Hin; cbn in Hin.
  - destruct Hin.
  - destruct o as [d|e].
    + destruct Hin as [<- | Hin]; [exact HR | apply IH, Hin].
    + apply IH, Hin.
Qed.

Lemma matched_selected (reqs : list MQLRequirement)
    (outcomes : list (Result CourseList MatchingError)) :
  List.length outcomes = List.length reqs ->
  map selectedCourses (matched reqs outcomes) = selected_in outcomes.
Proof.
  revert outcomes. induction reqs as [|req rest IH]; intros [|[d|e] os] Hlen;
    cbn in *; try discriminate; try reflexivity.
  - f_equal. apply IH. lia.
  - apply IH. lia.
Qed.

Lemma Forall2_with_Forall {A B} (R : A -> B -> Prop) (P : A -> Prop)
    (l : list A) (l' : list B) :
  Forall2 R l l' -> Forall P l -> Forall2 (fun a b => P a /\ R a b) l l'.
Proof.
  induction 1 as [|a b l l' HR _ IH]; intros Hall; constructor.
  - inversion Hall; subst. auto.
  - inversion Hall; subst. auto.
Qed.

(** What a successful run of [matchCourses] is made of. *)
Lemma matchCourses_ok_parts (courseList : Catalog) (mql : MQLQueryFile) (w w' : World)
    (r : MatchingEvaluationResult) :
  matchCourses courseList mql w = (ok r, w') ->
  allSelectedCourses r = unionAll (map selectedCourses (results r))
  /\ forall qr, In qr (results r) ->
       In (requirement qr) (requirements mql)
       /\ exists wa wb,
            QueryMatcher.match_ courseList (query (requirement qr)) false wa
            = (ok (selectedCourses qr), wb).
Proof.
  intros Hrun. rewrite matchCourses_spec in Hrun. cbv zeta in Hrun.
  set (sorted := sort MQLMatcher.byPriority (requirements mql)) in *.
  set (outcomes := result_of (evaluateAll courseList sorted) w) in *.
  destruct (forallb is_ok outcomes) eqn:Hok; [|discriminate].
  inversion Hrun as [[Hr Hw]]. cbn [results allSelectedCourses]. split.
  - rewrite matched_selected; [reflexivity|]. apply evaluateAll_length.
  - intros qr Hin.
    pose proof (evaluateAll_Forall2 courseList sorted w) as HF.
    assert (HF' : Forall2 (fun req o =>
                    In req sorted /\
                    exists wa wb,
                      QueryMatcher.match_ courseList (query req) false wa = (o, wb))
                  sorted outcomes).
    { apply Forall2_with_Forall; [exact HF|]. apply Forall_forall. auto. }
    destruct (matched_Forall2 HF' qr Hin) as [Hs Hex]. split; [|exact Hex].
    eapply Permutation_in; [apply sort_Permutation | exact Hs].
Qed.

(** X11: On success [allSelectedCourses] is the union of the [selectedCourses]
    of the results, in their order: it holds every object that some
    requirement selected, and holds it once, however many requirements
    selected it. *)
Theorem allSelectedCourses_is_the_union :
  forall (courseList : Catalog) (mql : MQLQueryFile) (w w' : World)
         (r : MatchingEvaluationResult),
    matchCourses courseList mql w = (ok r, w') ->
    allSelectedCourses r = unionAll (map selectedCourses (results r))
    /\ NoDup (map identity (allSelectedCourses r))
    /\ forall ref : Ref,
         In ref (map identity (allSelectedCourses r))
         <-> exists qr, In qr (results r) /\ In ref (map identity (selectedCourses qr)).
Proof.
  intros courseList mql w w' r Hrun.
  destruct (matchCourses_ok_parts _ _ _ Hrun) as [Hall _].
  split; [exact Hall|]. rewrite Hall. unfold unionAll. split.
  - apply fold_addAll_NoDup. constructor.
  - intros ref. rewrite fold_addAll_identities. cbn [map].
    rewrite in_map_iff. split.
    + intros [[] | [x [Hx Hin]]]. apply List.in_concat in Hin.
      destruct Hin as [d [Hd Hxd]]. apply in_map_iff in Hd.
      destruct Hd as [qr [<- Hqr]]. exists qr. split; [exact Hqr|].
      apply in_map_iff. eauto.
    + intros [qr [Hqr Hin]]. right. apply in_map_iff in Hin.
      destruct Hin as [x [Hx Hin]]. exists x. split; [exact Hx|].
      apply List.in_concat. exists (selectedCourses qr). split; [|exact Hin].
      apply in_map. exact Hqr.
Qed.

(** X12: A requirement is matched on its own: what it selects in a run of
    [matchCourses] is what its query selects when evaluated alone, in any
    world, but for the references and ids of the objects made on the way.
    Courses that a requirement of higher priority selected stay available
    to the others. *)
Theorem requirements_matched_independently :
  forall (courseList : Catalog) (mql : MQLQueryFile) (w w' : World)
         (r : MatchingEvaluationResult),
    matchCourses courseList mql w = (ok r, w') ->
    forall (qr : QueryResult) (w0 : World),
      In qr (results r) ->
      similar (ok (selectedCourses qr))
              (result_of (QueryMatcher.matchFlatten courseList (query (requirement qr))) w0).
Proof.
  intros courseList mql w w' r Hrun qr w0 Hin.
  destruct (matchCourses_ok_parts _ _ _ Hrun) as [_ Hparts].
  destruct (Hparts qr Hin) as [_ [wa [wb Hq]]].
  destruct (steady_all (query (requirement qr)) courseList) as [_ Hsim].
  specialize (Hsim wa w0). rewrite Hq in Hsim. cbn [fst] in Hsim.
  rewrite match_flatten in Hsim. exact Hsim.
Qed.

(** ** What the elements of a result are *)

Lemma evalSelector_catalog_elements (courseList : Catalog) (mql : MQLQuery) (s : Selector)
    (w w' : World) (data : CourseList) :
  catalog_selector s = true ->
  evalSelector courseList mql s w = (ok data, w') ->
  forall x, In x data -> exists e, x = FromCatalog e /\ In e courseList.
Proof.
  intros Hkind Hrun x Hin.
  destruct (evalSelector_catalog_filter courseList s Hkind) as [keep Hkeep].
  specialize (Hkeep mql w). rewrite Hrun in Hkeep. cbn in Hkeep. subst data.
  apply in_map_iff in Hin. destruct Hin as [e [<- He]].
  apply filter_In in He. exists e. tauto.
Qed.

(** A property of elements that holds of the entries of the catalog and
    of a nested list when it holds of its items holds of every element of
    a result, provided it holds of placeholders or no placeholder is
    made. *)
Section ElementInvariant.
Variable courseList : Catalog.
Variable good : Element -> Prop.
Hypothesis good_entry : forall e, In e courseList -> good (FromCatalog e).
Hypothesis good_list : forall r items, Forall good items -> good (NewList r items).

Definition allows (q : MQLQuery) : Prop :=
  placement_free q = true \/ forall r m, good (NewManual r m).

Definition allows_selector (s : Selector) : Prop :=
  match s with
  | SPlacement _ => forall r m, good (NewManual r m)
  | SQuery q => allows q
  | _ => True
  end.

Lemma allows_selectors (qn : Quantity) (ty : MQLQueryType) (sels : list Selector) :
  allows (Build_MQLQuery qn ty sels) -> Forall allows_selector sels.
Proof.
  intros [Hfree | Hman]; apply Forall_forall; intros s Hs.
  - cbn in Hfree. rewrite forallb_forall in Hfree. specialize (Hfree s Hs).
    destruct s; cbn; try exact I; [discriminate | left; exact Hfree].
  - destruct s; cbn; try exact I; [exact Hman | right; exact Hman].
Qed.

Lemma Set_addAll_good (xs : list Element) (s : JsSet) :
  Forall good s -> Forall good xs -> Forall good (Set_addAll s xs).
Proof.
  intros Hs Hxs. apply Forall_forall. intros x Hin.
  apply Set_addAll_In in Hin. rewrite Forall_forall in Hs, Hxs.
  destruct Hin; auto.
Qed.

Lemma flatten_good (q : MQLQuery) :
  allows q ->
  forall w w' data,
    QueryMatcher.match_ courseList q false w = (ok data, w') -> Forall good data.
Proof.
  induction q as [qn ty sels Hsels] using MQLQuery_nested_ind.
  intros Hallow w w' data. rewrite match_flatten.
  unfold QueryMatcher.matchFlatten, QueryMatcher.matchFlatten_. cbn [selector].
  pose proof (allows_selectors Hallow) as Hsel. clear Hallow.
  assert (Hacc : Forall good (@nil Element)) by constructor.
  revert Hacc. generalize (@nil Element) as acc.
  generalize (Build_MQLQuery qn ty sels) as mql. intros mql. revert w.
  induction sels as [|s rest IH]; intros w acc Hacc Hrun.
  - cbn in Hrun. inversion Hrun; subst. exact Hacc.
  - rewrite flattenLoop_cons in Hrun.
    inversion Hsels as [|? ? Hs Hrest]; subst. inversion Hsel as [|? ? Ha Harest]; subst.
    destruct (evalSelector courseList mql s w) as [[d|e] w1] eqn:E; [|discriminate].
    eapply IH; [exact Hrest | exact Harest | | exact Hrun].
    apply Set_addAll_good; [exact Hacc|].
    destruct (catalog_selector s) eqn:Hkind.
    + apply Forall_forall. intros x Hx.
      destruct (@evalSelector_catalog_elements courseList mql s w w1 d Hkind E x Hx)
        as [e0 [-> He0]].
      apply good_entry, He0.
    + destruct s; try discriminate.
      * cbn in E. inversion E; subst. constructor; [apply Ha | constructor].
      * rewrite evalSelector_Query in E. cbn in Hs, Ha.
        destruct (QueryMatcher.matchFlatten courseList q w) as [[d0|e0] w2] eqn:Eq;
          inversion E; subst.
        constructor; [|constructor]. apply good_list.
        rewrite <- match_flatten in Eq. exact (Hs Ha _ _ _ Eq).
Qed.

Lemma matchCourses_good (mql : MQLQueryFile) (w w' : World) (r : MatchingEvaluationResult) :
  (forall req, In req (requirements mql) -> allows (query req)) ->
  matchCourses courseList mql w = (ok r, w') ->
  Forall good (allSelectedCourses r)
  /\ forall qr, In qr (results r) -> Forall good (selectedCourses qr).
Proof.
  intros Hallow Hrun.
  destruct (matchCourses_ok_parts _ _ _ Hrun) as [Hall Hparts].
  assert (Hres : forall qr, In qr (results r) -> Forall good (selectedCourses qr)).
  { intros qr Hin. destruct (Hparts qr Hin) as [Hreq [wa [wb Hq]]].
    exact (flatten_good (Hallow _ Hreq) _ Hq). }
  split; [|exact Hres].
  rewrite Hall. unfold unionAll. apply Forall_forall. intros x Hin.
  apply fold_addAll_In in Hin. destruct Hin as [[] | Hin].
  apply List.in_concat in Hin. destruct Hin as [d [Hd Hx]].
  apply in_map_iff in Hd. destruct Hd as [qr [<- Hqr]].
  specialize (Hres qr Hqr). rewrite Forall_forall in Hres. auto.
Qed.

End ElementInvariant.

(** X13: Every course in what [matchCourses] returns is an entry of the
    catalog, in the lists of the requirements and in [allSelectedCourses],
    at any depth of nesting: the engine selects, it makes no course. *)
Theorem results_hold_catalog_entries_only :
  forall (courseList : Catalog) (mql : MQLQueryFile) (w w' : World)
         (r : MatchingEvaluationResult),
    matchCourses courseList mql w = (ok r, w') ->
    (forall x e, In x (allSelectedCourses r) -> In e (catalog_entries x) ->
                 In e courseList)
    /\ (forall qr x e, In qr (results r) -> In x (selectedCourses qr) ->
                       In e (catalog_entries x) -> In e courseList).
Proof.
  intros courseList mql w w' r Hrun.
  pose (good := fun x => forall e, In e (catalog_entries x) -> In e courseList).
  assert (H1 : forall e, In e courseList -> good (FromCatalog e)).
  { intros e He e' [<- | []]. exact He. }
  assert (H2 : forall ref items, Forall good items -> good (NewList ref items)).
  { intros ref items Hall e He. cbn in He. apply in_flat_map in He.
    destruct He as [y [Hy Hey]]. rewrite Forall_forall in Hall. exact (Hall y Hy e Hey). }
  destruct (@matchCourses_good courseList good H1 H2 mql w w' r) as [Ha Hr].
  - intros req _. right. intros ref m e [].
  - exact Hrun.
  - split.
    + intros x e Hx He. rewrite Forall_forall in Ha. exact (Ha x Hx e He).
    + intros qr x e Hqr Hx He. specialize (Hr qr Hqr). rewrite Forall_forall in Hr.
      exact (Hr x Hx e He).
Qed.

Lemma scrub_without_placeholder (x : Element) :
  no_placeholder x = true -> scrub x = forget_refs x.
Proof.
  induction x as [e | r m | r items IH] using Element_nested_ind; cbn.
  - reflexivity.
  - discriminate.
  - intros H. f_equal. rewrite forallb_forall in H. rewrite Forall_forall in IH.
    apply map_ext_in. intros y Hy. apply IH; auto.
Qed.

Lemma matchCourses_similar (courseList : Catalog) (mql : MQLQueryFile) (w1 w2 : World) :
  mapResult (mapEvaluation scrub) (result_of (matchCourses courseList mql) w1)
  = mapResult (mapEvaluation scrub) (result_of (matchCourses courseList mql) w2).
Proof.
  unfold result_of, matchCourses, MQLMatcher.match_, bind.
  pose proof (@resolveLoop_similar _ courseList
                (sort MQLMatcher.byPriority (requirements mql))
                [] [] [] [] [] w1 w2 eq_refl (Forall_nil _) (Forall_nil _) eq_refl) as H.
  destruct (MQLMatcher.resolveLoop courseList _ [] [] [] w1) as [[[e1 u1] r1] w1'].
  destruct (MQLMatcher.resolveLoop courseList _ [] [] [] w2) as [[[e2 u2] r2] w2'].
  cbn [fst] in H. destruct H as [He [Hu Hr]]. subst e2.
  destruct e1 as [|e es]; cbn; [|reflexivity].
  unfold mapEvaluation. cbn. rewrite Hu, Hr. reflexivity.
Qed.

Lemma matchCourses_without_placeholder (courseList : Catalog) (mql : MQLQueryFile)
    (w : World) :
  (forall req, In req (requirements mql) -> placement_free (query req) = true) ->
  mapResult (mapEvaluation scrub) (result_of (matchCourses courseList mql) w)
  = mapResult (mapEvaluation forget_refs) (result_of (matchCourses courseList mql) w).
Proof.
  intros Hfree. unfold result_of.
  destruct (matchCourses courseList mql w) as [[r|e] w'] eqn:Hrun; [|reflexivity].
  cbn [fst mapResult]. f_equal.
  destruct (@matchCourses_good courseList (fun x => no_placeholder x = true)
              (fun e _ => eq_refl)
              (fun ref items Hall => proj2 (forallb_forall _ _)
                                       (proj1 (Forall_forall _ _) Hall))
              mql w w' r) as [Ha Hr].
  - intros req Hreq. left. apply Hfree, Hreq.
  - exact Hrun.
  - unfold mapEvaluation. f_equal.
    + apply map_ext_in. intros qr Hqr. unfold mapQueryResult. f_equal.
      apply map_ext_in. intros x Hx. apply scrub_without_placeholder.
      specialize (Hr qr Hqr). rewrite Forall_forall in Hr. auto.
    + apply map_ext_in. intros x Hx. apply scrub_without_placeholder.
      rewrite Forall_forall in Ha. auto.
Qed.

(** X14: A document without a Placement selector, at any depth, is matched to
    the same value by any two runs of [matchCourses], the second of two
    successive invocations included: verdict, errors and results with all
    their elements are the same, only the identity of the nested lists
    differs. *)
Theorem placement_free_documents_deterministic :
  forall (courseList : Catalog) (mql : MQLQueryFile) (w1 w2 : World),
    (forall req, In req (requirements mql) -> placement_free (query req) = true) ->
    mapResult (mapEvaluation forget_refs) (result_of (matchCourses courseList mql) w1)
    = mapResult (mapEvaluation forget_refs) (result_of (matchCourses courseList mql) w2)
    /\ same_twice forget_refs courseList mql w1.
Proof.
  assert (Hany : forall courseList mql w1 w2,
    (forall req, In req (requirements mql) -> placement_free (query req) = true) ->
    mapResult (mapEvaluation forget_refs) (result_of (matchCourses courseList mql) w1)
    = mapResult (mapEvaluation forget_refs) (result_of (matchCourses courseList mql) w2)).
  { intros courseList mql w1 w2 Hfree.
    rewrite <- !matchCourses_without_placeholder by exact Hfree.
    apply matchCourses_similar. }
  intros courseList mql w1 w2 Hfree. split; [apply Hany, Hfree|].
  unfold same_twice.
  pose proof (Hany courseList mql w1 (world_after (matchCourses courseList mql) w1) Hfree)
    as H'.
  unfold result_of, world_after in H'.
  destruct (matchCourses courseList mql w1) as [first w'] eqn:E1. cbn [fst snd] in H'.
  destruct (matchCourses courseList mql w') as [second w'']. exact H'.
Qed.

(** ** Codes and their shape *)

Lemma split_nonempty (sep : ascii) (s : string) : split sep s <> [].
Proof.
  destruct s as [|c rest]; cbn; [discriminate|].
  destruct (Ascii.eqb c sep); [discriminate|]. destruct (split sep rest); discriminate.
Qed.

Lemma split_append (a b : string) :
  split " " (a ++ " " ++ b) = split " " a ++ split " " b.
Proof.
  induction a as [|c a IH]; cbn [String.append split].
  - reflexivity.
  - fold (String.append a (String " " b)).
    change (String " " b) with (" " ++ b)%string. rewrite IH.
    destruct (Ascii.eqb c " "); [reflexivity|].
    destruct (split " " a) as [|seg segs] eqn:E; [|reflexivity].
    exfalso. exact (split_nonempty _ _ E).
Qed.

Lemma split_no_space (s : string) :
  no_space s = true <-> split " " s = [s].
Proof.
  induction s as [|c s IH]; cbn [no_space split].
  - tauto.
  - destruct (Ascii.eqb c " "); cbn [negb andb].
    + split; [discriminate|]. intros H. inversion H.
    + rewrite IH. destruct (split " " s) as [|seg [|seg' segs]] eqn:E.
      * exfalso. exact (split_nonempty _ _ E).
      * split; [intros H; inversion H; reflexivity
               | intros H; inversion H; reflexivity].
      * split; [discriminate | intros H; inversion H].
Qed.

Lemma split_length_one (s : string) :
  List.length (split " " s) = 1%nat <-> no_space s = true.
Proof.
  induction s as [|c s IH]; cbn [no_space split].
  - cbn. tauto.
  - pose proof (split_nonempty " " s) as Hne.
    destruct (Ascii.eqb c " "); cbn [negb andb].
    + destruct (split " " s); [contradiction|]. cbn. split; [lia | discriminate].
    + rewrite <- IH. destruct (split " " s); [contradiction|]. cbn. tauto.
Qed.

(** X15: A code that [validateAndMapCourseCode] renders is the [department]
    of the entry, a space and its [number], and is split by the engine at
    every space of either: it gives back the two, as the Range selector
    wants, exactly when neither holds a space; the department that
    TagCode and DistCode read is then the department of the entry. *)
Theorem rendered_code_splits_back :
  forall (item : JSON) (st : CourseValidator.State) (code : string),
    fst (CourseValidator.validateAndMapCourseCode item st) = Some code ->
    exists fields department number,
      item = JObject fields
      /\ get "department" fields = Some (JString department)
      /\ get "number" fields = Some (JString number)
      /\ code = (department ++ " " ++ number)%string
      /\ split " " code = split " " department ++ split " " number
      /\ (split " " code = [department; number]
          <-> no_space department = true /\ no_space number = true)
      /\ (two_part code <-> no_space department = true /\ no_space number = true)
      /\ (no_space department = true -> QueryMatcher.department_of code = department).
Proof.
  intros item st code Hrun.
  assert (Hitem : exists fields department number,
             item = JObject fields
             /\ get "department" fields = Some (JString department)
             /\ get "number" fields = Some (JString number)
             /\ code = (department ++ " " ++ number)%string).
  { unfold CourseValidator.validateAndMapCourseCode in Hrun.
    destruct item as [| | | |items|fields]; try discriminate Hrun.
    destruct (get "department" fields) as [[| | |d| |]|] eqn:Ed; try discriminate Hrun.
    destruct (get "number" fields) as [[| | |n| |]|] eqn:En; try discriminate Hrun.
    cbn in Hrun. inversion Hrun. exists fields, d, n. auto. }
  destruct Hitem as [fields [department [number [-> [Hd [Hn ->]]]]]].
  exists fields, department, number.
  split; [reflexivity|]. split; [exact Hd|]. split; [exact Hn|]. split; [reflexivity|].
  split; [apply split_append|].
  assert (Htwo : two_part (department ++ " " ++ number)
                 <-> no_space department = true /\ no_space number = true).
  { unfold two_part. rewrite split_append, length_app, <- !split_length_one.
    pose proof (split_nonempty " " department) as Nd.
    pose proof (split_nonempty " " number) as Nn.
    destruct (split " " department); [contradiction|].
    destruct (split " " number); [contradiction|]. cbn. lia. }
  split; [|split; [exact Htwo|]].
  - split.
    + intros H. apply Htwo. unfold two_part. rewrite H. reflexivity.
    + intros [Hd' Hn']. rewrite split_append.
      apply split_no_space in Hd'. apply split_no_space in Hn'. rewrite Hd', Hn'.
      reflexivity.
  - intros Hd'. unfold QueryMatcher.department_of. rewrite split_append.
    apply split_no_space in Hd'. rewrite Hd'. reflexivity.
Qed.

(** ** Catalogs whose codes are well shaped, or missing *)

Lemma code_in_rangeb_spec (from to : Class) (code : string) :
  code_in_rangeb from to code = true <-> code_in_range from to code.
Proof.
  unfold code_in_rangeb, code_in_range.
  destruct (split " " code) as [|dep [|numStr [|x l]]].
  - split; [discriminate | intros [d [n [E _]]]; discriminate].
  - split; [discriminate | intros [d [n [E _]]]; discriminate].
  - rewrite !andb_true_iff, String.eqb_eq. split.
    + intros [[H1 H2] H3]. exists dep, numStr. auto.
    + intros [d [n [E [H1 [H2 H3]]]]]. inversion E; subst. auto.
  - split; [discriminate | intros [d [n [E _]]]; discriminate].
Qed.

Lemma scanCodes_well_shaped (from to : Class) (cs : list string) :
  Forall two_part cs ->
  match QueryMatcher.scanCodes from to (map (split " ") cs) with
  | QueryMatcher.Found => true
  | _ => false
  end = existsb (code_in_rangeb from to) cs.
Proof.
  induction 1 as [|c cs Hc _ IH]; cbn [map QueryMatcher.scanCodes existsb].
  - reflexivity.
  - unfold code_in_rangeb at 1. unfold two_part in Hc.
    destruct (split " " c) as [|dep [|numStr [|x l]]]; try discriminate.
    destruct (String.eqb dep (department_id from)); cbn [negb andb orb]; [|exact IH].
    destruct (js_le (U16_to_number (course_number from)) (Number numStr)
              && js_le (Number numStr) (U16_to_number (course_number to)));
      [reflexivity | exact IH].
Qed.

(** X16: On a catalog whose codes all split in two parts, as those that the
    validator renders from departments and numbers without spaces, a
    Range selector within one department matches exactly the courses that
    have a code in range, whatever its place among the codes, and fails
    exactly when there is none. *)
Theorem queryRange_any_code_on_well_shaped_catalog :
  forall (courseList : Catalog) (mql : MQLQuery) (from to : Class) (w : World),
    (forall e c, In e courseList -> obj e = ACourse c -> Forall two_part (codes c)) ->
    department_id from = department_id to ->
    selects_exactly courseList (some_code_in_range from to)
      (result_of (evalSelector courseList mql (SRange from to)) w).
Proof.
  intros courseList mql from to w Hshape Hdep.
  rewrite queryRange_result by exact Hdep.
  assert (E : filter (rangeKeeps from to) courseList
              = filter (any_code_in_range from to) courseList).
  { apply filter_ext_in. intros e He. unfold rangeKeeps, any_code_in_range.
    destruct (obj e) as [c|m] eqn:Eo; [|reflexivity].
    apply scanCodes_well_shaped. exact (Hshape e c He Eo). }
  rewrite E. apply filter_selects. intros e. unfold any_code_in_range, some_code_in_range.
  destruct (obj e) as [c|m].
  - rewrite existsb_exists. split.
    + intros [code [Hin Hr]]. exists c. split; [reflexivity|]. exists code.
      split; [exact Hin | apply code_in_rangeb_spec, Hr].
    + intros [c' [Ec [code [Hin Hr]]]]. inversion Ec; subst c'. exists code.
      split; [exact Hin | apply code_in_rangeb_spec, Hr].
  - split; [discriminate | intros [c [Ec _]]; discriminate].
Qed.

(** X17: A course without a code, which the validator lets through, is never
    matched by a selector that reads codes: Class, TagCode, DistCode and
    Range. *)
Theorem course_without_codes_never_matched :
  forall (courseList : Catalog) (mql : MQLQuery) (s : Selector) (w : World)
         (data : CourseList) (e : CatalogEntry) (c : Course),
    reads_codes s = true ->
    result_of (evalSelector courseList mql s) w = ok data ->
    In (FromCatalog e) data ->
    obj e = ACourse c ->
    codes c <> [].
Proof.
  intros courseList mql s w data e c Hkind Hrun Hin Hobj Hnil.
  assert (Hfilter : forall keep : CatalogEntry -> bool,
             keep e = false -> ~ In (FromCatalog e) (map FromCatalog (filter keep courseList))).
  { intros keep Hk H. apply in_map_iff in H. destruct H as [e' [E He']].
    inversion E; subst e'. apply filter_In in He'. destruct He' as [_ He']. congruence. }
  unfold result_of, evalSelector in Hrun.
  destruct s; try discriminate; cbn [keyOf QueryMatcher.selectorVTable] in Hrun.
  - (* Class *)
    unfold QueryMatcher.queryClass in Hrun.
    match type of Hrun with context [filter ?f courseList] =>
      remember (filter f courseList) as found eqn:Ef end.
    destruct found as [|e1 found]; [discriminate|].
    assert (Hd : data = map FromCatalog (e1 :: found))
      by (unfold ret in Hrun; cbn [fst] in Hrun; congruence).
    subst data. rewrite Ef in Hin.
    eapply Hfilter; [|exact Hin]. cbn. rewrite Hobj, Hnil. reflexivity.
  - (* TagCode *)
    unfold QueryMatcher.queryTagCode in Hrun.
    match type of Hrun with context [filter ?f courseList] =>
      remember (filter f courseList) as found eqn:Ef end.
    destruct found as [|e1 found]; [discriminate|].
    assert (Hd : data = map FromCatalog (e1 :: found))
      by (unfold ret in Hrun; cbn [fst] in Hrun; congruence).
    subst data. rewrite Ef in Hin.
    eapply Hfilter; [|exact Hin]. unfold QueryMatcher.tagCodeFilter.
    rewrite Hobj. unfold QueryMatcher.some_code_in. rewrite Hnil.
    destruct (tags c); reflexivity.
  - (* DistCode *)
    unfold QueryMatcher.queryDistCode in Hrun.
    match type of Hrun with context [filter ?f courseList] =>
      remember (filter f courseList) as found eqn:Ef end.
    destruct found as [|e1 found]; [discriminate|].
    assert (Hd : data = map FromCatalog (e1 :: found))
      by (unfold ret in Hrun; cbn [fst] in Hrun; congruence).
    subst data. rewrite Ef in Hin.
    eapply Hfilter; [|exact Hin]. unfold QueryMatcher.courseFilter.
    rewrite Hobj. unfold QueryMatcher.some_code_in. rewrite Hnil.
    destruct (dist c); reflexivity.
  - (* Range *)
    unfold QueryMatcher.queryRange in Hrun.
    destruct (negb (String.eqb (department_id from) (department_id to)));
      [discriminate|].
    unfold bind in Hrun.
    destruct (flatMapM_rangeCallback from to courseList w) as [H1 _].
    destruct (flatMapM (QueryMatcher.rangeCallback from to) courseList w) as [l w'].
    cbn in H1. subst l.
    remember (filter (rangeKeeps from to) courseList) as found eqn:Ef.
    destruct found as [|e1 found]; [discriminate|].
    assert (Hd : data = map FromCatalog (e1 :: found))
      by (unfold ret in Hrun; cbn [fst] in Hrun; congruence).
    subst data. rewrite Ef in Hin.
    eapply Hfilter; [|exact Hin]. unfold rangeKeeps. rewrite Hobj, Hnil. reflexivity.
Qed.

(** ** What the Range selector writes to the console *)

Lemma scanCodes_SoftError (from to : Class) (cs : list string) :
  QueryMatcher.scanCodes from to (map (split " ") cs) = QueryMatcher.SoftError
  <-> exists pre code post,
        cs = pre ++ code :: post
        /\ ~ two_part code
        /\ Forall (fun x => two_part x /\ ~ code_in_range from to x) pre.
Proof.
  induction cs as [|c cs IH]; cbn [map QueryMatcher.scanCodes].
  - split; [discriminate|]. intros [pre [code [post [E _]]]]. destruct pre; discriminate.
  - assert (Hbad : ~ two_part c ->
                   exists pre code post,
                     c :: cs = pre ++ code :: post
                     /\ ~ two_part code
                     /\ Forall (fun x => two_part x /\ ~ code_in_range from to x) pre).
    { intros Hn. exists [], c, cs. split; [reflexivity|]. split; [exact Hn | constructor]. }
    assert (Hnext : two_part c -> ~ code_in_range from to c ->
              ((exists pre code post,
                   cs = pre ++ code :: post
                   /\ ~ two_part code
                   /\ Forall (fun x => two_part x /\ ~ code_in_range from to x) pre)
               <-> exists pre code post,
                     c :: cs = pre ++ code :: post
                     /\ ~ two_part code
                     /\ Forall (fun x => two_part x /\ ~ code_in_range from to x) pre)).
    { intros Htwo Hout. split; intros [pre [code [post [E [Hn Hpre]]]]].
      - exists (c :: pre), code, post. split; [cbn; rewrite E; reflexivity|].
        split; [exact Hn|]. constructor; [split; assumption | exact Hpre].
      - destruct pre as [|p pre]; cbn in E; inversion E; subst.
        + contradiction.
        + inversion Hpre; subst. exists pre, code, post. auto. }
    pose proof (code_in_rangeb_spec from to c) as Hspec. unfold code_in_rangeb in Hspec.
    unfold two_part in Hbad, Hnext.
    destruct (split " " c) as [|dep [|numStr [|x l]]] eqn:Es.
    + split; [intros _; apply Hbad; discriminate | reflexivity].
    + split; [intros _; apply Hbad; discriminate | reflexivity].
    + destruct (String.eqb dep (department_id from)); cbn [negb andb] in *.
      * destruct (js_le (U16_to_number (course_number from)) (Number numStr)
                  && js_le (Number numStr) (U16_to_number (course_number to))).
        -- split; [discriminate|].
           intros [pre [code [post [E [Hn Hpre]]]]].
           destruct pre as [|p pre]; cbn in E; inversion E; subst.
           ++ exfalso. apply Hn. unfold two_part. rewrite Es. reflexivity.
           ++ inversion Hpre as [|? ? [_ Hout] _]; subst. exfalso. apply Hout, Hspec.
              reflexivity.
        -- rewrite IH. apply Hnext; [reflexivity|]. rewrite <- Hspec. discriminate.
      * rewrite IH. apply Hnext; [reflexivity|]. rewrite <- Hspec. discriminate.
    + split; [intros _; apply Hbad; discriminate | reflexivity].
Qed.

Lemma rangeWarns_spec (from to : Class) (e : CatalogEntry) :
  rangeWarns from to e = true
  <-> exists c, obj e = ACourse c /\ dropped_for_shape from to c.
Proof.
  unfold rangeWarns, dropped_for_shape. destruct (obj e) as [c|m].
  - split.
    + intros H. exists c. split; [reflexivity|]. apply scanCodes_SoftError.
      destruct (QueryMatcher.scanCodes _ _ _); try discriminate; reflexivity.
    + intros [c' [E H]]. inversion E; subst c'.
      apply scanCodes_SoftError in H. rewrite H. reflexivity.
  - split; [discriminate | intros [c [E _]]; discriminate].
Qed.

Lemma flatMapM_rangeCallback_console (from to : Class) (courseList : Catalog) (w : World) :
  console (snd (flatMapM (QueryMatcher.rangeCallback from to) courseList w))
  = console w ++ map WarnCourse (filter (rangeWarns from to) courseList).
Proof.
  revert w. induction courseList as [|e l IH]; intros w; cbn [flatMapM filter map].
  - cbn. rewrite app_nil_r. reflexivity.
  - unfold bind.
    assert (H : console (snd (QueryMatcher.rangeCallback from to e w))
                = console w ++ (if rangeWarns from to e then [WarnCourse e] else [])).
    { unfold QueryMatcher.rangeCallback, rangeWarns.
      destruct (obj e) as [c|m]; [|cbn; rewrite app_nil_r; reflexivity].
      destruct (QueryMatcher.scanCodes from to (map (split " ") (codes c)));
        cbn; rewrite ?app_nil_r; reflexivity. }
    destruct (QueryMatcher.rangeCallback from to e w) as [ys w1]. cbn [snd] in H.
    specialize (IH w1).
    destruct (flatMapM (QueryMatcher.rangeCallback from to) l w1) as [zs w2].
    unfold ret. cbn [snd] in *. rewrite IH, H.
    destruct (rangeWarns from to e); cbn [map app]; rewrite <- app_assoc; reflexivity.
Qed.

(** X18: A Range selector within one department warns once about each course
    that it drops for the shape of a code, in the order of the catalog,
    and writes nothing else: a course is dropped so when it has a code
    that does not split in two parts and before it only codes that do and
    are not in range.  Such a course is not matched, whatever codes
    follow.  No object is made and no UUID drawn. *)
Theorem queryRange_warns_about_dropped_courses :
  forall (courseList : Catalog) (mql : MQLQuery) (from to : Class) (w : World),
    department_id from = department_id to ->
    exists warns : CatalogEntry -> bool,
      (forall e, warns e = true
                 <-> exists c, obj e = ACourse c /\ dropped_for_shape from to c)
      /\ (forall e, warns e = true -> rangeKeeps from to e = false)
      /\ console (world_after (evalSelector courseList mql (SRange from to)) w)
         = console w ++ map WarnCourse (filter warns courseList)
      /\ next_ref (world_after (evalSelector courseList mql (SRange from to)) w)
         = next_ref w
      /\ uuid_drawn (world_after (evalSelector courseList mql (SRange from to)) w)
         = uuid_drawn w.
Proof.
  intros courseList mql from to w Hdep. exists (rangeWarns from to).
  split; [apply rangeWarns_spec|]. split.
  { intros e. unfold rangeWarns, rangeKeeps. destruct (obj e) as [c|m]; [|discriminate].
    destruct (QueryMatcher.scanCodes from to (map (split " ") (codes c)));
      [discriminate | reflexivity | discriminate]. }
  unfold world_after, evalSelector. cbn [keyOf QueryMatcher.selectorVTable].
  unfold QueryMatcher.queryRange. rewrite Hdep, String.eqb_refl. cbn [negb]. unfold bind.
  pose proof (flatMapM_rangeCallback_console from to courseList w) as Hc.
  destruct (flatMapM_rangeCallback from to courseList w) as [_ [Hr [Hu _]]].
  destruct (flatMapM (QueryMatcher.rangeCallback from to) courseList w) as [l w1].
  cbn [snd] in *. destruct l; cbn [ret snd]; auto.
Qed.

(** ** Where the errors come from *)




End MoreProperties.

(* ================================================================= *)
(** * Properties of the course validator *)

Section ValidatorProperties.
Context {parsing : JsParsing}.
Import CourseValidator.
Local Open Scope validator_scope.

Lemma monotone_vret {A} (a : A) : monotone (vret a).
Proof. intros st. cbn. lia. Qed.

Lemma monotone_addError (msg : string) : monotone (addError msg).
Proof. intros st. unfold error_count. cbn. rewrite length_app. lia. Qed.

Lemma monotone_pushPath (seg : string) : monotone (pushPath seg).
Proof. intros st. cbn. unfold error_count. cbn. lia. Qed.

Lemma monotone_popPath : monotone popPath.
Proof. intros st. cbn. unfold error_count. cbn. lia. Qed.

Lemma monotone_vbind {A B} (m : V A) (k : A -> V B) :
  monotone m -> (forall a, monotone (k a)) -> monotone (vbind m k).
Proof.
  intros Hm Hk st. unfold vbind. specialize (Hm st).
  destruct (m st) as [a st1]. cbn in Hm. specialize (Hk a st1). lia.
Qed.

Lemma quiet_vbind {A B} (m : V A) (k : A -> V B) (st : State) :
  monotone m -> (forall a, monotone (k a)) ->
  quiet (vbind m k) st ->
  quiet m st /\ quiet (k (fst (m st))) (snd (m st)).
Proof.
  intros Hm Hk. unfold quiet, vbind. specialize (Hm st).
  destruct (m st) as [a st1]. cbn in *. specialize (Hk a st1). lia.
Qed.

Lemma addError_not_quiet (msg : string) (st : State) : ~ quiet (addError msg) st.
Proof. unfold quiet, error_count. cbn. rewrite length_app. cbn. lia. Qed.

Lemma addError_then_not_quiet {A} (msg : string) (k : V A) (st : State) :
  monotone k -> ~ quiet (addError msg ;;; k) st.
Proof.
  intros Hk Hq. apply quiet_vbind in Hq; [|apply monotone_addError | intros _; exact Hk].
  destruct Hq as [Hq _]. exact (addError_not_quiet Hq).
Qed.

Lemma monotone_validateAndMapCourseCode (code : JSON) :
  monotone (validateAndMapCourseCode code).
Proof.
  unfold validateAndMapCourseCode.
  destruct code as [| | | |items|fields];
    try (apply monotone_vbind; [apply monotone_addError | intros; apply monotone_vret]).
  destruct (get "department" fields) as [[| | |d| |]|];
    try (apply monotone_vbind; [apply monotone_addError | intros; apply monotone_vret]).
  destruct (get "number" fields) as [[| | |n| |]|];
    try (apply monotone_vbind; [apply monotone_addError | intros; apply monotone_vret]).
  apply monotone_vret.
Qed.

Lemma monotone_forEachCode (items : list JSON) :
  forall index codes, monotone (forEachCode items index codes).
Proof.
  induction items as [|code rest IH]; intros index codes; cbn [forEachCode].
  - apply monotone_vret.
  - apply monotone_vbind; [apply monotone_pushPath | intros _].
    apply monotone_vbind; [apply monotone_validateAndMapCourseCode | intros flat].
    apply monotone_vbind; [apply monotone_popPath | intros _]. apply IH.
Qed.

Ltac mono :=
  intros;
  repeat first
    [ apply monotone_vret | apply monotone_addError | apply monotone_pushPath
    | apply monotone_popPath | apply monotone_forEachCode
    | apply monotone_validateAndMapCourseCode
    | (apply monotone_vbind; [|intros ?])
    | match goal with
      | |- monotone (match ?x with _ => _ end) => destruct x
      | |- monotone (if ?x then _ else _) => destruct x
      end ].

Lemma code_not_empty (department number : string) :
  String.eqb (department ++ " " ++ number) EmptyString = false.
Proof. destruct department; reflexivity. Qed.

(** One entry of [course_codes]: rendered without an error, or not
    rendered with an error. *)
Lemma validateAndMapCourseCode_cases (code : JSON) (st : State) :
  (exists c, CodeOf code c /\ validateAndMapCourseCode code st = (Some c, st))
  \/ (fst (validateAndMapCourseCode code st) = None
      /\ ~ quiet (validateAndMapCourseCode code) st).
Proof.
  unfold validateAndMapCourseCode.
  destruct code as [| | | |items|fields];
    try (right; split; [reflexivity | apply addError_then_not_quiet, monotone_vret]).
  destruct (get "department" fields) as [[| | |d| |]|] eqn:Ed;
    try (right; split; [reflexivity | apply addError_then_not_quiet, monotone_vret]).
  destruct (get "number" fields) as [[| | |n| |]|] eqn:En;
    try (right; split; [reflexivity | apply addError_then_not_quiet, monotone_vret]).
  left. exists (d ++ " " ++ n)%string. split; [|reflexivity].
  exists fields, d, n. auto.
Qed.

Lemma forEachCode_quiet (items : list JSON) :
  forall index codes st,
    quiet (forEachCode items index codes) st ->
    exists new,
      fst (forEachCode items index codes st) = codes ++ new /\ Forall2 CodeOf items new.
Proof.
  induction items as [|code rest IH]; intros index codes st Hq; cbn [forEachCode] in *.
  - exists []. cbn. rewrite app_nil_r. split; [reflexivity | constructor].
  - apply quiet_vbind in Hq; [|mono|mono]. destruct Hq as [_ Hq]. cbn [fst snd pushPath] in Hq.
    apply quiet_vbind in Hq; [|mono|mono]. destruct Hq as [Hcode Hq].
    unfold vbind at 1. cbn [pushPath]. unfold vbind at 1.
    match type of Hcode with quiet _ ?st1 =>
      destruct (validateAndMapCourseCode_cases code st1) as [[c [Hc Hrun]] | [_ Hn]];
        [|contradiction] end.
    rewrite Hrun in *. cbn [fst snd] in *.
    destruct Hc as [fields [d [n [-> [Hd [Hn ->]]]]]].
    rewrite code_not_empty in *.
    apply quiet_vbind in Hq; [|mono|mono]. destruct Hq as [_ Hq]. cbn [fst snd popPath] in Hq.
    unfold vbind at 1. cbn [popPath].
    destruct (IH _ _ _ Hq) as [new [Hval Hall]].
    exists ((d ++ " " ++ n)%string :: new). split.
    + rewrite Hval, <- app_assoc. reflexivity.
    + constructor; [|exact Hall]. exists fields, d, n. auto.
Qed.

Lemma vbind_run {A B} (m : V A) (k : A -> V B) (st : State) :
  vbind m k st = k (fst (m st)) (snd (m st)).
Proof. unfold vbind. destruct (m st); reflexivity. Qed.

Ltac peel H Hi :=
  match type of H with
  | quiet (vbind ?m ?k) ?s =>
      apply quiet_vbind in H; [|mono|mono]; destruct H as [Hi H]
  end.

Ltac loud :=
  exfalso;
  first [ eapply addError_not_quiet; eassumption
        | eapply addError_then_not_quiet; [|eassumption]; mono ].

(** An entry that records no error is an object with the fields that a
    course needs, and is mapped to that course. *)
Lemma validateAndMapCourse_quiet (entry : JSON) (st : State) :
  quiet (validateAndMapCourse entry) st ->
  Accepted entry (fst (validateAndMapCourse entry st)).
Proof.
  intros Hq. destruct entry as [| | | |items|fields]; try loud.
  unfold validateAndMapCourse in *.
  (* external_id *)
  peel Hq H1. rewrite vbind_run.
  match type of H1 with quiet ?m ?s =>
    assert (E1 : snd (m s) = s)
      by (revert H1; destruct (get "external_id" fields) as [[| |n| | |]|];
          try destruct (isInteger n); intros H1; first [reflexivity | loud]) end.
  rewrite E1 in *. clear H1 E1.
  (* title *)
  peel Hq H2. rewrite vbind_run.
  match type of H2 with quiet ?m ?s =>
    assert (E2 : snd (m s) = s /\ exists t, get "title" fields = Some (JString t))
      by (revert H2; destruct (get "title" fields) as [[| | |t| |]|];
          intros H2; first [split; [reflexivity | eauto] | loud]) end.
  destruct E2 as [E2 [t Ht]]. rewrite E2 in *. clear H2 E2.
  (* description *)
  peel Hq H3. rewrite vbind_run.
  match type of H3 with quiet ?m ?s =>
    assert (E3 : snd (m s) = s)
      by (revert H3; destruct (get "description" fields) as [[| | |d| |]|];
          intros H3; first [reflexivity | loud]) end.
  rewrite E3 in *. clear H3 E3.
  (* credits *)
  peel Hq H4. rewrite vbind_run.
  match type of H4 with quiet ?m ?s =>
    assert (E4 : exists credits,
               get "credits" fields = Some (JString credits)
               /\ isNaN (parseFloat credits) = false
               /\ m s = (parseFloat credits, s))
      by (revert H4; destruct (get "credits" fields) as [[| | |cr| |]|];
          try destruct (isNaN (parseFloat cr)) eqn:?;
          intros H4; first [solve [exists cr; auto] | loud]) end.
  destruct E4 as [credits [Hcr [Hnan E4]]]. rewrite E4 in *. cbn [fst snd] in *. clear H4 E4.
  (* distributionals *)
  peel Hq H5. rewrite vbind_run.
  match type of H5 with quiet ?m ?s =>
    assert (E5 : snd (m s) = s
               /\ (get "distributionals" fields = None
                   \/ strings_of (get "distributionals" fields) <> None))
      by (revert H5; destruct (get "distributionals" fields) as [j|];
          [destruct (strings_of (Some j)) eqn:?|];
          intros H5;
          first [split; [reflexivity | first [left; reflexivity | right; discriminate]]
                | loud]) end.
  destruct E5 as [E5 Hdist]. rewrite E5 in *. clear H5 E5.
  (* course_tag *)
  peel Hq H6. rewrite vbind_run.
  match type of H6 with quiet ?m ?s =>
    assert (E6 : snd (m s) = s
               /\ (get "course_tag" fields = None
                   \/ strings_of (get "course_tag" fields) <> None))
      by (revert H6; destruct (get "course_tag" fields) as [j|];
          [destruct (strings_of (Some j)) eqn:?|];
          intros H6;
          first [split; [reflexivity | first [left; reflexivity | right; discriminate]]
                | loud]) end.
  destruct E6 as [E6 Htag]. rewrite E6 in *. clear H6 E6.
  (* course_codes *)
  peel Hq H7. rewrite vbind_run. cbn [vret fst].
  match type of H7 with quiet ?m ?s =>
    assert (E7 : exists items new,
               get "course_codes" fields = Some (JArray items)
               /\ fst (m s) = new /\ Forall2 CodeOf items new)
      by (revert H7; destruct (get "course_codes" fields) as [[| | | |items|]|];
          intros H7; try loud;
          destruct (@forEachCode_quiet items 0 [] _ H7) as [new [Hval Hall]];
          exists items, new; auto) end.
  destruct E7 as [items [new [Hcodes [E7 Hall]]]]. rewrite E7. clear H7 E7 Hq.
  eexists fields, _, items, credits.
  split; [reflexivity|]. split; [reflexivity|]. cbn.
  rewrite Ht. repeat split; auto.
Qed.

Lemma monotone_validateAndMapCourse (entry : JSON) :
  monotone (validateAndMapCourse entry).
Proof. unfold validateAndMapCourse. destruct entry; mono. Qed.

Lemma monotone_validateAndMapCourseList_from (entries : list JSON) :
  forall index, monotone (validateAndMapCourseList_from entries index).
Proof.
  induction entries as [|entry rest IH]; intros index; cbn [validateAndMapCourseList_from].
  - apply monotone_vret.
  - apply monotone_vbind; [apply monotone_pushPath | intros _].
    apply monotone_vbind; [apply monotone_validateAndMapCourse | intros m].
    apply monotone_vbind; [apply monotone_popPath | intros _].
    apply monotone_vbind; [apply IH | intros; apply monotone_vret].
Qed.

Lemma validateAndMapCourseList_quiet (entries : list JSON) :
  forall index st,
    quiet (validateAndMapCourseList_from entries index) st ->
    Forall2 Accepted entries (fst (validateAndMapCourseList_from entries index st)).
Proof.
  induction entries as [|entry rest IH]; intros index st Hq;
    cbn [validateAndMapCourseList_from] in *.
  - constructor.
  - assert (Hrest : forall i, monotone (validateAndMapCourseList_from rest i))
      by (apply monotone_validateAndMapCourseList_from).
    assert (Hone : monotone (validateAndMapCourse entry))
      by (apply monotone_validateAndMapCourse).
    apply quiet_vbind in Hq;
      [| apply monotone_pushPath
       | intros _; repeat (apply monotone_vbind; [|intros ?]);
         auto using monotone_popPath, monotone_vret ].
    destruct Hq as [_ Hq]. rewrite vbind_run. cbn [fst snd pushPath] in *.
    apply quiet_vbind in Hq;
      [| exact Hone
       | intros ?; repeat (apply monotone_vbind; [|intros ?]);
         auto using monotone_popPath, monotone_vret ].
    destruct Hq as [Hentry Hq]. rewrite vbind_run.
    apply validateAndMapCourse_quiet in Hentry.
    apply quiet_vbind in Hq;
      [| apply monotone_popPath
       | intros _; repeat (apply monotone_vbind; [|intros ?]);
         auto using monotone_vret ].
    destruct Hq as [_ Hq]. rewrite vbind_run. cbn [fst snd popPath] in *.
    apply quiet_vbind in Hq; [| apply Hrest | intros ?; apply monotone_vret].
    destruct Hq as [Hq _]. rewrite vbind_run. cbn [vret fst].
    constructor; [exact Hentry | apply IH, Hq].
Qed.

(** X19: What [validate] accepts: an array of objects, each with a string
    [title], a [credits] string that [parseFloat] reads as a number, and a
    [course_codes] array of objects with a string [department] and a
    string [number].  Each is mapped to a course whose codes are those
    entries rendered as department, space, number, one for one and in
    order, whose [tags] are [course_tag] or empty, whose [dist] is
    [distributionals] when given, and whose seasons are empty. *)
Theorem validated_catalog_shape :
  forall (data : JSON) (mapped : list MappedEntry),
    validateCourses data = ok mapped ->
    exists entries, data = JArray entries /\ Forall2 Accepted entries mapped.
Proof.
  intros data mapped. unfold validateCourses, validate, validateAndMapCourseList.
  destruct data as [| | | |entries|]; try discriminate.
  pose proof (@validateAndMapCourseList_quiet entries 0
                {| errors := []; currentPath := [] |}) as H.
  unfold quiet, error_count in H.
  destruct (validateAndMapCourseList_from entries 0 {| errors := []; currentPath := [] |})
    as [mapped' st]. cbn [fst snd errors] in *.
  destruct (errors st) as [|e es]; cbn; intros E; inversion E; subst.
  exists entries. split; [reflexivity | apply H; reflexivity].
Qed.

(** ** Where the errors point *)

Lemma emits_vret (P : list string -> Prop) {A} (a : A) : emits P (vret a).
Proof.
  intros st. cbn. split; [reflexivity|]. exists []. rewrite app_nil_r.
  split; [reflexivity | constructor].
Qed.

Lemma emits_addError (P : list string -> Prop) (msg : string) :
  P [] -> emits P (addError msg).
Proof.
  intros HP st. cbn. split; [reflexivity|]. eexists. split; [reflexivity|].
  constructor; [|constructor]. exists []. rewrite app_nil_r. cbn. auto.
Qed.

Lemma emits_vbind (P : list string -> Prop) {A B} (m : V A) (k : A -> V B) :
  emits P m -> (forall a, emits P (k a)) -> emits P (vbind m k).
Proof.
  intros Hm Hk st. rewrite vbind_run.
  destruct (Hm st) as [Hp [new [He Hall]]].
  destruct (Hk (fst (m st)) (snd (m st))) as [Hp' [new' [He' Hall']]].
  split; [congruence|]. exists (new ++ new'). split.
  - rewrite He', He, app_assoc. reflexivity.
  - apply Forall_app. split; [exact Hall|]. rewrite Hp in Hall'. exact Hall'.
Qed.

Lemma emits_weaken (P Q : list string -> Prop) {A} (m : V A) :
  (forall s, P s -> Q s) -> emits P m -> emits Q m.
Proof.
  intros HPQ Hm st. destruct (Hm st) as [Hp [new [He Hall]]].
  split; [exact Hp|]. exists new. split; [exact He|].
  eapply Forall_impl; [|exact Hall]. cbn. intros e [suffix [HP Hpath]]. eauto.
Qed.

(** A step run under one more path segment. *)
Lemma emits_under (P Q : list string -> Prop) (seg : string) {A B}
    (m : V A) (k : A -> V B) :
  emits P m -> (forall a, emits Q (k a)) -> (forall s, P s -> Q (seg :: s)) ->
  emits Q (pushPath seg ;;; (a <- m ;; (popPath ;;; k a))).
Proof.
  intros Hm Hk HPQ st. rewrite vbind_run. cbn [fst snd pushPath]. rewrite vbind_run.
  match goal with |- context [m ?s1] => destruct (Hm s1) as [Hp [new [He Hall]]] end.
  cbn [currentPath errors] in Hp, He, Hall.
  rewrite vbind_run. cbn [fst snd popPath]. rewrite Hp, removelast_last.
  match goal with |- context [k ?a ?s2] => destruct (Hk a s2) as [Hp' [new' [He' Hall']]] end.
  cbn [currentPath errors] in Hp', He', Hall'.
  split; [exact Hp'|]. exists (new ++ new'). split.
  - rewrite He', He, app_assoc. reflexivity.
  - apply Forall_app. split; [|exact Hall'].
    eapply Forall_impl; [|exact Hall]. cbn. intros e [suffix [HP Hpath]].
    exists (seg :: suffix). split; [apply HPQ, HP|].
    rewrite Hpath, <- app_assoc. reflexivity.
Qed.

Ltac emit :=
  intros;
  repeat first
    [ apply emits_vret
    | (apply emits_addError; solve [auto])
    | (apply emits_vbind; [|intros ?])
    | match goal with
      | |- emits _ (match ?x with _ => _ end) => destruct x
      | |- emits _ (if ?x then _ else _) => destruct x
      end ].

Lemma emits_validateAndMapCourseCode (code : JSON) :
  emits (fun s => s = []) (validateAndMapCourseCode code).
Proof. unfold validateAndMapCourseCode. emit. Qed.

Lemma emits_forEachCode (items : list JSON) :
  forall index codes,
    emits (fun s => exists j, index <= j < index + List.length items
                              /\ s = [code_segment j])
          (forEachCode items index codes).
Proof.
  induction items as [|code rest IH]; intros index codes; cbn [forEachCode].
  - apply emits_vret.
  - eapply emits_under with (P := fun s => s = []).
    + apply emits_validateAndMapCourseCode.
    + intros flat. eapply emits_weaken; [|apply IH].
      cbn. intros s [j [Hj ->]]. exists j. split; [cbn; lia | reflexivity].
    + intros s ->. exists index. split; [cbn; lia | reflexivity].
Qed.

Lemma emits_validateAndMapCourse (entry : JSON) :
  emits (fun s => s = [] \/ exists j, s = [code_segment j])
        (validateAndMapCourse entry).
Proof.
  unfold validateAndMapCourse. destruct entry as [| | | |items|fields]; emit.
  eapply emits_weaken; [|apply emits_forEachCode].
  cbn. intros s [j [_ ->]]. right. eauto.
Qed.

Lemma emits_validateAndMapCourseList_from (entries : list JSON) :
  forall index,
    emits (fun s => exists i, index <= i < index + List.length entries
                              /\ (s = [entry_segment i]
                                  \/ exists j, s = [entry_segment i; code_segment j]))
          (validateAndMapCourseList_from entries index).
Proof.
  induction entries as [|entry rest IH]; intros index;
    cbn [validateAndMapCourseList_from].
  - apply emits_vret.
  - eapply emits_under.
    + apply emits_validateAndMapCourse.
    + intros m. apply emits_vbind; [|intros; apply emits_vret].
      eapply emits_weaken; [|apply IH].
      cbn. intros s [i [Hi Hs]]. exists i. split; [cbn; lia | exact Hs].
    + cbn. intros s Hs. exists index. split; [lia|].
      destruct Hs as [-> | [j ->]]; [left; reflexivity | right; eauto].
Qed.

(** X20: When [validate] rejects an array, it returns at least one error, and
    every error is at the path of an entry of the array, [[i]], or of an
    entry of its [course_codes], [[i].course_codes[j]]. *)
Theorem validation_errors_point_at_entries :
  forall (entries : list JSON) (es : list CoursesValidationError),
    validateCourses (JArray entries) = err es ->
    es <> []
    /\ Forall (fun e =>
                 exists i, i < List.length entries
                   /\ (path e = entry_segment i
                       \/ exists j,
                            path e = (entry_segment i ++ "." ++ code_segment j)%string))
              es.
Proof.
  intros entries es. unfold validateCourses, validate, validateAndMapCourseList.
  destruct (@emits_validateAndMapCourseList_from entries 0
              {| errors := []; currentPath := [] |}) as [_ [new [He Hall]]].
  destruct (validateAndMapCourseList_from entries 0 {| errors := []; currentPath := [] |})
    as [mapped st]. cbn [fst snd errors currentPath app] in *.
  destruct (errors st) as [|e0 es0] eqn:Ee; cbn; intros E; inversion E; subst es.
  split; [discriminate|]. rewrite He.
  eapply Forall_impl; [|exact Hall]. cbn.
  intros e [suffix [[i [Hi Hs]] Hpath]]. exists i. split; [lia|].
  destruct Hs as [-> | [j ->]]; cbn in Hpath; [left; exact Hpath | right; eauto].
Qed.

End ValidatorProperties.

(* ================================================================= *)
(** * Properties of the MQL validator *)

Section MQLValidatorProperties.
Context {strings : JsStrings}.
Import CourseValidator.
Import MQLValidator.
Local Open Scope validator_scope.

Lemma decides_vret : decides (vret tt) true.
Proof.
  split; [apply monotone_vret|]. split; [reflexivity | discriminate].
Qed.

Lemma decides_addError (msg : string) : decides (addError msg) false.
Proof.
  split; [apply monotone_addError|]. split; [discriminate|].
  intros _ st. apply addError_not_quiet.
Qed.

Lemma decides_eq (m : V unit) (b b' : bool) : decides m b -> b = b' -> decides m b'.
Proof. intros H <-. exact H. Qed.

Lemma decides_seq (m k : V unit) (b1 b2 : bool) :
  decides m b1 -> decides k b2 -> decides (m ;;; k) (b1 && b2).
Proof.
  intros [Hm [Tm Fm]] [Hk [Tk Fk]]. split; [|split].
  - apply monotone_vbind; [exact Hm | intros _; exact Hk].
  - intros Hb st. apply andb_prop in Hb. destruct Hb as [H1 H2].
    unfold vbind. rewrite (Tm H1 st). apply (Tk H2).
  - intros Hb st Hq.
    apply quiet_vbind in Hq; [|exact Hm | intros _; exact Hk].
    destruct Hq as [Q1 Q2]. destruct b1.
    + rewrite (Tm eq_refl st) in Q2. cbn in Hb, Q2. exact (Fk Hb st Q2).
    + exact (Fm eq_refl st Q1).
Qed.

Lemma decides_under (seg : string) (m : V unit) (b : bool) :
  decides m b -> decides (pushPath seg ;;; m ;;; popPath) b.
Proof.
  intros [Hm [Tm Fm]]. split; [|split].
  - apply monotone_vbind; [apply monotone_pushPath | intros _].
    apply monotone_vbind; [exact Hm | intros _; apply monotone_popPath].
  - intros Hb st. unfold vbind. cbn [pushPath]. rewrite (Tm Hb). unfold popPath. cbn [errors currentPath].
    rewrite removelast_last. destruct st; reflexivity.
  - intros Hb st Hq.
    apply quiet_vbind in Hq;
      [| apply monotone_pushPath
       | intros _; apply monotone_vbind; [exact Hm | intros _; apply monotone_popPath]].
    destruct Hq as [_ Hq]. cbn [fst snd pushPath] in Hq.
    apply quiet_vbind in Hq; [|exact Hm | intros _; apply monotone_popPath].
    destruct Hq as [Hq _]. exact (Fm Hb _ Hq).
Qed.

Lemma decides_monotone (m : V unit) (b : bool) : decides m b -> monotone m.
Proof. intros [H _]. exact H. Qed.

Lemma decides_quiet (m : V unit) (b : bool) (st : State) :
  decides m b -> quiet m st -> b = true /\ m st = (tt, st).
Proof.
  intros [_ [Tm Fm]] Hq. destruct b.
  - split; [reflexivity | apply Tm; reflexivity].
  - exfalso. exact (Fm eq_refl st Hq).
Qed.

(** ** Numbers *)

Lemma isU16_asU16 (value : option JSON) :
  isU16 value = match asU16 value with Some _ => true | None => false end.
Proof.
  unfold asU16. destruct value as [[| |[|q| |]| | |]|]; try reflexivity.
  destruct (isU16 (Some (JNumber (Finite q)))); reflexivity.
Qed.

Lemma U16_value (q : Q) :
  isU16 (Some (JNumber (Finite q))) = true ->
  exists k : Z, (0 <= k <= 65535)%Z /\ Qnum q = (k * Zpos (Qden q))%Z
                /\ Z.div (Qnum q) (Zpos (Qden q)) = k.
Proof.
  unfold isU16, isInteger, js_le. intros H.
  apply andb_prop in H. destruct H as [H H3]. apply andb_prop in H. destruct H as [H1 H2].
  apply Z.eqb_eq in H1. apply Qle_bool_iff in H2. apply Qle_bool_iff in H3.
  unfold Qle in H2, H3. cbn in H2, H3.
  destruct q as [a d]. cbn in *.
  assert (Ha : a = (Zpos d * (a / Zpos d))%Z).
  { pose proof (Z.div_mod a (Zpos d)). lia. }
  exists (a / Zpos d)%Z. split; [|split; [lia | reflexivity]].
  set (k := (a / Zpos d)%Z) in *. nia.
Qed.

Lemma asU16_Some (value : option JSON) (n : U16) :
  asU16 value = Some n ->
  exists q k, value = Some (JNumber (Finite q))
              /\ (0 <= k <= 65535)%Z /\ Qnum q = (k * Zpos (Qden q))%Z
              /\ n = Z.to_N k.
Proof.
  unfold asU16. destruct value as [[| |[|q| |]| | |]|]; try discriminate.
  destruct (isU16 (Some (JNumber (Finite q)))) eqn:E; [|discriminate].
  intros H. inversion H; subst. destruct (U16_value _ E) as [k [Hk [Hq Hd]]].
  exists q, k. rewrite Hd. auto.
Qed.

Lemma scaled_le (a b d e : Z) :
  (0 < d)%Z -> (0 < e)%Z -> ((a * d * e <= b * e * d)%Z <-> (a <= b)%Z).
Proof.
  intros Hd He. replace (a * d * e)%Z with (a * (d * e))%Z by ring.
  replace (b * e * d)%Z with (b * (d * e))%Z by ring.
  symmetry. apply Z.mul_le_mono_pos_r. apply Z.mul_pos_pos; assumption.
Qed.

Lemma U16_gt (a b : option JSON) (x y : U16) :
  asU16 a = Some x -> asU16 b = Some y ->
  js_gt (number_of a) (number_of b) = negb (x <=? y)%N.
Proof.
  intros Ha Hb.
  destruct (asU16_Some _ Ha) as [qa [ka [-> [Hka [Ea ->]]]]].
  destruct (asU16_Some _ Hb) as [qb [kb [-> [Hkb [Eb ->]]]]].
  cbn [number_of js_gt]. f_equal.
  destruct (Qle_bool qa qb) eqn:E.
  - apply Qle_bool_iff in E. unfold Qle in E. rewrite Ea, Eb in E.
    apply scaled_le in E; [|reflexivity|reflexivity].
    symmetry. apply N.leb_le. apply Z2N.inj_le; lia.
  - symmetry. apply N.leb_gt. apply Z2N.inj_lt; [lia | lia |].
    assert (~ (Qle qa qb)) as Hn by (rewrite <- Qle_bool_iff; congruence).
    unfold Qle in Hn. rewrite Ea, Eb in Hn.
    rewrite scaled_le in Hn; [lia|reflexivity|reflexivity].
Qed.

Lemma U16_zero (a : option JSON) (x : U16) :
  asU16 a = Some x ->
  strict_equal a (Some (JNumber (Finite 0))) = (x =? 0)%N.
Proof.
  intros Ha. destruct (asU16_Some _ Ha) as [qa [ka [-> [Hka [Ea ->]]]]].
  cbn [strict_equal]. unfold Qeq_bool. cbn. rewrite Ea.
  destruct (Z.eqb_spec (ka * Zpos (Qden qa) * 1) 0) as [E|E];
    symmetry; [apply N.eqb_eq | apply N.eqb_neq].
  - assert (ka = 0)%Z by nia. subst. reflexivity.
  - intros H. apply E. assert (ka = 0)%Z by lia. subst. reflexivity.
Qed.

(** ** The checks without recursion *)

Lemma decides_when (c : bool) (msg : string) :
  decides (if c then vret tt else addError msg) c.
Proof. destruct c; [apply decides_vret | apply decides_addError]. Qed.

Lemma decides_unless (c : bool) (msg : string) :
  decides (if c then addError msg else vret tt) (negb c).
Proof. destruct c; [apply decides_addError | apply decides_vret]. Qed.

Lemma decides_unless_both (c g : bool) (msg : string) :
  decides (if c then if g then addError msg else vret tt else vret tt) (negb (c && g)).
Proof. destruct c, g; first [apply decides_addError | apply decides_vret]. Qed.

Ltac pieces :=
  repeat first [ apply decides_vret | apply decides_addError
               | apply decides_when | apply decides_unless | apply decides_unless_both
               | apply decides_seq | apply decides_under ].

Ltac leaf :=
  cbn;
  first [ apply decides_vret | apply decides_addError
        | (eapply decides_eq; [pieces | cbn; try reflexivity ]) ].

Lemma decides_validateClass (cls : JSON) :
  decides (validateClass cls) (valid_as (asClass (Some cls)) class_ok).
Proof.
  destruct cls as [| | | |items|fields]; try solve [leaf].
  unfold validateClass, asClass, class_ok. rewrite isU16_asU16.
  destruct (asU16 (get "course_number" fields)) as [num|] eqn:En;
    destruct (get "course_number" fields) as [cn|]; try discriminate En;
    destruct (get "department_id" fields) as [[|?|?|d|?|?]|];
    destruct (get "lab" fields) as [[|l|?|?|?|?]|];
    try destruct (department_format d) eqn:Ed;
    solve [leaf; cbn; rewrite ?Ed; reflexivity].
Qed.

Lemma decides_validateTagCode (tagCode : JSON) :
  decides (validateTagCode tagCode)
          (valid_as (asStrings tagCode "tag" "code") (fun _ => true)).
Proof.
  destruct tagCode as [| | | |items|fields]; try solve [leaf].
  unfold validateTagCode, asStrings.
  destruct (get "tag" fields) as [[|?|?|t|?|?]|];
    destruct (get "code" fields) as [[|?|?|c|?|?]|];
    solve [leaf].
Qed.

Lemma decides_validateDistCode (distCode : JSON) :
  decides (validateDistCode distCode)
          (valid_as (asStrings distCode "dist" "code") (fun _ => true)).
Proof.
  destruct distCode as [| | | |items|fields]; try solve [leaf].
  unfold validateDistCode, asStrings.
  destruct (get "dist" fields) as [[|?|?|t|?|?]|];
    destruct (get "code" fields) as [[|?|?|c|?|?]|];
    solve [leaf].
Qed.

Lemma asClass_Some (value : option JSON) (c : Class) :
  asClass value = Some c ->
  exists fields,
    value = Some (JObject fields)
    /\ get "department_id" fields = Some (JString (department_id c))
    /\ asU16 (get "course_number" fields) = Some (course_number c)
    /\ get "lab" fields = Some (JBool (lab c)).
Proof.
  unfold asClass. destruct value as [[| | | | |fields]|]; try discriminate.
  destruct (get "department_id" fields) as [[|?|?|d|?|?]|] eqn:Ed; try discriminate.
  destruct (asU16 (get "course_number" fields)) as [n|] eqn:En; try discriminate.
  destruct (get "lab" fields) as [[|l|?|?|?|?]|] eqn:El; try discriminate.
  intros H. inversion H; subst. exists fields. cbn. repeat split; assumption.
Qed.

(** The ordering test of [validateRange] on two values that are classes. *)
Lemma range_ordering (from to : option JSON) (f t : Class) :
  asClass from = Some f -> asClass to = Some t ->
  isObject from && isObject to
  && strict_equal (property from "department_id") (property to "department_id")
  && isU16 (property from "course_number") && isU16 (property to "course_number")
  && js_gt (number_of (property from "course_number"))
           (number_of (property to "course_number"))
  = String.eqb (department_id f) (department_id t)
    && negb (course_number f <=? course_number t)%N.
Proof.
  intros Hf Ht.
  destruct (asClass_Some _ Hf) as [ff [-> [Df [Nf _]]]].
  destruct (asClass_Some _ Ht) as [ft [-> [Dt [Nt _]]]].
  cbn [isObject property andb]. rewrite Df, Dt. cbn [strict_equal].
  rewrite !isU16_asU16, Nf, Nt, (U16_gt _ _ Nf Nt).
  destruct (String.eqb (department_id f) (department_id t)); reflexivity.
Qed.

Lemma decides_validateRange (range : JSON) :
  decides (validateRange range) (valid_as (asRange range) range_pair_ok).
Proof.
  destruct range as [| | | |items|fields]; try solve [leaf].
  unfold validateRange, asRange.
  assert (Hguard : forall (a b c d e g : bool) (msg : string),
             decides (if a && b && c && d && e
                      then if g then addError msg else vret tt
                      else vret tt)
                     (negb (a && b && c && d && e && g)))
    by (intros; apply decides_unless_both).
  destruct (get "from" fields) as [from|] eqn:Efrom;
    destruct (get "to" fields) as [to|] eqn:Eto; cbn zeta.
  - eapply decides_eq.
    + apply decides_seq; [apply decides_under, decides_validateClass|].
      apply decides_seq; [apply decides_under, decides_validateClass|].
      apply Hguard.
    + destruct (asClass (Some from)) as [f|] eqn:Hf; [|reflexivity].
      destruct (asClass (Some to)) as [t|] eqn:Ht;
        [|cbn [valid_as]; rewrite andb_false_r; reflexivity].
      rewrite (range_ordering _ _ Hf Ht). cbn [valid_as].
      unfold range_pair_ok, range_ok. cbn [fst snd].
      destruct (class_ok f), (class_ok t),
        (String.eqb (department_id f) (department_id t)),
        (course_number f <=? course_number t)%N; reflexivity.
  - eapply decides_eq.
    + apply decides_seq; [apply decides_under, decides_validateClass|].
      apply decides_seq; [apply decides_addError|]. apply Hguard.
    + change (asClass None) with (@None Class).
      destruct (asClass (Some from)); cbn [valid_as andb]; rewrite ?andb_false_r;
        reflexivity.
  - eapply decides_eq.
    + apply decides_seq; [apply decides_addError|].
      apply decides_seq; [apply decides_under, decides_validateClass|]. apply Hguard.
    + reflexivity.
  - eapply decides_eq.
    + apply decides_seq; [apply decides_addError|].
      apply decides_seq; [apply decides_addError|]. apply Hguard.
    + reflexivity.
Qed.

Lemma decides_validateRangeDist (rangeDist : JSON) :
  decides (validateRangeDist rangeDist)
          (valid_as (asRange rangeDist) range_pair_ok
           && is_some (asString (property (Some rangeDist) "dist"))).
Proof.
  destruct rangeDist as [| | | |items|fields]; try solve [leaf].
  unfold validateRangeDist. cbn [property].
  apply decides_seq; [apply decides_validateRange|].
  destruct (get "dist" fields) as [[|?|?|t|?|?]|]; solve [leaf].
Qed.

Lemma decides_validateRangeTag (rangeTag : JSON) :
  decides (validateRangeTag rangeTag)
          (valid_as (asRange rangeTag) range_pair_ok
           && is_some (asString (property (Some rangeTag) "tag"))).
Proof.
  destruct rangeTag as [| | | |items|fields]; try solve [leaf].
  unfold validateRangeTag. cbn [property].
  apply decides_seq; [apply decides_validateRange|].
  destruct (get "tag" fields) as [[|?|?|t|?|?]|]; solve [leaf].
Qed.

Lemma decides_validateQuantity (quantity : JSON) :
  decides (validateQuantity quantity) (valid_as (asQuantity (Some quantity)) quantity_ok).
Proof.
  destruct quantity as [| | | |items|fields]; try solve [leaf].
  unfold validateQuantity, asQuantity.
  destruct (get "Single" fields) as [single|].
  - eapply decides_eq; [pieces|].
    rewrite isU16_asU16.
    destruct (asU16 (Some single)) as [k|] eqn:Ek;
      cbn [valid_as option_map quantity_ok andb].
    + rewrite (U16_zero _ Ek). reflexivity.
    + reflexivity.
  - destruct (get "Many" fields) as [[|?|?|?|?|many]|]; try solve [leaf].
    eapply decides_eq; [pieces|].
    rewrite !isU16_asU16.
    destruct (asU16 (get "from" many)) as [f|] eqn:Ef;
      destruct (asU16 (get "to" many)) as [t|] eqn:Et;
      cbn [valid_as quantity_ok andb negb]; try reflexivity.
    rewrite (U16_gt _ _ Ef Et). rewrite negb_involutive. reflexivity.
Qed.

(** ** Queries and selectors *)

Lemma field_get {A} (absent : A) (present : JSON -> A) (key : string)
    (fields : list (string * JSON)) :
  field absent present key fields
  = match get key fields with
    | Some v => present v
    | None => absent
    end.
Proof.
  induction fields as [|[k v] rest IH]; cbn [field get]; [reflexivity|].
  destruct (String.eqb k key); [reflexivity | exact IH].
Qed.

Lemma validateQuery_object (fields : list (string * JSON)) :
  validateQuery (JObject fields)
  = (match get "quantity" fields with
     | None => addError "Missing 'quantity' field"
     | Some quantity => pushPath "quantity" ;;; validateQuantity quantity ;;; popPath
     end ;;;
     match get "type" fields with
     | None => addError "Missing 'type' field"
     | Some type =>
         if isValidQueryType (Some type) then vret tt
         else addError ("Invalid query type: " ++ String_of_value type
                        ++ ". Must be 'Select' or 'Limit'")%string
     end ;;;
     match get "selector" fields with
     | None => addError "Missing 'selector' field"
     | Some (JArray selectors) =>
         pushPath "selector" ;;; validateSelectors selectors ;;; popPath
     | Some _ => addError "'selector' must be an array"
     end).
Proof.
  change (validateQuery (JObject fields))
    with (match get "quantity" fields with
          | None => addError "Missing 'quantity' field"
          | Some quantity => pushPath "quantity" ;;; validateQuantity quantity ;;; popPath
          end ;;;
          match get "type" fields with
          | None => addError "Missing 'type' field"
          | Some type =>
              if isValidQueryType (Some type) then vret tt
              else addError ("Invalid query type: " ++ String_of_value type
                             ++ ". Must be 'Select' or 'Limit'")%string
          end ;;;
          field (addError "Missing 'selector' field")
                (fun selector =>
                   match selector with
                   | JArray selectors =>
                       pushPath "selector" ;;;
                       validateSelectors_with validateSelector selectors ;;;
                       popPath
                   | _ => addError "'selector' must be an array"
                   end)
                "selector" fields).
  rewrite field_get. reflexivity.
Qed.

Lemma asQuery_object (fields : list (string * JSON)) :
  asQuery (JObject fields)
  = match asQuantity (get "quantity" fields), asQueryType (get "type" fields),
          match get "selector" fields with
          | Some (JArray selectors) => traverse asSelector selectors
          | _ => None
          end with
    | Some n, Some t, Some selectors => Some (Build_MQLQuery n t selectors)
    | _, _, _ => None
    end.
Proof.
  change (asQuery (JObject fields))
    with (match asQuantity (get "quantity" fields), asQueryType (get "type" fields),
                field None
                      (fun selector =>
                         match selector with
                         | JArray selectors => traverse asSelector selectors
                         | _ => None
                         end)
                      "selector" fields with
          | Some n, Some t, Some selectors => Some (Build_MQLQuery n t selectors)
          | _, _, _ => None
          end).
  rewrite field_get. destruct (get "selector" fields) as [[| | | | |]|]; reflexivity.
Qed.

Lemma query_ok_selectors (n : Quantity) (t : MQLQueryType) (sels : list Selector) :
  query_ok (Build_MQLQuery n t sels)
  = quantity_ok n && negb (is_nil sels) && forallb selector_ok sels.
Proof. reflexivity. Qed.

Lemma valid_as_traverse {T} (read : JSON -> option T) (okb : T -> bool) (items : list JSON) :
  valid_as (traverse read items) (forallb okb)
  = forallb (fun item => valid_as (read item) okb) items.
Proof.
  induction items as [|item rest IH]; cbn [traverse forallb valid_as]; [reflexivity|].
  rewrite <- IH. destruct (read item) as [x|]; [|reflexivity].
  destruct (traverse read rest) as [xs|]; cbn [valid_as forallb];
    [reflexivity | rewrite andb_false_r; reflexivity].
Qed.

Lemma traverse_nil {T} (read : JSON -> option T) (items : list JSON) (xs : list T) :
  traverse read items = Some xs -> is_nil xs = is_nil items.
Proof.
  destruct items as [|item rest]; cbn [traverse].
  - intros H. inversion H. reflexivity.
  - destruct (read item); [|discriminate]. destruct (traverse read rest); [|discriminate].
    intros H. inversion H. reflexivity.
Qed.

Lemma decides_forEach_from (callback : JSON -> nat -> V unit) (b : JSON -> bool)
    (items : list JSON) :
  Forall (fun item => forall index, decides (callback item index) (b item)) items ->
  forall index, decides (forEach_from callback items index) (forallb b items).
Proof.
  induction 1 as [|item rest Hitem _ IH]; intros index; cbn [forEach_from forallb].
  - apply decides_vret.
  - apply decides_seq; [apply Hitem | apply IH].
Qed.

Lemma isValidQueryType_asQueryType (type : option JSON) :
  isValidQueryType type = is_some (asQueryType type).
Proof.
  unfold isValidQueryType, asQueryType.
  destruct type as [[| |[| | |]|s| |]|]; try reflexivity. cbn [strict_equal].
  destruct (String.eqb s "Select"); [reflexivity|].
  destruct (String.eqb s "Limit"); reflexivity.
Qed.

Lemma get_Forall (P : JSON -> Prop) (key : string) (fields : list (string * JSON))
    (v : JSON) :
  Forall (fun kv => P (snd kv)) fields -> get key fields = Some v -> P v.
Proof.
  induction 1 as [|[k x] rest Hx _ IH]; cbn [get]; [discriminate|].
  destruct (String.eqb k key); [|exact IH]. intros E. inversion E; subst. exact Hx.
Qed.

Lemma decides_validateSelectors (selectors : list JSON) :
  Forall checked selectors ->
  decides (validateSelectors selectors)
          (negb (is_nil selectors)
           && forallb (fun s => valid_as (asSelector s) selector_ok) selectors).
Proof.
  intros Hall. unfold validateSelectors, validateSelectors_with, forEach.
  apply decides_seq.
  - destruct selectors; [apply decides_addError | apply decides_vret].
  - apply decides_forEach_from. eapply Forall_impl; [|exact Hall].
    intros s [_ Hs] index. apply decides_under. exact Hs.
Qed.

Lemma decides_query_object (fields : list (string * JSON)) :
  (forall selectors, get "selector" fields = Some (JArray selectors) ->
                     Forall checked selectors) ->
  decides (validateQuery (JObject fields)) (valid_as (asQuery (JObject fields)) query_ok).
Proof.
  intros IH. rewrite validateQuery_object, asQuery_object.
  eapply decides_eq.
  - apply decides_seq;
      [instantiate (1 := valid_as (asQuantity (get "quantity" fields)) quantity_ok)|].
    { destruct (get "quantity" fields) as [quantity|];
        [apply decides_under, decides_validateQuantity | apply decides_addError]. }
    apply decides_seq;
      [instantiate (1 := is_some (asQueryType (get "type" fields)))|].
    { destruct (get "type" fields) as [type|]; [|apply decides_addError].
      rewrite <- isValidQueryType_asQueryType. apply decides_when. }
    instantiate (1 := match get "selector" fields with
                      | Some (JArray selectors) =>
                          negb (is_nil selectors)
                          && forallb (fun s => valid_as (asSelector s) selector_ok)
                                     selectors
                      | _ => false
                      end).
    destruct (get "selector" fields) as [[| | | |selectors|]|];
      try apply decides_addError.
    apply decides_under, decides_validateSelectors, IH. reflexivity.
  - destruct (asQuantity (get "quantity" fields)) as [n|]; [|reflexivity].
    destruct (asQueryType (get "type" fields)) as [t|];
      [|cbn [valid_as is_some andb]; rewrite andb_false_r; reflexivity].
    cbn [is_some andb].
    destruct (get "selector" fields) as [[| | | |selectors|]|];
      try (cbn [valid_as]; rewrite andb_false_r; reflexivity).
    rewrite <- valid_as_traverse.
    destruct (traverse asSelector selectors) as [sels|] eqn:Et; cbn [valid_as].
    + rewrite query_ok_selectors, (traverse_nil _ _ Et), andb_assoc. reflexivity.
    + rewrite !andb_false_r. reflexivity.
Qed.

Lemma decides_selector_object (fields : list (string * JSON)) :
  Forall (fun kv => checked (snd kv)) fields ->
  decides (validateSelector (JObject fields))
          (valid_as (asSelector (JObject fields)) selector_ok).
Proof.
  intros IH. destruct fields as [|[key value] [|other rest]];
    [apply decides_addError | | apply decides_addError].
  inversion IH as [|kv l [Hquery _] _]; subst. cbn [snd] in Hquery.
  cbn [validateSelector asSelector].
  destruct (String.eqb key "Class").
  { eapply decides_eq; [apply decides_validateClass|].
    destruct (asClass (Some value)); reflexivity. }
  destruct (String.eqb key "Placement").
  { destruct value; solve [leaf]. }
  destruct (String.eqb key "Tag").
  { destruct value; solve [leaf]. }
  destruct (String.eqb key "TagCode").
  { eapply decides_eq; [apply decides_validateTagCode|].
    destruct (asStrings value "tag" "code"); reflexivity. }
  destruct (String.eqb key "Dist").
  { destruct value; solve [leaf]. }
  destruct (String.eqb key "DistCode").
  { eapply decides_eq; [apply decides_validateDistCode|].
    destruct (asStrings value "dist" "code"); reflexivity. }
  destruct (String.eqb key "Range").
  { eapply decides_eq; [apply decides_validateRange|].
    destruct (asRange value); reflexivity. }
  destruct (String.eqb key "RangeDist").
  { eapply decides_eq; [apply decides_validateRangeDist|].
    destruct (asRange value) as [p|]; [|reflexivity].
    destruct (asString (property (Some value) "dist")); cbn [valid_as is_some];
      [apply andb_true_r | apply andb_false_r]. }
  destruct (String.eqb key "RangeTag").
  { eapply decides_eq; [apply decides_validateRangeTag|].
    destruct (asRange value) as [p|]; [|reflexivity].
    destruct (asString (property (Some value) "tag")); cbn [valid_as is_some];
      [apply andb_true_r | apply andb_false_r]. }
  destruct (String.eqb key "Query").
  { eapply decides_eq; [apply decides_under, Hquery|].
    destruct (asQuery value); reflexivity. }
  apply decides_addError.
Qed.

(** On any value, [validateQuery] and [validateSelector] record no error
    and leave the state as it was exactly when the value reads as a query,
    or as a selector, that is in order. *)
Lemma checked_all (v : JSON) : checked v.
Proof.
  assert (H : checked v
              /\ match v with
                 | JArray items => Forall checked items
                 | _ => True
                 end).
  { induction v as [|b|n|s|items IHitems|fields IHfields] using JSON_nested_ind.
    - split; [split; apply decides_addError | exact I].
    - split; [split; apply decides_addError | exact I].
    - split; [split; apply decides_addError | exact I].
    - split; [split; apply decides_addError | exact I].
    - split; [split; apply decides_addError |].
      eapply Forall_impl; [|eassumption]. intros x [Hx _]. exact Hx.
    - split; [|exact I].
      assert (Hfields : Forall (fun kv => checked (snd kv)) fields).
      { eapply Forall_impl; [|eassumption]. intros kv [Hx _]. exact Hx. }
      split.
      + apply decides_query_object. intros selectors E.
        exact (proj2 (@get_Forall
                        (fun v => checked v
                                  /\ match v with
                                     | JArray items => Forall checked items
                                     | _ => True
                                     end) _ _ _ IHfields E)).
      + apply decides_selector_object, Hfields. }
  exact (proj1 H).
Qed.

Lemma decides_validateQuery (query : JSON) :
  decides (validateQuery query) (valid_as (asQuery query) query_ok).
Proof. exact (proj1 (checked_all query)). Qed.

Lemma decides_validateRequirement (req : JSON) :
  decides (validateRequirement req) (valid_as (asRequirement req) requirement_ok).
Proof.
  destruct req as [| | | |items|fields]; try solve [leaf].
  unfold validateRequirement, asRequirement. rewrite isU16_asU16.
  eapply decides_eq.
  - apply decides_seq;
      [instantiate (1 := match get "query" fields with
                         | Some query => valid_as (asQuery query) query_ok
                         | None => false
                         end)|].
    { destruct (get "query" fields) as [query|];
        [apply decides_under, decides_validateQuery | apply decides_addError]. }
    apply decides_seq;
      [instantiate (1 := match get "description" fields with
                         | Some (JString d) => negb (String.eqb (trim d) EmptyString)
                         | _ => false
                         end)|].
    { destruct (get "description" fields) as [[|?|?|d|?|?]|];
        try apply decides_addError. apply decides_unless. }
    instantiate (1 := is_some (asU16 (get "priority" fields))).
    destruct (asU16 (get "priority" fields)) as [p|] eqn:Ep;
      destruct (get "priority" fields) as [pr|]; try discriminate Ep;
      first [apply decides_vret | apply decides_addError].
  - destruct (get "query" fields) as [query|]; [|reflexivity].
    destruct (get "description" fields) as [[|?|?|d|?|?]|];
      cbn [asString valid_as andb]; rewrite ?andb_false_r; try reflexivity.
    destruct (asU16 (get "priority" fields)) as [p|];
      cbn [is_some valid_as]; rewrite ?andb_false_r; try reflexivity.
    rewrite andb_true_r.
    destruct (asQuery query) as [q|]; cbn [valid_as option_map]; reflexivity.
Qed.

(** ** The document *)

Lemma decides_ext (m m' : V unit) (b : bool) :
  (forall st, m st = m' st) -> decides m b -> decides m' b.
Proof.
  intros E [Hm [T F]]. split; [|split].
  - intros st. rewrite <- E. apply Hm.
  - intros Hb st. rewrite <- E. apply T, Hb.
  - intros Hb st Hq. apply (F Hb st). unfold quiet in *. rewrite E. exact Hq.
Qed.

Lemma decides_iff (m : V unit) (b : bool) (st : State) :
  decides m b -> (quiet m st <-> b = true).
Proof.
  intros H. split.
  - intros Hq. exact (proj1 (decides_quiet H Hq)).
  - intros Hb. destruct H as [_ [T _]]. unfold quiet. rewrite (T Hb). reflexivity.
Qed.

Lemma decides_validateRequirements (req : JSON) (rest : list JSON) :
  decides (validateRequirements (req :: rest))
          (forallb (fun r => valid_as (asRequirement r) requirement_ok) (req :: rest)).
Proof.
  unfold validateRequirements, forEach. apply decides_under.
  apply decides_forEach_from. apply Forall_forall. intros r _ index.
  apply decides_under, decides_validateRequirement.
Qed.

(** The check of [version] in [validateQueryFile]. *)
Lemma decides_version (data : list (string * JSON)) :
  decides match get "version" data with
          | None => addError "Missing 'version' field"
          | Some (JString version) =>
              if isValidVersion version then vret tt
              else addError ("Invalid version format: " ++ version)%string
          | Some _ => addError "'version' must be a string"
          end
          (valid_as (asString (get "version" data)) isValidVersion).
Proof.
  destruct (get "version" data) as [[|?|?|v|?|?]|]; try apply decides_addError.
  apply decides_when.
Qed.

Lemma file_ok_requirements (v : string) (reqs : list JSON) :
  valid_as (option_map (fun rs => {| file_version := v; requirements := rs |})
                       (traverse asRequirement reqs)) file_ok
  = isValidVersion v && forallb (fun r => valid_as (asRequirement r) requirement_ok) reqs.
Proof.
  rewrite <- valid_as_traverse.
  destruct (traverse asRequirement reqs) as [rs|]; cbn [option_map valid_as];
    [reflexivity | rewrite andb_false_r; reflexivity].
Qed.

(** [validateQueryFile] records no error exactly on the properties of a
    document that reads as an [MQLQueryFile] in order. *)
Lemma validateQueryFile_quiet (data : list (string * JSON)) (st : State) :
  quiet (validateQueryFile data) st
  <-> valid_as (asQueryFile (JObject data)) file_ok = true.
Proof.
  pose proof (decides_version data) as Hver.
  set (bver := valid_as (asString (get "version" data)) isValidVersion) in *.
  assert (Hbalanced : forall (reqpart : V unit) (b : bool),
             decides reqpart b ->
             forall st0, quiet (pushPath "root" ;;;
                                match get "version" data with
                                | None => addError "Missing 'version' field"
                                | Some (JString version) =>
                                    if isValidVersion version then vret tt
                                    else addError ("Invalid version format: "
                                                   ++ version)%string
                                | Some _ => addError "'version' must be a string"
                                end ;;;
                                reqpart ;;; popPath) st0
                         <-> bver && b = true).
  { intros reqpart b Hreq st0. apply decides_iff.
    eapply decides_ext; [|apply (decides_under "root" (decides_seq Hver Hreq))].
    intros st1. unfold vbind. cbn [pushPath].
    match goal with |- context [match ?v ?s with _ => _ end] => destruct (v s) end.
    reflexivity. }
  unfold validateQueryFile, asQueryFile.
  destruct (get "requirements" data) as [[| | | |reqs|]|] eqn:Er.
  1-4,6-7: rewrite (Hbalanced _ false (decides_addError _) st); fold bver;
    unfold asString; destruct (get "version" data) as [[|?|?|v|?|?]|];
    cbn [valid_as]; rewrite ?andb_false_r; tauto.
  destruct reqs as [|req rest].
  - (* the empty array: the path is left one segment longer *)
    assert (E : quiet (pushPath "root" ;;;
                       match get "version" data with
                       | None => addError "Missing 'version' field"
                       | Some (JString version) =>
                           if isValidVersion version then vret tt
                           else addError ("Invalid version format: " ++ version)%string
                       | Some _ => addError "'version' must be a string"
                       end ;;;
                       validateRequirements [] ;;; popPath) st
                <-> bver = true).
    { rewrite <- (decides_iff {| errors := errors st;
                                 currentPath := currentPath st ++ ["root"] |} Hver).
      unfold quiet, error_count, validateRequirements.
      rewrite !vbind_run. cbn [pushPath popPath vret fst snd errors]. reflexivity. }
    rewrite E. unfold bver, asString.
    destruct (get "version" data) as [[|?|?|v|?|?]|]; cbn [valid_as]; try tauto.
    rewrite file_ok_requirements. cbn [forallb]. rewrite andb_true_r. tauto.
  - rewrite (Hbalanced _ _ (decides_validateRequirements req rest) st).
    unfold bver, asString.
    destruct (get "version" data) as [[|?|?|v|?|?]|]; cbn [valid_as andb]; try tauto.
    rewrite file_ok_requirements. tauto.
Qed.

(** X21: [validate] accepts a document exactly when it reads as an
    [MQLQueryFile] of [mql.ts] that is in order: the version is three
    numbers between dots; every requirement has a description that is not
    blank; every query, nested ones included, has a quantity of one number
    that is not 0 or of two in order, and at least one selector; every
    class has a department of two to four capital letters; every range of
    one department is in order.  It then returns the document as it got
    it, and returns at least one error otherwise. *)
Theorem validateMQL_accepts_exactly :
  forall data : JSON,
    match validateMQL data with
    | ok d => d = data /\ valid_as (asQueryFile data) file_ok = true
    | err es => es <> [] /\ valid_as (asQueryFile data) file_ok = false
    end.
Proof.
  intros data. unfold validateMQL, validate.
  destruct data as [| | | | |fields];
    try (cbn; split; [discriminate | reflexivity]).
  pose proof (validateQueryFile_quiet fields {| errors := []; currentPath := [] |}) as H.
  unfold quiet, error_count in H. cbn [errors List.length] in H.
  destruct (validateQueryFile fields {| errors := []; currentPath := [] |}) as [u st].
  cbn [snd] in H. destruct (errors st) as [|e es]; cbn [fst List.length] in *.
  - split; [reflexivity | apply H; reflexivity].
  - split; [discriminate|].
    destruct (valid_as (asQueryFile (JObject fields)) file_ok); [|reflexivity].
    destruct H as [_ H]. specialize (H eq_refl). discriminate.
Qed.

(** ** Where the errors point, and what is left of the path *)

Lemma emits_ext (P : list string -> Prop) (m m' : V unit) :
  (forall st, m st = m' st) -> emits P m -> emits P m'.
Proof. intros E H st. rewrite <- E. apply H. Qed.

Lemma emits_under_last (P Q : list string -> Prop) (seg : string) (m : V unit) :
  emits P m -> (forall s, P s -> Q (seg :: s)) ->
  emits Q (pushPath seg ;;; m ;;; popPath).
Proof.
  intros Hm HPQ.
  apply emits_ext with (m := pushPath seg ;;; (a <- m ;; (popPath ;;; vret a))).
  - intros st. unfold vbind. cbn [pushPath].
    match goal with |- context [m ?s] => destruct (m s) as [[] s1] end. reflexivity.
  - eapply emits_under; [exact Hm | intros; apply emits_vret | exact HPQ].
Qed.

Ltac emit_anywhere :=
  intros;
  repeat first
    [ apply emits_vret
    | (apply emits_addError; exact I)
    | (apply emits_under_last; [|intros; exact I])
    | (apply emits_vbind; [|intros ?])
    | match goal with
      | |- emits _ (match ?x with _ => _ end) => destruct x
      | |- emits _ (if ?x then _ else _) => destruct x
      end ].

Lemma emits_validateClass (cls : JSON) : emits anywhere (validateClass cls).
Proof. unfold validateClass. emit_anywhere. Qed.

Lemma emits_validateTagCode (v : JSON) : emits anywhere (validateTagCode v).
Proof. unfold validateTagCode. emit_anywhere. Qed.

Lemma emits_validateDistCode (v : JSON) : emits anywhere (validateDistCode v).
Proof. unfold validateDistCode. emit_anywhere. Qed.

Lemma emits_validateRange (v : JSON) : emits anywhere (validateRange v).
Proof.
  unfold validateRange. destruct v; try (apply emits_addError; exact I).
  apply emits_vbind; [|intros _; apply emits_vbind; [|intros _]].
  - destruct (get "from" fields); [|apply emits_addError; exact I].
    apply emits_under_last with (P := anywhere); [apply emits_validateClass|].
    intros; exact I.
  - destruct (get "to" fields); [|apply emits_addError; exact I].
    apply emits_under_last with (P := anywhere); [apply emits_validateClass|].
    intros; exact I.
  - cbv zeta. emit_anywhere.
Qed.

Lemma emits_validateRangeDist (v : JSON) : emits anywhere (validateRangeDist v).
Proof.
  unfold validateRangeDist. destruct v; try (apply emits_addError; exact I).
  apply emits_vbind; [apply emits_validateRange | intros _; emit_anywhere].
Qed.

Lemma emits_validateRangeTag (v : JSON) : emits anywhere (validateRangeTag v).
Proof.
  unfold validateRangeTag. destruct v; try (apply emits_addError; exact I).
  apply emits_vbind; [apply emits_validateRange | intros _; emit_anywhere].
Qed.

Lemma emits_validateQuantity (v : JSON) : emits anywhere (validateQuantity v).
Proof. unfold validateQuantity. emit_anywhere. Qed.

Lemma emits_forEach_from (Q : nat -> list string -> Prop)
    (callback : JSON -> nat -> V unit) (items : list JSON) :
  Forall (fun item => forall index, emits (Q index) (callback item index)) items ->
  forall index,
    emits (fun s => exists i, index <= i < index + List.length items /\ Q i s)
          (forEach_from callback items index).
Proof.
  induction 1 as [|item rest Hitem _ IH]; intros index; cbn [forEach_from].
  - apply emits_vret.
  - apply emits_vbind.
    + eapply emits_weaken; [|apply Hitem]. cbn. intros s Hs. exists index.
      split; [lia | exact Hs].
    + intros _. eapply emits_weaken; [|apply IH]. cbn. intros s [i [Hi Hs]].
      exists i. split; [lia | exact Hs].
Qed.

Lemma emits_everywhere (v : JSON) :
  emits anywhere (validateQuery v) /\ emits anywhere (validateSelector v).
Proof.
  assert (H : (emits anywhere (validateQuery v) /\ emits anywhere (validateSelector v))
              /\ match v with
                 | JArray items =>
                     Forall (fun x => emits anywhere (validateSelector x)) items
                 | _ => True
                 end).
  { induction v as [|b|n|s|items IHitems|fields IHfields] using JSON_nested_ind.
    - split; [split; apply emits_addError; exact I | exact I].
    - split; [split; apply emits_addError; exact I | exact I].
    - split; [split; apply emits_addError; exact I | exact I].
    - split; [split; apply emits_addError; exact I | exact I].
    - split; [split; apply emits_addError; exact I |].
      eapply Forall_impl; [|exact IHitems]. intros x [[_ Hx] _]. exact Hx.
    - split; [|exact I]. split.
      + rewrite validateQuery_object.
        apply emits_vbind; [|intros _; apply emits_vbind; [|intros _]].
        * destruct (get "quantity" fields); [|apply emits_addError; exact I].
          apply emits_under_last with (P := anywhere);
            [apply emits_validateQuantity | intros; exact I].
        * emit_anywhere.
        * destruct (get "selector" fields) as [[| | | |selectors|]|] eqn:E;
            try (apply emits_addError; exact I).
          pose proof (proj2 (@get_Forall
                        (fun v => (emits anywhere (validateQuery v)
                                   /\ emits anywhere (validateSelector v))
                                  /\ match v with
                                     | JArray items =>
                                         Forall (fun x => emits anywhere
                                                            (validateSelector x)) items
                                     | _ => True
                                     end) _ _ _ IHfields E)) as Hsel.
          cbn in Hsel.
          apply emits_under_last with (P := anywhere); [|intros; exact I].
          unfold validateSelectors, validateSelectors_with, forEach.
          apply emits_vbind; [emit_anywhere | intros _].
          eapply emits_weaken;
            [|apply emits_forEach_from with (Q := fun _ => anywhere)].
          { intros; exact I. }
          eapply Forall_impl; [|exact Hsel]. intros x Hx index.
          apply emits_under_last with (P := anywhere); [exact Hx | intros; exact I].
      + destruct fields as [|[key value] [|other rest]];
          [apply emits_addError; exact I | | apply emits_addError; exact I].
        inversion IHfields as [|kv l [[Hquery _] _] _]; subst. cbn [snd] in Hquery.
        cbn [validateSelector].
        repeat match goal with
               | |- emits _ (if ?c then _ else _) => destruct c
               end;
          first [ apply emits_validateClass | apply emits_validateTagCode
                | apply emits_validateDistCode | apply emits_validateRange
                | apply emits_validateRangeDist | apply emits_validateRangeTag
                | (apply emits_under_last with (P := anywhere);
                   [exact Hquery | intros; exact I])
                | emit_anywhere ]. }
  exact (proj1 H).
Qed.

Lemma emits_validateRequirement (req : JSON) : emits anywhere (validateRequirement req).
Proof.
  unfold validateRequirement. destruct req; try (apply emits_addError; exact I).
  apply emits_vbind; [|intros _; emit_anywhere].
  destruct (get "query" fields); [|apply emits_addError; exact I].
  apply emits_under_last with (P := anywhere); [|intros; exact I].
  apply emits_everywhere.
Qed.

Lemma emits_validateRequirements (req : JSON) (rest : list JSON) :
  emits (at_requirement (req :: rest)) (validateRequirements (req :: rest)).
Proof.
  unfold validateRequirements, forEach.
  eapply emits_under_last;
    [apply emits_forEach_from
       with (Q := fun i s => exists more, s = entry_segment i :: more)|].
  - apply Forall_forall. intros r _ index.
    apply emits_under_last with (P := anywhere);
      [apply emits_validateRequirement | intros s _; exists s; reflexivity].
  - cbn. intros s [i [Hi [more ->]]]. right. exists i, more.
    split; [reflexivity | cbn in *; lia].
Qed.

Lemma emits_version (data : list (string * JSON)) :
  emits (fun s => s = [])
        match get "version" data with
        | None => addError "Missing 'version' field"
        | Some (JString version) =>
            if isValidVersion version then vret tt
            else addError ("Invalid version format: " ++ version)%string
        | Some _ => addError "'version' must be a string"
        end.
Proof.
  destruct (get "version" data) as [[|?|?|v|?|?]|];
    try (apply emits_addError; reflexivity).
  destruct (isValidVersion v); [apply emits_vret | apply emits_addError; reflexivity].
Qed.

(** What a run of [validateQueryFile] leaves: the errors it adds are at
    [root] or under the path of a requirement, and the path is as it was,
    or one segment longer after an empty [requirements]. *)
Lemma validateQueryFile_reports (data : list (string * JSON)) (st : State) :
  currentPath (snd (validateQueryFile data st))
  = currentPath st ++ match get "requirements" data with
                      | Some (JArray []) => ["root"]
                      | _ => []
                      end
  /\ exists new,
       errors (snd (validateQueryFile data st)) = errors st ++ new
       /\ Forall (fun e => exists suffix,
                     at_requirement (requirements_of (JObject data)) suffix
                     /\ path e = String.concat "." (currentPath st ++ "root" :: suffix))
                 new.
Proof.
  pose proof (emits_version data) as Hver. unfold validateQueryFile.
  match type of Hver with emits _ ?m => set (ver := m) in * end.
  assert (Hfrom : forall reqpart : V unit,
             emits (at_requirement (requirements_of (JObject data))) reqpart ->
             currentPath (snd ((pushPath "root" ;;; ver ;;; reqpart ;;; popPath) st))
             = currentPath st ++ []
             /\ exists new,
                  errors (snd ((pushPath "root" ;;; ver ;;; reqpart ;;; popPath) st))
                  = errors st ++ new
                  /\ Forall (fun e => exists suffix,
                     at_requirement (requirements_of (JObject data)) suffix
                     /\ path e = String.concat "." (currentPath st ++ "root" :: suffix))
                 new).
  { intros reqpart Hreq.
    assert (Hb : emits (fun s => exists suffix,
                              at_requirement (requirements_of (JObject data)) suffix
                              /\ s = "root" :: suffix)
                       (pushPath "root" ;;; ver ;;; reqpart ;;; popPath)).
    { apply emits_ext with (m := pushPath "root" ;;; (ver ;;; reqpart) ;;; popPath).
      - intros st1. unfold vbind. cbn [pushPath].
        match goal with |- context [ver ?s] => destruct (ver s) end.
        reflexivity.
      - apply emits_under_last with (P := at_requirement (requirements_of (JObject data))).
        + apply emits_vbind; [|intros _; exact Hreq].
          eapply emits_weaken; [|exact Hver]. intros s ->. left. reflexivity.
        + intros s Hs. exists s. auto. }
    destruct (Hb st) as [Hp [new [He Hall]]].
    rewrite app_nil_r. split; [exact Hp|]. exists new. split; [exact He|].
    eapply Forall_impl; [|exact Hall]. cbn. intros e [s [[suffix [Hs ->]] Hpath]]. eauto. }
  unfold requirements_of, requirements_field in *. cbn [property] in *.
  destruct (get "requirements" data) as [[| | | |reqs|]|] eqn:Er.
  1-4,6-7: apply Hfrom; apply emits_addError; left; reflexivity.
  destruct reqs as [|req rest].
  - (* the empty array *)
    destruct (Hver {| errors := errors st; currentPath := currentPath st ++ ["root"] |})
      as [Hp [new [He Hall]]].
    unfold validateRequirements. rewrite !vbind_run.
    cbn [pushPath popPath vret fst snd errors currentPath] in *.
    rewrite removelast_last, Hp. split; [reflexivity|].
    exists new. split; [exact He|].
    eapply Forall_impl; [|exact Hall]. cbn. intros e [s [-> Hpath]].
    exists []. split; [left; reflexivity|]. rewrite Hpath. rewrite app_nil_r.
    reflexivity.
  - apply Hfrom. apply emits_validateRequirements.
Qed.

Lemma validateMQL_ok (data d : JSON) :
  validateMQL data = ok d -> d = data /\ valid_as (asQueryFile data) file_ok = true.
Proof.
  unfold validateMQL, validate. destruct data as [| | | | |fields]; try discriminate.
  pose proof (validateQueryFile_quiet fields {| errors := []; currentPath := [] |}) as H.
  unfold quiet, error_count in H. cbn [errors List.length] in H.
  destruct (validateQueryFile fields {| errors := []; currentPath := [] |}) as [u st].
  cbn [snd] in H. destruct (errors st) as [|e es]; cbn [fst]; [|discriminate].
  intros E. inversion E; subst. split; [reflexivity | apply H; reflexivity].
Qed.

(** X22: When [validate] rejects a document, every error is at [root], or
    under [root.requirements.[i]] for a requirement [i] of the document:
    the segments are joined with dots, the index of an array being a
    segment of its own. *)
Theorem validateMQL_error_paths :
  forall (data : JSON) (es : list MQLValidationError),
    validateMQL data = err es ->
    Forall (fun e => exists suffix,
                path e = String.concat "." ("root" :: suffix)
                /\ at_requirement (requirements_of data) suffix)
           es.
Proof.
  intros data es. unfold validateMQL, validate.
  destruct data as [| | | | |fields];
    try (cbn; intros E; inversion E; subst; constructor; [|constructor];
         exists []; split; [reflexivity | left; reflexivity]).
  destruct (validateQueryFile_reports fields {| errors := []; currentPath := [] |})
    as [_ [new [He Hall]]].
  destruct (validateQueryFile fields {| errors := []; currentPath := [] |}) as [u st].
  cbn [fst snd errors currentPath app] in *.
  destruct (errors st) as [|e0 es0]; intros E; inversion E; subst es.
  rewrite He. eapply Forall_impl; [|exact Hall]. cbn.
  intros e [suffix [Hs Hpath]]. exists suffix. split; [exact Hpath | exact Hs].
Qed.

(** X23: [validate] leaves the path empty, but for a document whose
    [requirements] is an empty array, after which [root] stays on it; the
    next call starts from an empty path all the same, and returns what a
    new validator would. *)
Theorem validate_leaves_root_on_the_path :
  forall (data : JSON) (st : State),
    currentPath (snd (validate data st))
    = match requirements_field data with
      | Some (JArray []) => ["root"]
      | _ => []
      end
    /\ forall data', fst (validate data' (snd (validate data st))) = validateMQL data'.
Proof.
  intros data st. split; [|reflexivity].
  unfold validate, requirements_field.
  destruct data as [| | | | |fields]; try reflexivity.
  destruct (validateQueryFile_reports fields {| errors := []; currentPath := [] |})
    as [Hp _].
  destruct (validateQueryFile fields {| errors := []; currentPath := [] |}) as [u st1].
  cbn [snd currentPath app] in Hp.
  destruct (errors st1); cbn [snd]; exact Hp.
Qed.

End MQLValidatorProperties.

(* ================================================================= *)
(** * Properties of the deprecated course validator *)

Section DeprecatedValidatorProperties.
Import CourseValidator.
Import DeprecatedCourseValidator.
Local Open Scope validator_scope.

Lemma decides_validateCourse (course : JSON) :
  decides (validateCourse course) (valid_as (asPlainCourse course) plain_course_ok).
Proof.
  destruct course as [| | | |items|fields]; try apply decides_addError.
  unfold validateCourse, asPlainCourse, isStringArray.
  assert (Hstrings : forall (value : option JSON) (missing wrong : string),
             decides match value with
                     | None => addError missing
                     | Some _ =>
                         if match strings_of value with
                            | Some _ => true
                            | None => false
                            end
                         then vret tt else addError wrong
                     end
                     (is_some (strings_of value))).
  { intros value missing wrong. destruct value as [v|]; [|apply decides_addError].
    destruct (strings_of (Some v)); [apply decides_vret | apply decides_addError]. }
  eapply decides_eq.
  - apply decides_seq;
      [instantiate (1 := match strings_of (get "codes" fields) with
                         | Some (_ :: _) => true
                         | _ => false
                         end)|].
    { destruct (get "codes" fields) as [codes|]; [|apply decides_addError].
      destruct (strings_of (Some codes)) as [[|c cs]|];
        first [apply decides_vret | apply decides_addError]. }
    apply decides_seq;
      [instantiate (1 := is_some (asString (get "title" fields)))|].
    { destruct (get "title" fields) as [[|?|?|t|?|?]|];
        first [apply decides_vret | apply decides_addError]. }
    apply decides_seq;
      [instantiate (1 := match get "credit" fields with
                         | Some (JNumber n) => negb (js_lt n (Finite 0))
                         | _ => false
                         end)|].
    { destruct (get "credit" fields) as [[|?|n|?|?|?]|]; try apply decides_addError.
      apply decides_unless. }
    apply decides_seq;
      [instantiate (1 := match get "dist" fields, strings_of (get "dist" fields) with
                         | Some _, None => false
                         | _, _ => true
                         end)|].
    { destruct (get "dist" fields) as [ds|]; [|apply decides_vret].
      destruct (strings_of (Some ds)); [apply decides_vret | apply decides_addError]. }
    apply decides_seq; apply Hstrings.
  - destruct (strings_of (get "codes" fields)) as [[|c cs]|];
      destruct (get "credit" fields) as [[|?|credit|?|?|?]|];
      destruct (get "title" fields) as [[|?|?|t|?|?]|];
      destruct (strings_of (get "seasons" fields)) as [ss|];
      destruct (strings_of (get "season_codes" fields)) as [scs|];
      (destruct (get "dist" fields) as [ds|]; [destruct (strings_of (Some ds))|]);
      cbn [valid_as plain_course_ok plain_codes plain_credit is_nil negb andb
           asString is_some];
      rewrite ?andb_false_r, ?andb_true_r; reflexivity.
Qed.

Lemma decides_validateCourseList (entries : list JSON) :
  decides (validateCourseList entries)
          (forallb (fun entry => valid_as (asPlainCourse entry) plain_course_ok) entries).
Proof.
  unfold validateCourseList, forEach. apply decides_forEach_from.
  apply Forall_forall. intros entry _ index. apply decides_under, decides_validateCourse.
Qed.

Lemma emits_validateCourse (course : JSON) :
  emits (fun s => s = []) (validateCourse course).
Proof.
  unfold validateCourse.
  destruct course; try (apply emits_addError; reflexivity).
  repeat first
    [ apply emits_vret
    | (apply emits_addError; reflexivity)
    | (apply emits_vbind; [|intros ?])
    | match goal with
      | |- emits _ (match ?x with _ => _ end) => destruct x
      | |- emits _ (if ?x then _ else _) => destruct x
      end ].
Qed.

(** X26: The deprecated validator accepts an array exactly when every entry
    reads as a course of the first schema (string arrays [codes],
    [seasons] and [season_codes], a string [title], a number [credit], and
    no [dist] or a string array), with at least one code and a credit that
    is not negative.  It then returns the array as it got it, and at
    least one error otherwise, each at the path [[i]] of an entry, or at
    [root] for a value that is no array. *)
Theorem deprecated_validator_accepts_exactly :
  forall data : JSON,
    match validateCourses data with
    | ok d => d = data /\ plain_catalog_ok data = true
    | err es =>
        es <> []
        /\ plain_catalog_ok data = false
        /\ Forall (fun e => path e = "root"
                            \/ exists i, i < List.length (entries_of data)
                                         /\ path e = entry_segment i) es
    end.
Proof.
  intros data. unfold validateCourses, validate.
  destruct data as [| | | |entries|];
    try (cbn; split; [discriminate | split; [reflexivity|]];
         constructor; [left; reflexivity | constructor]).
  pose proof (decides_iff {| errors := []; currentPath := [] |}
                (decides_validateCourseList entries)) as H.
  assert (Hemit : emits (fun s => exists i, 0 <= i < 0 + List.length entries
                                            /\ s = [entry_segment i])
                        (validateCourseList entries)).
  { unfold validateCourseList, forEach.
    apply emits_forEach_from with (Q := fun i s => s = [entry_segment i]).
    apply Forall_forall. intros entry _ index.
    apply emits_under_last with (P := fun s => s = []);
      [apply emits_validateCourse | intros s ->; reflexivity]. }
  destruct (Hemit {| errors := []; currentPath := [] |}) as [_ [new [He Hall]]].
  unfold quiet, error_count in H. cbn [errors List.length] in H.
  destruct (validateCourseList entries {| errors := []; currentPath := [] |}) as [u st].
  cbn [snd errors currentPath app plain_catalog_ok entries_of] in *.
  destruct (errors st) as [|e es]; cbn [fst List.length] in *.
  - split; [reflexivity | apply H; reflexivity].
  - split; [discriminate|]. split.
    + destruct (forallb _ entries); [|reflexivity].
      destruct H as [_ H]. specialize (H eq_refl). discriminate.
    + rewrite He. eapply Forall_impl; [|exact Hall]. cbn.
      intros e' [s [[i [Hi ->]] Hpath]]. right. exists i. split; [lia|].
      rewrite Hpath. reflexivity.
Qed.

End DeprecatedValidatorProperties.

(* ================================================================= *)
(** * The validator and the engine together *)

Section ValidatedDocuments.
Context {rt : JsRuntime} {strings : JsStrings}.

Lemma query_ok_nonempty (q : MQLQuery) :
  query_ok q = true -> nonempty_selectors q = true.
Proof.
  induction q as [qn ty sels Hsels] using MQLQuery_nested_ind.
  cbn [query_ok nonempty_selectors]. intros H.
  apply andb_prop in H. destruct H as [H Hall]. apply andb_prop in H. destruct H as [_ Hne].
  rewrite Hne. cbn [andb]. rewrite forallb_forall in *. intros s Hs.
  specialize (Hall s Hs). rewrite Forall_forall in Hsels. specialize (Hsels s Hs).
  destruct s; try reflexivity. exact (Hsels Hall).
Qed.

Lemma Set_addAll_nonempty (acc : JsSet) (data : list Element) :
  acc <> [] \/ data <> [] -> Set_addAll acc data <> [].
Proof.
  intros H E.
  assert (Hid : forall r, In r (map identity acc) \/ In r (map identity data) -> False).
  { intros r Hr. apply (Set_addAll_identities data acc r) in Hr. rewrite E in Hr.
    exact Hr. }
  destruct H as [H | H].
  - destruct acc as [|x acc]; [contradiction|]. apply (Hid (identity x)). left. left.
    reflexivity.
  - destruct data as [|x data]; [contradiction|]. apply (Hid (identity x)). right. left.
    reflexivity.
Qed.

(** What flatten mode returns for a query without an empty selector list
    is not empty, and holds no empty list. *)
Lemma flatten_nonempty (courseList : Catalog) (q : MQLQuery) :
  nonempty_selectors q = true ->
  forall w w' data,
    QueryMatcher.match_ courseList q false w = (ok data, w') ->
    data <> [] /\ Forall (fun x => no_empty_list x = true) data.
Proof.
  induction q as [qn ty sels Hsels] using MQLQuery_nested_ind.
  intros Hne w w' data. rewrite match_flatten.
  unfold QueryMatcher.matchFlatten, QueryMatcher.matchFlatten_. cbn [selector].
  cbn [nonempty_selectors] in Hne. apply andb_prop in Hne. destruct Hne as [Hnil Hall].
  assert (Hloop : forall (mql : MQLQuery) (l : list Selector) (acc : JsSet) (w0 : World),
             Forall (fun s => match s with
                              | SQuery q' =>
                                  nonempty_selectors q' = true ->
                                  forall w w' data,
                                    QueryMatcher.match_ courseList q' false w
                                    = (ok data, w') ->
                                    data <> []
                                    /\ Forall (fun x => no_empty_list x = true) data
                              | _ => True
                              end) l ->
             forallb (fun s => match s with
                               | SQuery q' => nonempty_selectors q'
                               | _ => true
                               end) l = true ->
             Forall (fun x => no_empty_list x = true) acc ->
             QueryMatcher.flattenLoop QueryMatcher.match_ courseList mql l acc w0
             = (ok data, w') ->
             Forall (fun x => no_empty_list x = true) data
             /\ (acc <> [] \/ l <> [] -> data <> [])).
  { intros mql l. induction l as [|s rest IH]; intros acc w0 Hn Hf Hacc Hrun.
    - cbn in Hrun. inversion Hrun; subst. split; [exact Hacc|].
      intros [H | H]; [exact H | contradiction].
    - rewrite flattenLoop_cons in Hrun.
      inversion Hn as [|? ? Hs Hrest]; subst.
      cbn [forallb] in Hf. apply andb_prop in Hf. destruct Hf as [Hfs Hfrest].
      destruct (evalSelector courseList mql s w0) as [[d|e] w1] eqn:E; [|discriminate].
      pose proof (evalSelector_nonempty _ _ _ _ E) as Hd.
      assert (Hgood : Forall (fun x => no_empty_list x = true) d).
      { destruct (catalog_selector s) eqn:Hkind.
        - apply Forall_forall. intros x Hx.
          destruct (@evalSelector_catalog_elements rt courseList mql s w0 w1 d Hkind E x Hx)
            as [e0 [-> _]]. reflexivity.
        - destruct s; try discriminate.
          + cbn in E. inversion E; subst. constructor; [reflexivity | constructor].
          + rewrite evalSelector_Query in E.
            destruct (QueryMatcher.matchFlatten courseList q w0) as [[d0|e0] w2] eqn:Eq;
              inversion E; subst.
            rewrite <- match_flatten in Eq.
            destruct (Hs Hfs _ _ _ Eq) as [Hne0 Hall0].
            constructor; [|constructor]. cbn [no_empty_list].
            apply andb_true_intro. split.
            * destruct d0; [contradiction | reflexivity].
            * apply forallb_forall. rewrite Forall_forall in Hall0. exact Hall0. }
      destruct (IH (Set_addAll acc d) w1 Hrest Hfrest) as [Hdata Hne'].
      + apply Forall_forall. intros x Hx. apply Set_addAll_In in Hx.
        rewrite Forall_forall in Hacc, Hgood. destruct Hx; auto.
      + exact Hrun.
      + split; [exact Hdata|]. intros _. apply Hne'. left.
        apply Set_addAll_nonempty. right. exact Hd. }
  intros Hrun.
  destruct (Hloop (Build_MQLQuery qn ty sels) sels [] w Hsels Hall (Forall_nil _) Hrun)
    as [Hgood Hne].
  split; [|exact Hgood]. apply Hne. right.
  destruct sels; [discriminate | discriminate].
Qed.

(** X24: On a document that the validator accepted, a requirement that is
    matched selects at least one object, and every nested list in what it
    selects holds at least one: the success with nothing selected, which
    the engine has for an empty selector list, is not met. *)
Theorem validated_requirements_select_something :
  forall (data d : JSON) (mql : MQLQueryFile) (courseList : Catalog) (w w' : World)
         (r : MatchingEvaluationResult),
    MQLValidator.validateMQL data = ok d ->
    asQueryFile d = Some mql ->
    matchCourses courseList mql w = (ok r, w') ->
    forall qr, In qr (results r) ->
      selectedCourses qr <> []
      /\ Forall (fun x => no_empty_list x = true) (selectedCourses qr).
Proof.
  intros data d mql courseList w w' r Hval Hread Hrun qr Hin.
  destruct (validateMQL_ok _ Hval) as [-> Hok].
  rewrite Hread in Hok. cbn [valid_as] in Hok. unfold file_ok in Hok.
  apply andb_prop in Hok. destruct Hok as [_ Hreqs]. rewrite forallb_forall in Hreqs.
  destruct (matchCourses_ok_parts _ _ _ Hrun) as [_ Hparts].
  destruct (Hparts qr Hin) as [Hreq [wa [wb Hq]]].
  specialize (Hreqs _ Hreq). unfold requirement_ok in Hreqs.
  apply andb_prop in Hreqs. destruct Hreqs as [Hquery _].
  exact (@flatten_nonempty courseList _ (query_ok_nonempty _ Hquery) _ _ _ Hq).
Qed.

End ValidatedDocuments.

(* ================================================================= *)
(** * The properties on the sample inputs *)

Section OnSamples.
Local Existing Instance ascii_runtime.

(** C2, as worded, fails: the course listed as MATH 101 and CS 201 is
    matched by DistCode(qr, CS), although its first code is of MATH. *)
Lemma first_code_selection_refuted :
  ~ first_code_selection [cross_listed] (sample_query [SDistCode "qr" "CS"])
      "qr" "core" "CS" fresh_world.
Proof.
  unfold first_code_selection. intros [H _].
  assert (E : result_of (evalSelector [cross_listed] (sample_query [SDistCode "qr" "CS"])
                           (SDistCode "qr" "CS")) fresh_world
              = ok [FromCatalog cross_listed]) by reflexivity.
  rewrite E in H. destruct H as [_ [keep [Hdata Hkeep]]].
  assert (Hk : keep cross_listed = true).
  { cbn in Hdata. destruct (keep cross_listed); [reflexivity | discriminate]. }
  apply Hkeep in Hk. destruct Hk as [c [Hc [Hfirst _]]].
  inversion Hc; subst c. cbv in Hfirst. discriminate.
Qed.

(** C3, as worded, fails: the course with the codes CS201 and CS 201 is
    not matched by Range(CS 100, CS 299), and the selector fails, although
    its second code is in range. *)
Lemma any_code_selection_refuted :
  ~ any_code_selection [odd_code_first] (sample_query [SRange (CS 100) (CS 299)])
      (CS 100) (CS 299) fresh_world.
Proof.
  unfold any_code_selection. intros H. specialize (H eq_refl).
  assert (E : exists e,
             result_of (evalSelector [odd_code_first]
                          (sample_query [SRange (CS 100) (CS 299)])
                          (SRange (CS 100) (CS 299))) fresh_world = err e)
    by (eexists; reflexivity).
  destruct E as [e E]. rewrite E in H. cbn in H.
  apply (H odd_code_first _ (or_introl eq_refl) eq_refl).
  exists "CS 201". split; [right; left; reflexivity|].
  exists "CS", "201". repeat split.
Qed.

(** C4, as worded, fails: with a Placement selector the second invocation
    returns a placeholder with another id. *)
Lemma same_value_twice_refuted :
  ~ same_twice forget_refs [] placement_document fresh_world.
Proof.
  unfold same_twice. intros H. vm_compute in H. discriminate H.
Qed.

(** C5, as worded, fails: a Placement selector twice gives two
    placeholders, once gives one. *)
Lemma union_unordered_idempotent_refuted :
  ~ union_unordered_idempotent [] (Single 1) Select
      (SPlacement "AP Calc BC") (SPlacement "AP Calc BC") fresh_world.
Proof.
  intros H.
  destruct (H _ _ eq_refl eq_refl) as [dAB [dBA [dAA [_ [_ [EAA [_ Hsame]]]]]]].
  vm_compute in EAA. inversion EAA; subst dAA. clear EAA.
  specialize (Hsame (FreshRef 1)). cbn in Hsame.
  destruct Hsame as [Hsame _].
  destruct (Hsame (or_intror (or_introl eq_refl))) as [Habs | []].
  discriminate Habs.
Qed.

(** The same with a Query selector: each evaluation nests a list of its
    own. *)
Lemma union_of_Query_selectors_not_idempotent :
  ~ union_unordered_idempotent sample_catalog (Single 1) Select
      (SQuery (sample_query [STag "core"])) (SQuery (sample_query [STag "core"]))
      fresh_world.
Proof.
  intros H.
  destruct (H _ _ eq_refl eq_refl) as [dAB [dBA [dAA [_ [_ [EAA [_ Hsame]]]]]]].
  vm_compute in EAA. inversion EAA; subst dAA. clear EAA.
  specialize (Hsame (FreshRef 1)). cbn in Hsame.
  destruct Hsame as [Hsame _].
  destruct (Hsame (or_intror (or_introl eq_refl))) as [Habs | []].
  discriminate Habs.
Qed.

(** ** The scenarios of the specification *)

Example class_found :
  result_of (QueryMatcher.matchFlatten [intro_course] (sample_query [SClass (CS 112)]))
            fresh_world
  = ok [FromCatalog intro_course].
Proof. reflexivity. Qed.

Example class_not_found :
  error_of (result_of (QueryMatcher.matchFlatten [intro_course]
                         (sample_query [SClass (CS 999)])) fresh_world)
  = Some (mkError (JSON_stringify (sample_query [SClass (CS 999)]))
                  "CS 999 not found in catalog").
Proof. reflexivity. Qed.

Example placement_synthesized :
  result_of (QueryMatcher.matchFlatten sample_catalog
               (sample_query [SPlacement "AP Calc BC"])) fresh_world
  = ok [NewManual 0 {| filled := false; mf_id := sample_uuid 0;
                       mf_description := "AP Calc BC" |}].
Proof. reflexivity. Qed.

Example placements_not_deduplicated :
  result_of (QueryMatcher.matchFlatten sample_catalog
               (sample_query [SPlacement "AP Calc BC"; SPlacement "AP Calc BC"]))
            fresh_world
  = ok [NewManual 0 {| filled := false; mf_id := sample_uuid 0;
                       mf_description := "AP Calc BC" |};
        NewManual 1 {| filled := false; mf_id := sample_uuid 1;
                       mf_description := "AP Calc BC" |}].
Proof. reflexivity. Qed.

Example nested_query_kept_as_one_element :
  result_of (QueryMatcher.matchFlatten sample_catalog
               (sample_query [SQuery (sample_query [STag "core"]); STag "intro"]))
            fresh_world
  = ok [NewList 0 [FromCatalog cross_listed; FromCatalog odd_code_first];
        FromCatalog intro_course].
Proof. reflexivity. Qed.

Example later_selectors_not_evaluated :
  QueryMatcher.matchFlatten sample_catalog
    (sample_query [STag "core"; STag "none"; SRangeDist (CS 100) (CS 299) "qr";
                   SPlacement "AP Calc BC"]) fresh_world
  = (err (mkError (JSON_stringify
                     (sample_query [STag "core"; STag "none";
                                    SRangeDist (CS 100) (CS 299) "qr";
                                    SPlacement "AP Calc BC"]))
                  "TAG(none) not found in catalog"),
     fresh_world).
Proof. reflexivity. Qed.

Example single_result_mode_wants_one_selector :
  result_of (QueryMatcher.match_ sample_catalog
               (sample_query [STag "core"; STag "intro"]) true) fresh_world
  = err (mkError "MQL structure" "top level MQL should have one query").
Proof. reflexivity. Qed.

(** The Range selector on the sample catalog. *)
Lemma queryRange_first_codes_in_range_witness :
  department_id (CS 100) = department_id (CS 299)
  /\ selects_exactly sample_catalog (first_codes_in_range (CS 100) (CS 299))
       (result_of (evalSelector sample_catalog (sample_query [SRange (CS 100) (CS 299)])
                     (SRange (CS 100) (CS 299))) fresh_world).
Proof.
  split; [reflexivity|].
  apply (@queryRange_first_codes_in_range ascii_runtime sample_catalog
           (sample_query [SRange (CS 100) (CS 299)]) (CS 100) (CS 299) fresh_world).
  reflexivity.
Defined.

(** Two catalog selectors on the sample catalog. *)
Lemma catalog_union_unordered_idempotent_witness :
  catalog_selector (STag "core") = true
  /\ catalog_selector (SDist "qr") = true
  /\ union_unordered_idempotent sample_catalog (Single 1) Select
       (STag "core") (SDist "qr") fresh_world.
Proof.
  split; [reflexivity|]. split; [reflexivity|].
  apply (@catalog_union_unordered_idempotent ascii_runtime sample_catalog (Single 1) Select
           (STag "core") (SDist "qr") fresh_world); reflexivity.
Defined.

(** The sample document: the requirement of priority 10 comes first, the
    two of priority 5 follow in the order of the document. *)
Lemma results_sorted_by_priority_stably_witness :
  matchCourses sample_catalog sample_document fresh_world
  = (ok sample_evaluation, world_after (matchCourses sample_catalog sample_document) fresh_world)
  /\ map requirement (results sample_evaluation) = [req_intro; req_core; req_range]
  /\ StronglySorted priority_ge (map requirement (results sample_evaluation))
  /\ with_priority 5 (map requirement (results sample_evaluation))
     = with_priority 5 (requirements sample_document).
Proof.
  assert (H : matchCourses sample_catalog sample_document fresh_world
              = (ok sample_evaluation,
                 world_after (matchCourses sample_catalog sample_document) fresh_world))
    by reflexivity.
  split; [exact H|].
  destruct (@results_sorted_by_priority_stably ascii_runtime sample_catalog sample_document
              fresh_world _ sample_evaluation H) as [_ [_ [Hs Hp]]].
  split; [reflexivity|]. split; [exact Hs | exact (Hp 5%N)].
Defined.

End OnSamples.

(* ================================================================= *)
(** * The Class selector on the sample inputs, with the query printed *)

Section LabOnSamples.
Local Existing Instance printing_runtime.

(** What the error of a Class selector carries: the query that holds the
    selector, with its [lab]. *)
Example class_error_prints_lab :
  result_of (evalSelector sample_catalog (sample_query [SClass unlisted_lab])
               (SClass unlisted_lab)) fresh_world
  = err (mkError
           ("{" ++ dquote ++ "quantity" ++ dquote ++ ":{" ++ dquote ++ "Single" ++ dquote
            ++ ":1}," ++ dquote ++ "type" ++ dquote ++ ":" ++ dquote ++ "Select" ++ dquote
            ++ "," ++ dquote ++ "selector" ++ dquote ++ ":[{" ++ dquote ++ "Class" ++ dquote
            ++ ":{" ++ dquote ++ "department_id" ++ dquote ++ ":" ++ dquote ++ "CS" ++ dquote
            ++ "," ++ dquote ++ "course_number" ++ dquote ++ ":999," ++ dquote ++ "lab"
            ++ dquote ++ ":true}}]}")
           "CS 999 not found in catalog").
Proof. reflexivity. Qed.

(** C10, as worded, fails: a class that the catalog does not list is
    answered with an error that prints the query, and the query of the
    lecture is not that of the lab. *)
Lemma lab_blind_results_refuted :
  ~ lab_blind_results sample_catalog unlisted_lecture unlisted_lab
      (Single 1) Select fresh_world.
Proof.
  unfold lab_blind_results. intros H. specialize (H eq_refl eq_refl).
  vm_compute in H. discriminate H.
Qed.

End LabOnSamples.

(* ================================================================= *)
(** * The further properties on the sample inputs *)

Section MoreOnSamples.
Local Existing Instance ascii_runtime.

Lemma sample_catalog_no_alias : NoDup (map addr sample_catalog).
Proof.
  cbn. repeat constructor; cbn; intuition discriminate.
Qed.

Lemma queryRange_cross_department_witness :
  department_id (CS 100) <> department_id (MATH 299)
  /\ evalSelector sample_catalog (sample_query [SRange (CS 100) (MATH 299)])
       (SRange (CS 100) (MATH 299)) fresh_world
     = (err (mkError String_of_object "RANGE on different department IDs: CS != MATH"),
        fresh_world).
Proof.
  assert (H : department_id (CS 100) <> department_id (MATH 299)) by (cbn; discriminate).
  split; [exact H|].
  exact (@queryRange_cross_department ascii_runtime sample_catalog
           (sample_query [SRange (CS 100) (MATH 299)]) (CS 100) (MATH 299) fresh_world H).
Defined.

Lemma reserved_selector_fails_document_witness :
  In req_reserved (requirements reserved_document)
  /\ In (SRangeTag (CS 100) (CS 299) "core") (selector (query req_reserved))
  /\ is_ok (result_of (matchCourses sample_catalog reserved_document) fresh_world) = false.
Proof.
  assert (H1 : In req_reserved (requirements reserved_document))
    by (right; left; reflexivity).
  assert (H2 : In (SRangeTag (CS 100) (CS 299) "core") (selector (query req_reserved)))
    by (right; left; reflexivity).
  split; [exact H1|]. split; [exact H2|].
  exact (proj2 (@reserved_selector_fails_document ascii_runtime sample_catalog
                  reserved_document req_reserved (SRangeTag (CS 100) (CS 299) "core")
                  fresh_world H1 H2 eq_refl)).
Defined.

Lemma dist_target_case_insensitive_witness :
  toLowerCase "QR" = toLowerCase "qr"
  /\ same_selection
       (result_of (evalSelector sample_catalog (sample_query [SDist "QR"]) (SDist "QR"))
                  fresh_world)
       (result_of (evalSelector sample_catalog (sample_query [SDist "qr"]) (SDist "qr"))
                  fresh_world).
Proof.
  split; [reflexivity|].
  exact (proj1 (@dist_target_case_insensitive ascii_runtime sample_catalog
                  (sample_query [SDist "QR"]) (sample_query [SDist "qr"])
                  "QR" "qr" "CS" fresh_world fresh_world eq_refl)).
Defined.

Lemma queryRange_inverted_bounds_fail_witness :
  department_id (CS 299) = department_id (CS 100)
  /\ (course_number (CS 100) < course_number (CS 299))%N
  /\ is_ok (result_of (evalSelector sample_catalog (sample_query [SRange (CS 299) (CS 100)])
                         (SRange (CS 299) (CS 100))) fresh_world) = false.
Proof.
  split; [reflexivity|]. split; [reflexivity|].
  rewrite (@queryRange_inverted_bounds_fail ascii_runtime sample_catalog
             (sample_query [SRange (CS 299) (CS 100)]) (CS 299) (CS 100) fresh_world
             eq_refl eq_refl).
  reflexivity.
Defined.

Lemma single_result_mode_needs_one_selector_witness :
  List.length (selector overlapping_query) <> 1%nat
  /\ QueryMatcher.match_ sample_catalog overlapping_query true fresh_world
     = (err (mkError "MQL structure" "top level MQL should have one query"), fresh_world).
Proof.
  assert (H : List.length (selector overlapping_query) <> 1%nat) by (cbn; discriminate).
  split; [exact H|].
  exact (@single_result_mode_needs_one_selector ascii_runtime sample_catalog
           overlapping_query fresh_world H).
Defined.

Lemma modes_agree_on_one_selector_witness :
  NoDup (map addr sample_catalog)
  /\ QueryMatcher.match_ sample_catalog (sample_query [STag "core"]) false fresh_world
     = QueryMatcher.match_ sample_catalog (sample_query [STag "core"]) true fresh_world.
Proof.
  split; [exact sample_catalog_no_alias|].
  exact (@modes_agree_on_one_selector ascii_runtime sample_catalog (Single 1) Select
           (STag "core") fresh_world sample_catalog_no_alias).
Defined.

Lemma matchFlatten_deduplicated_witness :
  QueryMatcher.matchFlatten sample_catalog overlapping_query fresh_world
  = (ok [FromCatalog cross_listed; FromCatalog odd_code_first; FromCatalog intro_course],
     fresh_world)
  /\ NoDup (map identity
              [FromCatalog cross_listed; FromCatalog odd_code_first;
               FromCatalog intro_course]).
Proof.
  assert (H : QueryMatcher.matchFlatten sample_catalog overlapping_query fresh_world
              = (ok [FromCatalog cross_listed; FromCatalog odd_code_first;
                     FromCatalog intro_course], fresh_world)) by reflexivity.
  split; [exact H|].
  exact (proj1 (@matchFlatten_deduplicated ascii_runtime sample_catalog overlapping_query
                  fresh_world fresh_world _ H)).
Defined.

Lemma sample_run :
  matchCourses sample_catalog sample_document fresh_world
  = (ok sample_evaluation,
     world_after (matchCourses sample_catalog sample_document) fresh_world).
Proof. reflexivity. Qed.

Lemma allSelectedCourses_is_the_union_witness :
  matchCourses sample_catalog sample_document fresh_world
  = (ok sample_evaluation,
     world_after (matchCourses sample_catalog sample_document) fresh_world)
  /\ NoDup (map identity (allSelectedCourses sample_evaluation)).
Proof.
  split; [exact sample_run|].
  exact (proj1 (proj2 (@allSelectedCourses_is_the_union ascii_runtime sample_catalog
                         sample_document fresh_world _ sample_evaluation sample_run))).
Defined.

Lemma requirements_matched_independently_witness :
  In {| requirement := req_range;
        selectedCourses := [FromCatalog cross_listed; FromCatalog intro_course] |}
     (results sample_evaluation)
  /\ similar (ok [FromCatalog cross_listed; FromCatalog intro_course])
             (result_of (QueryMatcher.matchFlatten sample_catalog (query req_range))
                        fresh_world).
Proof.
  assert (H : In {| requirement := req_range;
                    selectedCourses := [FromCatalog cross_listed; FromCatalog intro_course] |}
                 (results sample_evaluation))
    by (right; right; left; reflexivity).
  split; [exact H|].
  exact (@requirements_matched_independently ascii_runtime sample_catalog sample_document
           fresh_world _ sample_evaluation sample_run _ fresh_world H).
Defined.

Lemma results_hold_catalog_entries_only_witness :
  matchCourses sample_catalog sample_document fresh_world
  = (ok sample_evaluation,
     world_after (matchCourses sample_catalog sample_document) fresh_world)
  /\ forall x e, In x (allSelectedCourses sample_evaluation) ->
                 In e (catalog_entries x) -> In e sample_catalog.
Proof.
  split; [exact sample_run|].
  exact (proj1 (@results_hold_catalog_entries_only ascii_runtime sample_catalog
                  sample_document fresh_world _ sample_evaluation sample_run)).
Defined.

Lemma sample_document_placement_free :
  forall req, In req (requirements sample_document) -> placement_free (query req) = true.
Proof.
  intros req [<- | [<- | [<- | []]]]; reflexivity.
Qed.

Lemma placement_free_documents_deterministic_witness :
  (forall req, In req (requirements sample_document) -> placement_free (query req) = true)
  /\ same_twice forget_refs sample_catalog sample_document fresh_world.
Proof.
  split; [exact sample_document_placement_free|].
  exact (proj2 (@placement_free_documents_deterministic ascii_runtime sample_catalog
                  sample_document fresh_world fresh_world
                  sample_document_placement_free)).
Defined.

Local Existing Instance ascii_parsing.

Lemma validated_catalog_shape_witness :
  CourseValidator.validateCourses sample_json = ok sample_mapped
  /\ exists entries, sample_json = JArray entries /\ Forall2 Accepted entries sample_mapped.
Proof.
  assert (H : CourseValidator.validateCourses sample_json = ok sample_mapped)
    by reflexivity.
  split; [exact H|].
  exact (@validated_catalog_shape ascii_parsing sample_json sample_mapped H).
Defined.

Lemma validation_errors_point_at_entries_witness :
  CourseValidator.validateCourses faulty_json = err faulty_errors
  /\ faulty_errors <> [].
Proof.
  assert (H : CourseValidator.validateCourses faulty_json = err faulty_errors)
    by reflexivity.
  split; [exact H|].
  exact (proj1 (@validation_errors_point_at_entries ascii_parsing _ faulty_errors H)).
Defined.

Lemma well_shaped_catalog_codes :
  forall e c, In e well_shaped_catalog -> obj e = ACourse c -> Forall two_part (codes c).
Proof.
  intros e c [<- | [<- | []]] E; inversion E; subst; repeat constructor.
Qed.

Lemma queryRange_any_code_on_well_shaped_catalog_witness :
  (forall e c, In e well_shaped_catalog -> obj e = ACourse c -> Forall two_part (codes c))
  /\ department_id (CS 200) = department_id (CS 299)
  /\ selects_exactly well_shaped_catalog (some_code_in_range (CS 200) (CS 299))
       (result_of (evalSelector well_shaped_catalog
                     (sample_query [SRange (CS 200) (CS 299)])
                     (SRange (CS 200) (CS 299))) fresh_world).
Proof.
  split; [exact well_shaped_catalog_codes|]. split; [reflexivity|].
  exact (@queryRange_any_code_on_well_shaped_catalog ascii_runtime well_shaped_catalog
           (sample_query [SRange (CS 200) (CS 299)]) (CS 200) (CS 299) fresh_world
           well_shaped_catalog_codes eq_refl).
Defined.

Lemma queryRange_warns_about_dropped_courses_witness :
  department_id (CS 100) = department_id (CS 299)
  /\ console (world_after (evalSelector sample_catalog
                             (sample_query [SRange (CS 100) (CS 299)])
                             (SRange (CS 100) (CS 299))) fresh_world)
     = [WarnCourse odd_code_first]
  /\ exists warns : CatalogEntry -> bool,
       console (world_after (evalSelector sample_catalog
                               (sample_query [SRange (CS 100) (CS 299)])
                               (SRange (CS 100) (CS 299))) fresh_world)
       = console fresh_world ++ map WarnCourse (filter warns sample_catalog).
Proof.
  split; [reflexivity|]. split; [reflexivity|].
  destruct (@queryRange_warns_about_dropped_courses ascii_runtime sample_catalog
              (sample_query [SRange (CS 100) (CS 299)]) (CS 100) (CS 299) fresh_world
              eq_refl) as [warns [_ [_ [H _]]]].
  exists warns. exact H.
Defined.



Lemma course_without_codes_never_matched_witness :
  reads_codes (SClass (CS 112)) = true
  /\ result_of (evalSelector sample_catalog (sample_query [SClass (CS 112)])
                  (SClass (CS 112))) fresh_world
     = ok [FromCatalog intro_course]
  /\ codes (sample_course ["CS 112"] (Some ["intro"]) (Some ["QR"; "Sc"])) <> [].
Proof.
  split; [reflexivity|]. split; [reflexivity|].
  exact (@course_without_codes_never_matched ascii_runtime sample_catalog
           (sample_query [SClass (CS 112)]) (SClass (CS 112)) fresh_world
           [FromCatalog intro_course] intro_course _
           eq_refl eq_refl (or_introl eq_refl) eq_refl).
Defined.

Lemma rendered_code_splits_back_witness :
  fst (CourseValidator.validateAndMapCourseCode (json_code "CS" "112")
         {| CourseValidator.errors := []; CourseValidator.currentPath := [] |})
  = Some "CS 112"
  /\ exists fields department number,
       json_code "CS" "112" = JObject fields
       /\ get "department" fields = Some (JString department)
       /\ get "number" fields = Some (JString number)
       /\ "CS 112" = (department ++ " " ++ number)%string
       /\ split " " "CS 112" = split " " department ++ split " " number
       /\ (split " " "CS 112" = [department; number]
           <-> no_space department = true /\ no_space number = true)
       /\ (two_part "CS 112" <-> no_space department = true /\ no_space number = true)
       /\ (no_space department = true -> QueryMatcher.department_of "CS 112" = department).
Proof.
  split; [reflexivity|].
  exact (@rendered_code_splits_back (json_code "CS" "112")
           {| CourseValidator.errors := []; CourseValidator.currentPath := [] |}
           "CS 112" eq_refl).
Defined.

(** A department with a space is rendered all the same, and is not what
    the engine reads back. *)
Example spaced_department_not_read_back :
  fst (CourseValidator.validateAndMapCourseCode (json_code "A B" "C")
         {| CourseValidator.errors := []; CourseValidator.currentPath := [] |})
  = Some "A B C"
  /\ QueryMatcher.department_of "A B C" = "A"
  /\ split " " "A B C" = ["A"; "B"; "C"].
Proof. repeat split. Qed.

(** The course without a code passes the validator and is matched by no
    Class selector. *)
Example course_without_codes_accepted :
  CourseValidator.isCourseList
    (JArray [JObject [("title", JString "Seminar"); ("credits", JString "0.5");
                      ("course_codes", JArray [])]]) = true.
Proof. reflexivity. Qed.

End MoreOnSamples.

(* ================================================================= *)
(** * The MQL validator on the sample documents *)

Section MQLOnSamples.
Local Existing Instance ascii_runtime.
Local Existing Instance ascii_strings.

(** The sample document is accepted, reads as [sample_document], and is
    matched as before. *)
Example sample_document_pipeline :
  MQLValidator.validateMQL sample_document_json = ok sample_document_json
  /\ asQueryFile sample_document_json = Some sample_document
  /\ result_of (matchCourses sample_catalog sample_document) fresh_world
     = ok sample_evaluation.
Proof. repeat split; reflexivity. Qed.

(** A document with a RangeTag selector is accepted by the validator, and
    cannot be matched. *)
Example reserved_document_accepted_not_matched :
  MQLValidator.validateMQL reserved_document_json = ok reserved_document_json
  /\ asQueryFile reserved_document_json = Some reserved_document
  /\ is_ok (result_of (matchCourses sample_catalog reserved_document) fresh_world) = false.
Proof. repeat split; reflexivity. Qed.

Example faulty_document_rejected :
  MQLValidator.validateMQL faulty_document_json = err faulty_document_errors.
Proof. reflexivity. Qed.

Example empty_document_leaves_root :
  MQLValidator.validateMQL empty_document_json = ok empty_document_json
  /\ CourseValidator.currentPath
       (snd (MQLValidator.validate empty_document_json
               {| CourseValidator.errors := []; CourseValidator.currentPath := [] |}))
     = ["root"].
Proof. split; reflexivity. Qed.

Lemma validateMQL_error_paths_witness :
  MQLValidator.validateMQL faulty_document_json = err faulty_document_errors
  /\ Forall (fun e => exists suffix,
                 CourseValidator.path e = String.concat "." ("root" :: suffix)
                 /\ at_requirement (requirements_of faulty_document_json) suffix)
            faulty_document_errors.
Proof.
  assert (H : MQLValidator.validateMQL faulty_document_json = err faulty_document_errors)
    by reflexivity.
  split; [exact H|].
  exact (@validateMQL_error_paths ascii_strings faulty_document_json
           faulty_document_errors H).
Defined.

Lemma nested_run :
  matchCourses sample_catalog nested_document fresh_world
  = (ok nested_evaluation,
     world_after (matchCourses sample_catalog nested_document) fresh_world).
Proof. reflexivity. Qed.

Lemma validated_requirements_select_something_witness :
  MQLValidator.validateMQL nested_document_json = ok nested_document_json
  /\ asQueryFile nested_document_json = Some nested_document
  /\ Forall (fun x => no_empty_list x = true)
       [NewList 0 [FromCatalog cross_listed; FromCatalog odd_code_first];
        FromCatalog intro_course].
Proof.
  split; [reflexivity|]. split; [reflexivity|].
  exact (proj2 (@validated_requirements_select_something ascii_runtime ascii_strings
                  nested_document_json nested_document_json nested_document
                  sample_catalog fresh_world _ nested_evaluation
                  eq_refl eq_refl nested_run
                  {| requirement := req_nested;
                     selectedCourses :=
                       [NewList 0 [FromCatalog cross_listed; FromCatalog odd_code_first];
                        FromCatalog intro_course] |}
                  (or_introl eq_refl))).
Defined.

Example plain_catalog_accepted :
  DeprecatedCourseValidator.validateCourses plain_catalog_json = ok plain_catalog_json.
Proof. reflexivity. Qed.

Example faulty_plain_catalog_rejected :
  DeprecatedCourseValidator.validateCourses faulty_plain_catalog_json
  = err [ {| CourseValidator.path := "[0]";
             CourseValidator.message := "'codes' array cannot be empty" |};
          {| CourseValidator.path := "[0]";
             CourseValidator.message := "'credit' must be a non-negative number" |} ].
Proof. reflexivity. Qed.

End MQLOnSamples.
